(** * Azure-Scripts: the blob manager and the Cosmos DB manager

    A shallow embedding of [terminal_storage_account.py] and of
    [cli_tool_cosmos_db.py].  Both scripts are terminal menus around a cloud
    SDK: a handler reads lines with [input], calls SDK methods and prints.

    The terminal is a script of input lines and a log of writes.  The SDK is
    an interface: every method is a transition of an abstract service state
    that returns a value or raises, so a theorem holds for whatever the
    provider answers.  Every SDK call a handler issues is appended to a trace
    together with the answer it got; the claims about "calls issued" are
    statements about that trace. *)

From Equations Require Import Equations.
From Stdlib Require Import List String Ascii Arith Lia Bool.
From Stdlib Require Import DecimalString.
Import ListNotations.
Open Scope string_scope.
Open Scope list_scope.
Open Scope nat_scope.

(** ** Python values shared by both scripts *)

(** The exceptions the handlers distinguish.  [Exception] stands for any
    other subclass of Python's [Exception], with the text [str(e)] gives. *)
Inductive exn : Type :=
| ResourceNotFoundError (msg : string)
| CosmosResourceNotFoundError (msg : string)
| EOFError
| Exception (msg : string).

(** [str(e)], as the f-strings of the handlers print it. *)
Definition exn_str (e : exn) : string :=
  match e with
  | ResourceNotFoundError msg => msg
  | CosmosResourceNotFoundError msg => msg
  | EOFError => "EOF when reading a line"
  | Exception msg => msg
  end.

(** [except ResourceNotFoundError]: the Cosmos error is a subclass of it. *)
Definition is_resource_not_found (e : exn) : bool :=
  match e with
  | ResourceNotFoundError _ | CosmosResourceNotFoundError _ => true
  | _ => false
  end.

(** The newline character, written [\n] in the Python literals. *)
Definition nl : string := String (ascii_of_nat 10) EmptyString.

(** A call returns or raises. *)
Inductive outcome (A : Type) : Type :=
| Ret (a : A)
| Raise (e : exn).
Arguments Ret {A} a.
Arguments Raise {A} e.

Definition raised {A : Type} (r : outcome A) : bool :=
  match r with Ret _ => false | Raise _ => true end.

(** [str.lower()] on the ASCII letters; the handlers only compare the result
    with the one-letter string ['y']. *)
Definition lower_ascii (c : ascii) : ascii :=
  let n := nat_of_ascii c in
  if (65 <=? n) && (n <=? 90) then ascii_of_nat (n + 32) else c.

Fixpoint lower (s : string) : string :=
  match s with
  | EmptyString => EmptyString
  | String c rest => String (lower_ascii c) (lower rest)
  end.

(** [str(n)] for a natural number, as f-strings format it. *)
Definition str_nat (n : nat) : string := NilEmpty.string_of_uint (Nat.to_uint n).

(** [f"{x}"] of a value that may be [None]. *)
Definition str_opt (o : option string) : string :=
  match o with Some s => s | None => "None" end.

(** A value together with the equation that names it, for the loops whose
    termination depends on what a call returned. *)
Definition inspect {A : Type} (a : A) : {b : A | a = b} := exist _ a eq_refl.

(** ** The terminal and the SDK trace *)

Section Runtime.
Context {E Svc : Type}.

(** What a handler can touch: the lines still to be typed, what was written
    so far, the SDK calls issued so far, and the state of the service. *)
Record World : Type := mkWorld {
  stdin : list string;
  stdout : list string;
  trace : list E;
  service : Svc
}.

Definition M (A : Type) : Type := World -> outcome A * World.

Definition ret {A : Type} (a : A) : M A := fun w => (Ret a, w).

Definition bind {A B : Type} (m : M A) (k : A -> M B) : M B :=
  fun w => match m w with
           | (Ret a, w1) => k a w1
           | (Raise e, w1) => (Raise e, w1)
           end.

(** [try: m  except ...: h e] *)
Definition try_except {A : Type} (m : M A) (h : exn -> M A) : M A :=
  fun w => match m w with
           | (Ret a, w1) => (Ret a, w1)
           | (Raise e, w1) => h e w1
           end.

(** [print(s)] *)
Definition print (s : string) : M unit :=
  fun w => (Ret tt, mkWorld (stdin w) (stdout w ++ [s]) (trace w) (service w)).

(** [input(prompt)]: the prompt is written, then a line is read; at the end
    of the script Python raises [EOFError]. *)
Definition input (prompt : string) : M string :=
  fun w => match stdin w with
           | [] => (Raise EOFError,
                    mkWorld [] (stdout w ++ [prompt]) (trace w) (service w))
           | line :: rest => (Ret line,
                    mkWorld rest (stdout w ++ [prompt]) (trace w) (service w))
           end.

(** An SDK method: a transition of the service, logged with its answer. *)
Definition sdk_call {A : Type} (f : Svc -> outcome A * Svc) (ev : outcome A -> E) : M A :=
  fun w => let (r, s1) := f (service w) in
           (r, mkWorld (stdin w) (stdout w) (trace w ++ [ev r]) s1).

(** A local event with no answer, such as [time.sleep]. *)
Definition log (e : E) : M unit :=
  fun w => (Ret tt, mkWorld (stdin w) (stdout w) (trace w ++ [e]) (service w)).

(** The calls issued between two worlds of one run. *)
Definition issued (w w1 : World) : list E := skipn (List.length (trace w)) (trace w1).

End Runtime.
Arguments World : clear implicits.
Arguments M : clear implicits.

Declare Scope py_scope.
Delimit Scope py_scope with py.
Notation "x <- m ;; k" := (bind m (fun x => k))
  (at level 100, m at next level, right associativity) : py_scope.
Notation "m ;; k" := (bind m (fun _ => k))
  (at level 100, right associativity) : py_scope.
Open Scope py_scope.

(** ** What a computation may do to the world *)

Section Behaviour.
Context {E Svc : Type}.

(** [m] reads the script from its front only, and the calls it adds to the
    trace all satisfy [P]. *)
Definition emits (P : E -> Prop) {A : Type} (m : M E Svc A) : Prop :=
  forall w,
    (exists used, stdin w = used ++ stdin (snd (m w))) /\
    (exists evs, trace (snd (m w)) = trace w ++ evs /\ Forall P evs).

(** [m] always returns: no exception comes out of it. *)
Definition never_raises {A : Type} (m : M E Svc A) : Prop :=
  forall w, exists a, fst (m w) = Ret a.

(** The only exception that comes out of [m] is the [EOFError] of [input]. *)
Definition only_eof {A : Type} (m : M E Svc A) : Prop :=
  forall w e, fst (m w) = Raise e -> e = EOFError.

End Behaviour.

(** ** terminal_storage_account.py *)

Module Storage.

(** A blob client is a local handle on one blob of one container. *)
Record BlobClient : Type := mkBlobClient {
  container_name : string;
  blob_name : string
}.

Record ContainerClient : Type := mkContainerClient {
  container : string
}.

(** [props.copy]: both fields are [None] on a blob that was never the
    destination of a copy. *)
Record CopyProperties : Type := mkCopyProperties {
  status : option string;
  status_description : option string
}.

(** The fields of [BlobProperties] the handlers read. *)
Record BlobProperties : Type := mkBlobProperties {
  name : string;
  copy : CopyProperties
}.

(** The [metadata] dict of [set_blob_metadata], in insertion order. *)
Definition dict : Type := list (string * string).

(** Every SDK call of the script, with the answer it got. *)
Inductive event : Type :=
| GetBlobClient (container blob : string) (r : outcome BlobClient)
| GetContainerClient (container : string) (r : outcome ContainerClient)
| Exists (b : BlobClient) (r : outcome bool)
| StartCopyFromUrl (dest : BlobClient) (source_url : string) (r : outcome unit)
| GetBlobProperties (b : BlobClient) (r : outcome BlobProperties)
| DeleteBlob (b : BlobClient) (r : outcome unit)
| ListBlobs (c : ContainerClient) (r : outcome (list BlobProperties))
| SetBlobMetadata (b : BlobClient) (metadata : dict) (r : outcome unit)
| Sleep (seconds : nat).

(** The storage SDK as the script uses it.  The two client constructors are
    local: whether they raise depends on their arguments only.  The other
    methods are requests to the service. *)
Class BlobService (Svc : Type) : Type := {
  new_blob_client : string -> string -> option exn;
  new_container_client : string -> option exn;
  url : BlobClient -> string;
  service_exists : BlobClient -> Svc -> outcome bool * Svc;
  service_start_copy_from_url : BlobClient -> string -> Svc -> outcome unit * Svc;
  service_get_blob_properties : BlobClient -> Svc -> outcome BlobProperties * Svc;
  service_delete_blob : BlobClient -> Svc -> outcome unit * Svc;
  service_list_blobs : ContainerClient -> Svc -> outcome (list BlobProperties) * Svc;
  service_set_blob_metadata : BlobClient -> dict -> Svc -> outcome unit * Svc
}.

(** [status == s] for a status that may be [None]. *)
Definition status_is (st : option string) (s : string) : bool :=
  match st with
  | Some x => String.eqb x s
  | None => false
  end.

(** [status in l] *)
Definition status_in (st : option string) (l : list string) : bool :=
  existsb (status_is st) l.

Section Handlers.
Context {Svc : Type} {sdk : BlobService Svc}.

Local Abbreviation Py := (M event Svc).

(** [blob_service_client.get_blob_client(container, blob)] *)
Definition get_blob_client (c b : string) : Py BlobClient :=
  sdk_call (fun s => (match new_blob_client c b with
                      | Some e => Raise e
                      | None => Ret (mkBlobClient c b)
                      end, s))
           (GetBlobClient c b).

(** [blob_service_client.get_container_client(container)] *)
Definition get_container_client (c : string) : Py ContainerClient :=
  sdk_call (fun s => (match new_container_client c with
                      | Some e => Raise e
                      | None => Ret (mkContainerClient c)
                      end, s))
           (GetContainerClient c).

(** [blob.exists()] *)
Definition BlobClient_exists (b : BlobClient) : Py bool :=
  sdk_call (service_exists b) (Exists b).

(** [dest.start_copy_from_url(source_url)] *)
Definition BlobClient_start_copy_from_url (dest : BlobClient) (source_url : string) : Py unit :=
  sdk_call (service_start_copy_from_url dest source_url) (StartCopyFromUrl dest source_url).

(** [blob.get_blob_properties()] *)
Definition BlobClient_get_blob_properties (b : BlobClient) : Py BlobProperties :=
  sdk_call (service_get_blob_properties b) (GetBlobProperties b).

(** [blob.delete_blob()] *)
Definition BlobClient_delete_blob (b : BlobClient) : Py unit :=
  sdk_call (service_delete_blob b) (DeleteBlob b).

(** [list(container_client.list_blobs())] *)
Definition ContainerClient_list_blobs (c : ContainerClient) : Py (list BlobProperties) :=
  sdk_call (service_list_blobs c) (ListBlobs c).

(** [blob.set_blob_metadata(metadata=metadata)] *)
Definition BlobClient_set_blob_metadata (b : BlobClient) (metadata : dict) : Py unit :=
  sdk_call (service_set_blob_metadata b metadata) (SetBlobMetadata b metadata).

(** [time.sleep(seconds)] *)
Definition time_sleep (seconds : nat) : Py unit := log (Sleep seconds).

(** The [while True] loop of [wait_for_copy], entered with the current
    value of [count].  It ends because [11 - count] decreases. *)
Equations? wait_for_copy_loop (blob_client : BlobClient) (count : nat) : Py bool
  by wf (11 - count) lt :=
  wait_for_copy_loop blob_client count :=
    props <- BlobClient_get_blob_properties blob_client ;;
    let status := status (copy props) in
    print ("  > Copy status: '" ++ str_opt status ++ "'...") ;;
    if status_is status "success" then
      print "  ✅ Copy completed successfully." ;;
      ret true
    else if status_in status ["failed"; "aborted"] then
      print ("  ❌ Copy failed with status: '" ++ str_opt status ++ "'") ;;
      print ("  > Error details: " ++ str_opt (status_description (copy props))) ;;
      ret false
    else
      match gt_dec count 10 with
      | left _ =>
          print "  ⌛ Copy is taking too long. Aborting wait." ;;
          ret false
      | right _ =>
          let count := count + 1 in
          time_sleep 3 ;;
          wait_for_copy_loop blob_client count
      end.
Proof. subst count. change (11 - (count0 + 1) < 11 - count0). lia. Qed.

(** [wait_for_copy(blob_client)] *)
Definition wait_for_copy (blob_client : BlobClient) : Py bool :=
  let count := 0 in
  wait_for_copy_loop blob_client count.

(** The [try] block of [move_specific_blob], with its three local names. *)
Definition move_specific_blob_try (source_container blob_name dest_container : string)
  : Py unit :=
  source_blob <- get_blob_client source_container blob_name ;;
  found <- BlobClient_exists source_blob ;;
  if negb found then
    print (nl ++ "❌ ERROR: Blob '" ++ blob_name ++ "' not found in container '"
              ++ source_container ++ "'.") ;;
    ret tt
  else
    dest_blob <- get_blob_client dest_container blob_name ;;
    print (nl ++ "➡️ Starting copy of '" ++ blob_name ++ "' from '" ++ source_container
              ++ "' to '" ++ dest_container ++ "'...") ;;
    BlobClient_start_copy_from_url dest_blob (url source_blob) ;;
    copied <- wait_for_copy dest_blob ;;
    if copied then
      print ("🗑️ Deleting original blob '" ++ blob_name ++ "' from '"
                ++ source_container ++ "'...") ;;
      BlobClient_delete_blob source_blob ;;
      print (nl ++ "✅ Move operation completed successfully!")
    else
      print (nl ++ "❌ Move operation failed. Original blob was NOT deleted.").

(** The [except] clauses of [move_specific_blob]. *)
Definition move_specific_blob_except (e : exn) : Py unit :=
  if is_resource_not_found e then
    print (nl ++ "❌ ERROR: A container or blob was not found. Please check your names.")
  else
    print (nl ++ "An unexpected error occurred: " ++ exn_str e).

(** [move_specific_blob()] *)
Definition move_specific_blob : Py unit :=
  print "--- Move a Specific Blob (Copy + Delete) ---" ;;
  source_container <- input "Enter the SOURCE container name: " ;;
  blob_name <- input "Enter the exact name of the blob to move: " ;;
  dest_container <- input "Enter the DESTINATION container name: " ;;
  try_except (move_specific_blob_try source_container blob_name dest_container)
             move_specific_blob_except.

(** The [for i, blob in enumerate(blob_list)] loop of [move_all_blobs]. *)
Fixpoint move_all_blobs_for (source_container dest_container : string)
    (total_blobs i : nat) (blob_list : list BlobProperties) : Py unit :=
  match blob_list with
  | [] => ret tt
  | blob :: rest =>
      print (nl ++ "--- [" ++ str_nat (i + 1) ++ "/" ++ str_nat total_blobs
                ++ "] Moving '" ++ name blob ++ "' ---") ;;
      source_blob <- get_blob_client source_container (name blob) ;;
      dest_blob <- get_blob_client dest_container (name blob) ;;
      BlobClient_start_copy_from_url dest_blob (url source_blob) ;;
      copied <- wait_for_copy dest_blob ;;
      (if copied then
         print ("  🗑️ Deleting original blob '" ++ name blob ++ "'...") ;;
         BlobClient_delete_blob source_blob
       else
         print ("  ❌ Failed to move '" ++ name blob ++ "'. Skipping deletion.")) ;;
      move_all_blobs_for source_container dest_container total_blobs (i + 1) rest
  end.

(** The [try] block of [move_all_blobs]. *)
Definition move_all_blobs_try (source_container dest_container : string) : Py unit :=
  source_container_client <- get_container_client source_container ;;
  blob_list <- ContainerClient_list_blobs source_container_client ;;
  let total_blobs := List.length blob_list in
  if total_blobs =? 0 then
    print ("No blobs found in container '" ++ source_container ++ "'.") ;;
    ret tt
  else
    print (nl ++ "Found " ++ str_nat total_blobs ++ " blob(s) to move.") ;;
    move_all_blobs_for source_container dest_container total_blobs 0 blob_list ;;
    print (nl ++ "✅ All move operations completed.").

(** The [except] clauses of [move_all_blobs]. *)
Definition move_all_blobs_except (source_container : string) (e : exn) : Py unit :=
  if is_resource_not_found e then
    print (nl ++ "❌ ERROR: Source container '" ++ source_container ++ "' not found.")
  else
    print (nl ++ "An unexpected error occurred: " ++ exn_str e).

(** [move_all_blobs()] *)
Definition move_all_blobs : Py unit :=
  print "--- Move All Blobs from a Container (Copy + Delete) ---" ;;
  source_container <- input "Enter the SOURCE container name: " ;;
  dest_container <- input "Enter the DESTINATION container name: " ;;
  confirm <- input ("⚠️ Are you sure you want to MOVE (copy and delete) ALL blobs from '"
                      ++ source_container ++ "'? (y/n): ") ;;
  if negb (String.eqb (lower confirm) "y") then
    print "Operation cancelled." ;;
    ret tt
  else
    try_except (move_all_blobs_try source_container dest_container)
               (move_all_blobs_except source_container).

(** [metadata[key] = value]: a known key keeps its place, a new one goes last. *)
Fixpoint dict_set (metadata : dict) (key value : string) : dict :=
  match metadata with
  | [] => [(key, value)]
  | (k, v) :: rest =>
      if String.eqb k key then (k, value) :: rest
      else (k, v) :: dict_set rest key value
  end.

(** Truth value of a string: [not key] holds of the empty string only. *)
Definition truthy (s : string) : bool :=
  match s with EmptyString => false | String _ _ => true end.

(** Truth value of a dict: [not metadata] holds of the empty dict only. *)
Definition dict_truthy (metadata : dict) : bool :=
  match metadata with [] => false | _ :: _ => true end.

(** The [while True] loop of [set_blob_metadata] that reads the pairs.  It is
    written on the world itself: every turn consumes a line of the script,
    and [input] raises at its end. *)
Equations? set_blob_metadata_while (metadata : dict) (w : World event Svc)
  : outcome dict * World event Svc by wf (List.length (stdin w)) lt :=
  set_blob_metadata_while metadata w with inspect (input "Enter metadata key: " w) := {
    | exist _ (Raise e, w1) _ := (Raise e, w1);
    | exist _ (Ret key, w1) _ with inspect (negb (truthy key)) := {
        | exist _ true _ := (Ret metadata, w1);
        | exist _ false _
            with inspect (input ("Enter value for '" ++ key ++ "': ") w1) := {
            | exist _ (Raise e, w2) _ := (Raise e, w2);
            | exist _ (Ret value, w2) _ :=
                set_blob_metadata_while (dict_set metadata key value) w2 } } }.
Proof.
  match goal with
  | H1 : input _ w = (Ret key, w1), H2 : input _ w1 = (Ret value, w2) |- _ =>
      unfold input in H1, H2;
      destruct (stdin w) as [|line0 rest0]; [discriminate H1|];
      injection H1 as _ <-; simpl in H2;
      destruct rest0 as [|line1 rest1]; [discriminate H2|];
      injection H2 as _ <-; simpl; lia
  end.
Qed.

(** [for k, v in metadata.items(): print(f"  {k}: {v}")] *)
Fixpoint print_items (metadata : dict) : Py unit :=
  match metadata with
  | [] => ret tt
  | (k, v) :: rest => print ("  " ++ k ++ ": " ++ v) ;; print_items rest
  end.

(** The [try] block of [set_blob_metadata]. *)
Definition set_blob_metadata_try (container_name blob_name : string) : Py unit :=
  blob_client <- get_blob_client container_name blob_name ;;
  found <- BlobClient_exists blob_client ;;
  if negb found then
    print (nl ++ "❌ ERROR: Blob '" ++ blob_name ++ "' in container '"
              ++ container_name ++ "' not found.") ;;
    ret tt
  else
    print (nl ++ "Enter new metadata key-value pairs. Press Enter on an empty key to finish.") ;;
    let metadata := [] in
    metadata <- set_blob_metadata_while metadata ;;
    if negb (dict_truthy metadata) then
      print (nl ++ "No metadata entered. Operation cancelled.") ;;
      ret tt
    else
      print (nl ++ "Setting the following metadata:") ;;
      print_items metadata ;;
      confirm <- input "This will OVERWRITE all existing metadata. Continue? (y/n): " ;;
      if String.eqb (lower confirm) "y" then
        BlobClient_set_blob_metadata blob_client metadata ;;
        print (nl ++ "✅ Metadata set successfully!")
      else
        print (nl ++ "Operation cancelled.").

(** [set_blob_metadata()] *)
Definition set_blob_metadata : Py unit :=
  print "--- Set Blob Metadata ---" ;;
  container_name <- input "Enter the container name: " ;;
  blob_name <- input "Enter the blob name: " ;;
  try_except (set_blob_metadata_try container_name blob_name)
             (fun e => print (nl ++ "An unexpected error occurred: " ++ exn_str e)).

(** The statements of [move_specific_blob] that run before it calls
    [wait_for_copy] (the prompts, the existence check and the start of the
    copy), as a computation of its own: it gives the source and destination
    clients when the handler gets as far as the wait, and [None] when it
    returns at the existence check.  It names the world in which the
    copy-and-wait step starts. *)
Definition move_specific_blob_until_wait : Py (option (BlobClient * BlobClient)) :=
  print "--- Move a Specific Blob (Copy + Delete) ---" ;;
  source_container <- input "Enter the SOURCE container name: " ;;
  blob_name <- input "Enter the exact name of the blob to move: " ;;
  dest_container <- input "Enter the DESTINATION container name: " ;;
  source_blob <- get_blob_client source_container blob_name ;;
  found <- BlobClient_exists source_blob ;;
  if negb found then
    print (nl ++ "❌ ERROR: Blob '" ++ blob_name ++ "' not found in container '"
              ++ source_container ++ "'.") ;;
    ret None
  else
    dest_blob <- get_blob_client dest_container blob_name ;;
    print (nl ++ "➡️ Starting copy of '" ++ blob_name ++ "' from '" ++ source_container
              ++ "' to '" ++ dest_container ++ "'...") ;;
    BlobClient_start_copy_from_url dest_blob (url source_blob) ;;
    ret (Some (source_blob, dest_blob)).

(** What [move_specific_blob] does once the copy has been started, given the
    answer of [wait_for_copy]. *)
Definition move_specific_blob_finish (blob_name source_container : string)
    (source_blob : BlobClient) (copied : bool) : Py unit :=
  if copied then
    print ("🗑️ Deleting original blob '" ++ blob_name ++ "' from '"
              ++ source_container ++ "'...") ;;
    BlobClient_delete_blob source_blob ;;
    print (nl ++ "✅ Move operation completed successfully!")
  else
    print (nl ++ "❌ Move operation failed. Original blob was NOT deleted.").

(** The bulk move as the specification words it: each element of the
    enumerated sequence, in order, goes through the single-object move
    workflow, that is the [try] block of [move_specific_blob] with its
    existence check and its [except] clauses, the names being passed instead
    of typed.  It is compared with [move_all_blobs] on the calls issued and
    on the service state, not on the lines printed. *)
Fixpoint move_each_as_specified (source_container dest_container : string)
    (blob_list : list BlobProperties) : Py unit :=
  match blob_list with
  | [] => ret tt
  | blob :: rest =>
      try_except (move_specific_blob_try source_container (name blob) dest_container)
                 move_specific_blob_except ;;
      move_each_as_specified source_container dest_container rest
  end.

(** The specified bulk move: confirmation, eager enumeration, then the
    single-object workflow on every element. *)
Definition move_all_blobs_as_specified : Py unit :=
  print "--- Move All Blobs from a Container (Copy + Delete) ---" ;;
  source_container <- input "Enter the SOURCE container name: " ;;
  dest_container <- input "Enter the DESTINATION container name: " ;;
  confirm <- input ("⚠️ Are you sure you want to MOVE (copy and delete) ALL blobs from '"
                      ++ source_container ++ "'? (y/n): ") ;;
  if negb (String.eqb (lower confirm) "y") then
    print "Operation cancelled." ;;
    ret tt
  else
    try_except
      (source_container_client <- get_container_client source_container ;;
       blob_list <- ContainerClient_list_blobs source_container_client ;;
       move_each_as_specified source_container dest_container blob_list)
      (move_all_blobs_except source_container).

End Handlers.

(** *** Reading a trace *)

Definition is_copy (e : event) : bool :=
  match e with StartCopyFromUrl _ _ _ => true | _ => false end.

Definition is_delete (e : event) : bool :=
  match e with DeleteBlob _ _ => true | _ => false end.

Definition is_fetch (e : event) : bool :=
  match e with GetBlobProperties _ _ => true | _ => false end.

Definition is_sleep (e : event) : bool :=
  match e with Sleep _ => true | _ => false end.

Definition is_exists (e : event) : bool :=
  match e with Exists _ _ => true | _ => false end.

Definition is_set_metadata (e : event) : bool :=
  match e with SetBlobMetadata _ _ _ => true | _ => false end.

(** The call of this event raised. *)
Definition call_raised (e : event) : bool :=
  match e with
  | GetBlobClient _ _ r => raised r
  | GetContainerClient _ r => raised r
  | Exists _ r => raised r
  | StartCopyFromUrl _ _ r => raised r
  | GetBlobProperties _ r => raised r
  | DeleteBlob _ r => raised r
  | ListBlobs _ r => raised r
  | SetBlobMetadata _ _ r => raised r
  | Sleep _ => false
  end.

(** The exception the call of this event raised, when it raised one. *)
Definition call_exn (e : event) : option exn :=
  match e with
  | GetBlobClient _ _ (Raise x) | GetContainerClient _ (Raise x) | Exists _ (Raise x)
  | StartCopyFromUrl _ _ (Raise x) | GetBlobProperties _ (Raise x) | DeleteBlob _ (Raise x)
  | ListBlobs _ (Raise x) | SetBlobMetadata _ _ (Raise x) => Some x
  | _ => None
  end.

(** An existence check that did not answer [True]. *)
Definition exists_not_true (e : event) : bool :=
  match e with
  | Exists _ (Ret true) => false
  | Exists _ _ => true
  | _ => false
  end.

(** How many events of a trace satisfy [f]. *)
Definition count (f : event -> bool) (evs : list event) : nat :=
  List.length (filter f evs).

(** The status fields read on a trace: one for each fetch of properties that
    returned, in order. *)
Definition observed (evs : list event) : list (option string) :=
  flat_map (fun e => match e with
                     | GetBlobProperties _ (Ret props) => [status (copy props)]
                     | _ => []
                     end) evs.

(** A status that is none of ["success"], ["failed"], ["aborted"]. *)
Definition pending (st : option string) : bool :=
  negb (status_is st "success") && negb (status_in st ["failed"; "aborted"]).

(** A fetch of properties that returned with status ["success"]. *)
Definition is_success (e : event) : bool :=
  match e with
  | GetBlobProperties _ (Ret props) => status_is (status (copy props)) "success"
  | _ => false
  end.

(** The calls one run of the polling loop can issue when it is entered with
    [count], and the result that goes with them: a fetch that raises, a fetch
    that ends the loop, or a pending fetch followed by a sleep and the rest. *)
Inductive wait_trace (b : BlobClient) : nat -> outcome bool -> list event -> Prop :=
| wait_raise count e :
    wait_trace b count (Raise e) [GetBlobProperties b (Raise e)]
| wait_success count props :
    status_is (status (copy props)) "success" = true ->
    wait_trace b count (Ret true) [GetBlobProperties b (Ret props)]
| wait_failed count props :
    status_is (status (copy props)) "success" = false ->
    status_in (status (copy props)) ["failed"; "aborted"] = true ->
    wait_trace b count (Ret false) [GetBlobProperties b (Ret props)]
| wait_timeout count props :
    pending (status (copy props)) = true ->
    10 < count ->
    wait_trace b count (Ret false) [GetBlobProperties b (Ret props)]
| wait_again count props r evs :
    pending (status (copy props)) = true ->
    count <= 10 ->
    wait_trace b (count + 1) r evs ->
    wait_trace b count r (GetBlobProperties b (Ret props) :: Sleep 3 :: evs).

(** The calls of a polling run whose fetches were answered by [answers]: one
    fetch per answer, and [time.sleep(3)] between two fetches. *)
Fixpoint polls (b : BlobClient) (answers : list (outcome BlobProperties)) : list event :=
  match answers with
  | [] => []
  | a :: rest =>
      GetBlobProperties b a :: match rest with
                               | [] => []
                               | _ :: _ => Sleep 3 :: polls b rest
                               end
  end.

(** A run that issued [evs] and came to [r] let its first exception out: if
    it returned, no call raised; if it raised [x], the call that raised [x]
    is the last one issued and no call before it raised. *)
Definition raise_ends {A : Type} (r : outcome A) (evs : list event) : Prop :=
  match r with
  | Ret _ => count call_raised evs = 0
  | Raise x => exists pre ev,
      evs = pre ++ [ev] /\ count call_raised pre = 0 /\ call_exn ev = Some x
  end.

(** The lines an operator types to enter these key-value pairs. *)
Definition typed_pairs (pairs : list (string * string)) : list string :=
  flat_map (fun p => [fst p; snd p]) pairs.

(** The dict after these pairs were assigned in order. *)
Definition assigned (metadata : dict) (pairs : list (string * string)) : dict :=
  fold_left (fun md p => dict_set md (fst p) (snd p)) pairs metadata.

(** The trace without its existence checks. *)
Definition without_exists (evs : list event) : list event :=
  filter (fun e => negb (is_exists e)) evs.

(** *** The other handlers and the menu *)

(** The fields of the SDK's [BlobProperties] that only the information
    handlers read: [properties.blob_tier], [properties.metadata] (which may
    be [None]) and [properties.items()], each value as [str] prints it. *)
Class BlobPropertiesFields : Type := {
  BlobProperties_blob_tier : BlobProperties -> option string;
  BlobProperties_metadata : BlobProperties -> option dict;
  BlobProperties_items : BlobProperties -> list (string * string)
}.

(** [f"{s:<width}"]: [s] padded with spaces on the right up to [width]. *)
Definition ljust (s : string) (width : nat) : string :=
  (s ++ string_of_list_ascii (repeat " "%char (width - String.length s)))%string.

Section OtherHandlers.
Context {Svc : Type} {sdk : BlobService Svc} {fields : BlobPropertiesFields}.

Local Abbreviation Py := (M event Svc).

(** The [try] block of [copy_specific_blob]. *)
Definition copy_specific_blob_try (source_container blob_name dest_container : string)
  : Py unit :=
  source_blob <- get_blob_client source_container blob_name ;;
  found <- BlobClient_exists source_blob ;;
  if negb found then
    print (nl ++ "❌ ERROR: Blob '" ++ blob_name ++ "' not found in container '"
              ++ source_container ++ "'.") ;;
    ret tt
  else
    dest_blob <- get_blob_client dest_container blob_name ;;
    print (nl ++ "➡️ Starting copy of '" ++ blob_name ++ "' from '" ++ source_container
              ++ "' to '" ++ dest_container ++ "'...") ;;
    BlobClient_start_copy_from_url dest_blob (url source_blob) ;;
    wait_for_copy dest_blob ;;
    ret tt.

(** The [except] clauses of [copy_specific_blob]. *)
Definition copy_specific_blob_except (e : exn) : Py unit :=
  if is_resource_not_found e then
    print (nl ++ "❌ ERROR: A container was not found. Please check your names.")
  else
    print (nl ++ "An unexpected error occurred: " ++ exn_str e).

(** [copy_specific_blob()] *)
Definition copy_specific_blob : Py unit :=
  print "--- Copy a Specific Blob ---" ;;
  source_container <- input "Enter the SOURCE container name: " ;;
  blob_name <- input "Enter the exact name of the blob to copy: " ;;
  dest_container <- input "Enter the DESTINATION container name: " ;;
  try_except (copy_specific_blob_try source_container blob_name dest_container)
             copy_specific_blob_except.

(** The [for i, blob in enumerate(blob_list)] loop of [copy_all_blobs]. *)
Fixpoint copy_all_blobs_for (source_container dest_container : string)
    (total_blobs i : nat) (blob_list : list BlobProperties) : Py unit :=
  match blob_list with
  | [] => ret tt
  | blob :: rest =>
      print (nl ++ "--- [" ++ str_nat (i + 1) ++ "/" ++ str_nat total_blobs
                ++ "] Copying '" ++ name blob ++ "' ---") ;;
      source_blob <- get_blob_client source_container (name blob) ;;
      dest_blob <- get_blob_client dest_container (name blob) ;;
      BlobClient_start_copy_from_url dest_blob (url source_blob) ;;
      wait_for_copy dest_blob ;;
      copy_all_blobs_for source_container dest_container total_blobs (i + 1) rest
  end.

(** The [try] block of [copy_all_blobs]. *)
Definition copy_all_blobs_try (source_container dest_container : string) : Py unit :=
  source_container_client <- get_container_client source_container ;;
  blob_list <- ContainerClient_list_blobs source_container_client ;;
  let total_blobs := List.length blob_list in
  if total_blobs =? 0 then
    print ("No blobs found in container '" ++ source_container ++ "'.") ;;
    ret tt
  else
    print (nl ++ "Found " ++ str_nat total_blobs ++ " blob(s) to copy.") ;;
    copy_all_blobs_for source_container dest_container total_blobs 0 blob_list ;;
    print (nl ++ "✅ All copy operations completed.").

(** [copy_all_blobs()]; its [except] clauses print what those of
    [move_all_blobs] print. *)
Definition copy_all_blobs : Py unit :=
  print "--- Copy All Blobs from a Container ---" ;;
  source_container <- input "Enter the SOURCE container name: " ;;
  dest_container <- input "Enter the DESTINATION container name: " ;;
  try_except (copy_all_blobs_try source_container dest_container)
             (move_all_blobs_except source_container).

(** The [except] clauses shared by the three information handlers. *)
Definition blob_not_found_except (container_name blob_name : string) (e : exn) : Py unit :=
  if is_resource_not_found e then
    print (nl ++ "❌ ERROR: Blob '" ++ blob_name ++ "' in container '"
              ++ container_name ++ "' not found.")
  else
    print (nl ++ "An unexpected error occurred: " ++ exn_str e).

(** [get_access_tier()] *)
Definition get_access_tier : Py unit :=
  print "--- Get Blob Access Tier ---" ;;
  container_name <- input "Enter the container name: " ;;
  blob_name <- input "Enter the blob name: " ;;
  try_except
    (blob_client <- get_blob_client container_name blob_name ;;
     properties <- BlobClient_get_blob_properties blob_client ;;
     print (nl ++ "---------------------------------") ;;
     print ("Blob:          " ++ blob_name) ;;
     print ("Access Tier:   " ++ str_opt (BlobProperties_blob_tier properties)) ;;
     print "---------------------------------")
    (blob_not_found_except container_name blob_name).

(** [for prop, value in properties.items(): print(f"{prop:<25}: {value}")] *)
Fixpoint print_properties (items : list (string * string)) : Py unit :=
  match items with
  | [] => ret tt
  | (prop, value) :: rest =>
      print (ljust prop 25 ++ ": " ++ value) ;; print_properties rest
  end.

(** [get_blob_properties()], the handler of menu entry 6. *)
Definition get_blob_properties : Py unit :=
  print "--- Get All Blob Properties ---" ;;
  container_name <- input "Enter the container name: " ;;
  blob_name <- input "Enter the blob name: " ;;
  try_except
    (blob_client <- get_blob_client container_name blob_name ;;
     properties <- BlobClient_get_blob_properties blob_client ;;
     print (nl ++ "--- Properties for '" ++ blob_name ++ "' ---") ;;
     print_properties (BlobProperties_items properties) ;;
     print "-------------------------------------")
    (blob_not_found_except container_name blob_name).

(** [for key, value in metadata.items(): print(f"{key}: {value}")] *)
Fixpoint print_metadata (metadata : dict) : Py unit :=
  match metadata with
  | [] => ret tt
  | (key, value) :: rest => print (key ++ ": " ++ value) ;; print_metadata rest
  end.

(** [view_blob_metadata()]; [not metadata] holds of [None] and of the empty
    dict. *)
Definition view_blob_metadata : Py unit :=
  print "--- View Blob Metadata ---" ;;
  container_name <- input "Enter the container name: " ;;
  blob_name <- input "Enter the blob name: " ;;
  try_except
    (blob_client <- get_blob_client container_name blob_name ;;
     properties <- BlobClient_get_blob_properties blob_client ;;
     let metadata := BlobProperties_metadata properties in
     print (nl ++ "--- Metadata for '" ++ blob_name ++ "' ---") ;;
     (match metadata with
      | None | Some [] => print "No metadata found for this blob."
      | Some (first :: rest) => print_metadata (first :: rest)
      end) ;;
     print "------------------------------------")
    (blob_not_found_except container_name blob_name).

(** [clear_screen()] runs the terminal's clear command.  The screen is not
    part of the world: the command reads no line of the script, writes
    nothing through [print] and calls no SDK method. *)
Definition clear_screen : Py unit := ret tt.

(** The lines of the menu. *)
Definition main_menu_print : Py unit :=
  print "========== Azure Blob Manager ==========" ;;
  print (nl ++ "--- Copy & Move Operations ---") ;;
  print "1. Copy a specific blob" ;;
  print "2. Copy ALL blobs in a container" ;;
  print "3. Move a specific blob (deletes original)" ;;
  print "4. Move ALL blobs in a container (deletes originals)" ;;
  print (nl ++ "--- Information & Properties ---") ;;
  print "5. Get a blob's access tier" ;;
  print "6. Get all of a blob's properties" ;;
  print "7. View a blob's metadata" ;;
  print "8. Set/Update a blob's metadata" ;;
  print (nl ++ "Q. Quit") ;;
  print "========================================".

(** The [if]/[elif] chain of [main_menu]: the answer says whether the loop
    is left by [break]. *)
Definition main_menu_dispatch (choice : string) : Py bool :=
  if String.eqb choice "1" then copy_specific_blob ;; ret false
  else if String.eqb choice "2" then copy_all_blobs ;; ret false
  else if String.eqb choice "3" then move_specific_blob ;; ret false
  else if String.eqb choice "4" then move_all_blobs ;; ret false
  else if String.eqb choice "5" then get_access_tier ;; ret false
  else if String.eqb choice "6" then get_blob_properties ;; ret false
  else if String.eqb choice "7" then view_blob_metadata ;; ret false
  else if String.eqb choice "8" then set_blob_metadata ;; ret false
  else if String.eqb choice "q" then print "Exiting. Goodbye! 👋" ;; ret true
  else print "Invalid choice. Please try again." ;; ret false.

(** The [while True] loop of [main_menu], for at most [fuel] turns.  The
    answer is [Some tt] when the loop was left by [break] and [None] when the
    turns ran out; every turn reads at least one line, so a script of fewer
    lines than [fuel] never runs out of turns. *)
Fixpoint main_menu (fuel : nat) : Py (option unit) :=
  match fuel with
  | 0 => ret None
  | Datatypes.S fuel' =>
      clear_screen ;;
      main_menu_print ;;
      choice <- input "Enter your choice: " ;;
      let choice := lower choice in
      clear_screen ;;
      quit <- main_menu_dispatch choice ;;
      if quit then ret (Some tt)
      else
        print nl ;;
        input "Press Enter to return to the menu..." ;;
        main_menu fuel'
  end.

(** One turn of the loop of [main_menu] as a computation of its own: the
    menu, the choice, the handler and, unless the loop is left, the wait for
    Enter.  It answers whether the loop is left. *)
Definition main_menu_turn : Py bool :=
  clear_screen ;;
  main_menu_print ;;
  choice <- input "Enter your choice: " ;;
  let choice := lower choice in
  clear_screen ;;
  quit <- main_menu_dispatch choice ;;
  if quit then ret true
  else
    print nl ;;
    input "Press Enter to return to the menu..." ;;
    ret false.

(** Where the bulk handlers copy a blob to, and from which address: the
    same name in the destination container, from the address of the blob in
    the source container. *)
Definition copy_of (source_container dest_container : string) (blob : BlobProperties)
  : BlobClient * string :=
  (mkBlobClient dest_container (name blob),
   url (mkBlobClient source_container (name blob))).

End OtherHandlers.

(** *** Reading more of a trace *)

(** The blobs the copy calls of a trace wrote to, with the address each was
    copied from, in order. *)
Definition copies (evs : list event) : list (BlobClient * string) :=
  flat_map (fun e => match e with
                     | StartCopyFromUrl dest source_url _ => [(dest, source_url)]
                     | _ => []
                     end) evs.

(** The blobs the delete calls of a trace were issued on, in order. *)
Definition deleted (evs : list event) : list BlobClient :=
  flat_map (fun e => match e with
                     | DeleteBlob b _ => [b]
                     | _ => []
                     end) evs.

(** The dicts the metadata-setting calls of a trace sent, with their blobs. *)
Definition metadata_sent (evs : list event) : list (BlobClient * dict) :=
  flat_map (fun e => match e with
                     | SetBlobMetadata b metadata _ => [(b, metadata)]
                     | _ => []
                     end) evs.

(** A call that changes what the account stores. *)
Definition is_write (e : event) : bool :=
  match e with
  | StartCopyFromUrl _ _ _ | DeleteBlob _ _ | SetBlobMetadata _ _ _ => true
  | _ => false
  end.

(** Seconds slept on a trace. *)
Definition slept (evs : list event) : nat :=
  list_sum (map (fun e => match e with Sleep seconds => seconds | _ => 0 end) evs).

End Storage.

(** ** cli_tool_cosmos_db.py *)

Module Cosmos.

Record DatabaseProxy : Type := mkDatabaseProxy {
  database : string
}.

Record ContainerProxy : Type := mkContainerProxy {
  container_database : string;
  container : string
}.

(** The SDK calls of [delete_item], with the answer each got. *)
Inductive event : Type :=
| GetDatabaseClient (db : string) (r : outcome DatabaseProxy)
| GetContainerClient (db : DatabaseProxy) (container : string) (r : outcome ContainerProxy)
| DeleteItem (c : ContainerProxy) (item partition_key : string) (r : outcome unit).

(** The Cosmos SDK as [delete_item] uses it: two local proxy constructors and
    one request to the service. *)
Class CosmosService (Svc : Type) : Type := {
  new_database_client : string -> option exn;
  new_container_client : DatabaseProxy -> string -> option exn;
  service_delete_item : ContainerProxy -> string -> string -> Svc -> outcome unit * Svc
}.

Section Handlers.
Context {Svc : Type} {sdk : CosmosService Svc}.

Local Abbreviation Py := (M event Svc).

(** [client.get_database_client(db_name)] *)
Definition get_database_client (db_name : string) : Py DatabaseProxy :=
  sdk_call (fun s => (match new_database_client db_name with
                      | Some e => Raise e
                      | None => Ret (mkDatabaseProxy db_name)
                      end, s))
           (GetDatabaseClient db_name).

(** [db.get_container_client(container_name)] *)
Definition get_container_client (db : DatabaseProxy) (container_name : string)
  : Py ContainerProxy :=
  sdk_call (fun s => (match new_container_client db container_name with
                      | Some e => Raise e
                      | None => Ret (mkContainerProxy (database db) container_name)
                      end, s))
           (GetContainerClient db container_name).

(** [container_client.delete_item(item=item_id, partition_key=part_key)] *)
Definition ContainerProxy_delete_item (c : ContainerProxy) (item_id part_key : string)
  : Py unit :=
  sdk_call (service_delete_item c item_id part_key) (DeleteItem c item_id part_key).

(** The [try] block of [delete_item]. *)
Definition delete_item_try (db_name container_name item_id part_key : string) : Py unit :=
  db <- get_database_client db_name ;;
  container_client <- get_container_client db container_name ;;
  ContainerProxy_delete_item container_client item_id part_key ;;
  print (nl ++ "✅ Item deleted successfully!").

(** The [except] clauses of [delete_item]. *)
Definition delete_item_except (item_id : string) (e : exn) : Py unit :=
  if is_resource_not_found e then
    print ("❌ ERROR: Item '" ++ item_id ++ "' not found.")
  else
    print ("An error occurred: " ++ exn_str e).

(** [delete_item()] *)
Definition delete_item : Py unit :=
  print "--- Delete a Specific Item ---" ;;
  db_name <- input "Enter the database name: " ;;
  container_name <- input "Enter the container name: " ;;
  item_id <- input "Enter the item 'id' to delete: " ;;
  part_key <- input "Enter the partition key value for this item: " ;;
  confirm <- input ("⚠️ Are you sure you want to delete item '" ++ item_id
                      ++ "'? This cannot be undone. (y/n): ") ;;
  if negb (String.eqb (lower confirm) "y") then
    print "Operation cancelled." ;;
    ret tt
  else
    try_except (delete_item_try db_name container_name item_id part_key)
               (delete_item_except item_id).

End Handlers.
End Cosmos.

(** ** An in-memory storage account

    A small stand-in for the provider, used to run the handlers on concrete
    scripts.  A copy stays ["pending"] for [pending_polls] more fetches of
    properties and then shows [final_status]. *)

Module Emulator.
Import Storage.

Record Account : Type := mkAccount {
  containers : list string;
  blobs : list BlobClient;
  pending_polls : nat;
  final_status : string
}.

Definition same_blob (a b : BlobClient) : bool :=
  String.eqb (container_name a) (container_name b)
  && String.eqb (blob_name a) (blob_name b).

Definition has_container (acc : Account) (c : string) : bool :=
  existsb (String.eqb c) (containers acc).

Definition has_blob (acc : Account) (b : BlobClient) : bool :=
  existsb (same_blob b) (blobs acc).

Definition missing_container : exn :=
  ResourceNotFoundError "The specified container does not exist.".

Definition missing_blob : exn :=
  ResourceNotFoundError "The specified blob does not exist.".

Definition no_copy : CopyProperties := mkCopyProperties None None.

Definition account_exists (b : BlobClient) (acc : Account) : outcome bool * Account :=
  (Ret (has_blob acc b), acc).

Definition account_start_copy (dest : BlobClient) (source_url : string) (acc : Account)
  : outcome unit * Account :=
  if has_container acc (container_name dest) then
    (Ret tt,
     mkAccount (containers acc)
               (if has_blob acc dest then blobs acc else blobs acc ++ [dest])
               (pending_polls acc) (final_status acc))
  else (Raise missing_container, acc).

Definition account_get_blob_properties (b : BlobClient) (acc : Account)
  : outcome BlobProperties * Account :=
  if has_blob acc b then
    match pending_polls acc with
    | 0 =>
        (Ret (mkBlobProperties (blob_name b)
                (mkCopyProperties (Some (final_status acc)) None)), acc)
    | Datatypes.S n =>
        (Ret (mkBlobProperties (blob_name b)
                (mkCopyProperties (Some "pending") None)),
         mkAccount (containers acc) (blobs acc) n (final_status acc))
    end
  else (Raise missing_blob, acc).

Definition account_delete_blob (b : BlobClient) (acc : Account) : outcome unit * Account :=
  if has_blob acc b then
    (Ret tt,
     mkAccount (containers acc)
               (filter (fun x => negb (same_blob b x)) (blobs acc))
               (pending_polls acc) (final_status acc))
  else (Raise missing_blob, acc).

Definition account_list_blobs (c : ContainerClient) (acc : Account)
  : outcome (list BlobProperties) * Account :=
  if has_container acc (Storage.container c) then
    (Ret (map (fun b => mkBlobProperties (blob_name b) no_copy)
              (filter (fun b => String.eqb (container_name b) (Storage.container c))
                      (blobs acc))), acc)
  else (Raise missing_container, acc).

Definition account_set_blob_metadata (b : BlobClient) (metadata : dict) (acc : Account)
  : outcome unit * Account :=
  if has_blob acc b then (Ret tt, acc) else (Raise missing_blob, acc).

#[export] Instance account_service : BlobService Account := {|
  new_blob_client c b :=
    if truthy c && truthy b then None
    else Some (Exception "Please specify a container name and blob name.");
  new_container_client c :=
    if truthy c then None else Some (Exception "Please specify a container name.");
  url b := ("https://account.blob.core.windows.net/" ++ container_name b ++ "/"
              ++ blob_name b)%string;
  service_exists := account_exists;
  service_start_copy_from_url := account_start_copy;
  service_get_blob_properties := account_get_blob_properties;
  service_delete_blob := account_delete_blob;
  service_list_blobs := account_list_blobs;
  service_set_blob_metadata := account_set_blob_metadata
|}.

(** The extra fields of properties on this account: every blob is in the
    hot tier and has no metadata. *)
#[export] Instance account_fields : BlobPropertiesFields := {|
  BlobProperties_blob_tier _ := Some "Hot";
  BlobProperties_metadata _ := None;
  BlobProperties_items props := [("name", name props); ("blob_tier", "Hot")]
|}.

(** A fresh terminal session on an account, with the lines to be typed. *)
Definition session (lines : list string) (acc : Account) : World event Account :=
  mkWorld lines [] [] acc.

(** Containers [a] and [b]; [a] holds [x.txt] and [y.txt].  A copy shows
    [final_status] after [polls] pending fetches. *)
Definition two_blobs (polls : nat) (final : string) : Account :=
  mkAccount ["a"; "b"] [mkBlobClient "a" "x.txt"; mkBlobClient "a" "y.txt"] polls final.

Definition x_in_a : BlobClient := mkBlobClient "a" "x.txt".
Definition x_in_b : BlobClient := mkBlobClient "b" "x.txt".

End Emulator.

(** ** An in-memory Cosmos container *)

Module CosmosEmulator.
Import Cosmos.

(** The items of one account: database, container, id, partition key. *)
Definition Items : Type := list (string * string * string * string).

Definition same_item (a b : string * string * string * string) : bool :=
  let '(d1, c1, i1, p1) := a in
  let '(d2, c2, i2, p2) := b in
  String.eqb d1 d2 && String.eqb c1 c2 && String.eqb i1 i2 && String.eqb p1 p2.

Definition items_delete (c : ContainerProxy) (item partition_key : string) (its : Items)
  : outcome unit * Items :=
  let key := (container_database c, container c, item, partition_key) in
  if existsb (same_item key) its then
    (Ret tt, filter (fun x => negb (same_item key x)) its)
  else (Raise (CosmosResourceNotFoundError "Entity with the specified id does not exist."), its).

#[export] Instance items_service : CosmosService Items := {|
  new_database_client _ := None;
  new_container_client _ _ := None;
  service_delete_item := items_delete
|}.

Definition session (lines : list string) (its : Items) : World event Items :=
  mkWorld lines [] [] its.

End CosmosEmulator.

(** * Properties *)

(** ** The terminal and the trace *)

Section RuntimeFacts.
Context {E Svc : Type}.

Lemma issued_app (w w1 : World E Svc) (evs : list E) :
  trace w1 = trace w ++ evs -> issued w w1 = evs.
Proof.
  intros H. unfold issued. rewrite H.
  rewrite skipn_app, skipn_all, Nat.sub_diag. reflexivity.
Qed.

End RuntimeFacts.

(** [lower] answers ["y"] on the two spellings of the letter only. *)
Lemma lower_is_y (s : string) : lower s = "y" <-> s = "y" \/ s = "Y".
Proof.
  split.
  - destruct s as [|c [|c' s']]; simpl; try discriminate.
    intros H. injection H as H.
    destruct c as [[] [] [] [] [] [] [] []]; vm_compute in H; try discriminate; auto.
  - intros [-> | ->]; reflexivity.
Qed.

(** ** The blob manager *)

Section StorageFacts.
Import Storage.
Context {Svc : Type} {sdk : BlobService Svc}.

(** A world after some more output and calls, with a new service state. *)
Local Abbreviation after w out evs s :=
  (mkWorld (stdin w) (stdout w ++ out) (trace w ++ evs) s).

Lemma pending_split (st : option string) :
  pending st = true <->
  status_is st "success" = false /\ status_in st ["failed"; "aborted"] = false.
Proof.
  unfold pending. rewrite andb_true_iff, !negb_true_iff. reflexivity.
Qed.

(** The polling loop reads the service only: from two worlds with the same
    service state it returns the same result, writes the same lines and
    issues the same calls, and these follow [wait_trace]. *)
Lemma wait_for_copy_loop_run (b : BlobClient) :
  forall (n count : nat) (s0 : Svc),
    11 - count < n ->
    exists r out evs s,
      wait_trace b count r evs /\
      forall w : World event Svc,
        service w = s0 ->
        wait_for_copy_loop b count w = (r, after w out evs s).
Proof.
  induction n as [|n IH]; intros count s0 Hn; [lia|].
  destruct (service_get_blob_properties b s0) as [[props|e] s1] eqn:Hget.
  2:{ exists (Raise e), [], [GetBlobProperties b (Raise e)], s1.
      split; [constructor|]. intros w Hw.
      rewrite wait_for_copy_loop_equation_1.
      unfold bind, BlobClient_get_blob_properties, sdk_call.
      rewrite Hw, Hget. rewrite app_nil_r. reflexivity. }
  destruct (status_is (status (copy props)) "success") eqn:Hs.
  { eexists (Ret true), _, [GetBlobProperties b (Ret props)], s1.
    split; [constructor; assumption|]. intros w Hw.
    rewrite wait_for_copy_loop_equation_1.
    unfold bind, BlobClient_get_blob_properties, sdk_call.
    rewrite Hw, Hget. cbn -[String.append]. rewrite Hs.
    cbn -[String.append]. rewrite <- app_assoc. reflexivity. }
  destruct (status_in (status (copy props)) ["failed"; "aborted"]) eqn:Hf.
  { eexists (Ret false), _, [GetBlobProperties b (Ret props)], s1.
    split; [apply wait_failed; assumption|]. intros w Hw.
    rewrite wait_for_copy_loop_equation_1.
    unfold bind, BlobClient_get_blob_properties, sdk_call.
    rewrite Hw, Hget. cbn -[String.append status_in]. rewrite Hs, Hf.
    cbn -[String.append]. rewrite <- !app_assoc. reflexivity. }
  assert (Hp : pending (status (copy props)) = true)
    by (apply pending_split; split; assumption).
  destruct (gt_dec count 10) as [Hgt|Hle] eqn:Hdec.
  { eexists (Ret false), _, [GetBlobProperties b (Ret props)], s1.
    split; [apply wait_timeout; [assumption|lia]|]. intros w Hw.
    rewrite wait_for_copy_loop_equation_1.
    unfold bind, BlobClient_get_blob_properties, sdk_call.
    rewrite Hw, Hget. cbn -[String.append status_in gt_dec]. rewrite Hs, Hf, Hdec.
    cbn -[String.append]. rewrite <- !app_assoc. reflexivity. }
  destruct (IH (count + 1) s1 ltac:(lia)) as (r & out & evs & s & Ht & Hrun).
  eexists r, _, (GetBlobProperties b (Ret props) :: Sleep 3 :: evs), s.
  split; [apply wait_again; [assumption|lia|assumption]|]. intros w Hw.
  rewrite wait_for_copy_loop_equation_1.
  unfold bind, BlobClient_get_blob_properties, sdk_call.
  rewrite Hw, Hget. cbn -[String.append status_in gt_dec]. rewrite Hs, Hf, Hdec.
  cbn -[String.append]. rewrite Hrun by reflexivity.
  cbn -[String.append]. rewrite <- !app_assoc. reflexivity.
Qed.

(** *** Counting on traces *)

Lemma count_cons (f : event -> bool) (e : event) (evs : list event) :
  count f (e :: evs) = (if f e then 1 else 0) + count f evs.
Proof. unfold count. simpl. destruct (f e); reflexivity. Qed.

Lemma count_app (f : event -> bool) (l1 l2 : list event) :
  count f (l1 ++ l2) = count f l1 + count f l2.
Proof. unfold count. rewrite filter_app, length_app. reflexivity. Qed.

Lemma count_nil (f : event -> bool) : count f [] = 0.
Proof. reflexivity. Qed.

Lemma status_is_eq (st : option string) (s : string) :
  status_is st s = true <-> st = Some s.
Proof.
  destruct st as [x|]; simpl.
  - rewrite String.eqb_eq. split; [intros ->; reflexivity | intros H; injection H; auto].
  - split; discriminate.
Qed.

Lemma failed_is_not_success (st : option string) :
  status_in st ["failed"; "aborted"] = true -> status_is st "success" = false.
Proof.
  destruct st as [x|]; simpl; [|reflexivity].
  rewrite orb_false_r, orb_true_iff, !String.eqb_eq.
  intros [-> | ->]; reflexivity.
Qed.

Lemma pending_not_failed (st : option string) :
  pending st = true -> status_in st ["failed"; "aborted"] = false.
Proof. intros H. apply pending_split in H. apply H. Qed.

Lemma pending_not_success (st : option string) :
  pending st = true -> st <> Some "success".
Proof.
  intros H Heq. apply pending_split in H. destruct H as [H _].
  apply status_is_eq in Heq. congruence.
Qed.

(** *** What a run of the polling loop looks like *)

Ltac count_step :=
  rewrite ?count_app, ?count_cons, ?count_nil;
  cbn [is_fetch is_sleep is_success is_delete is_copy is_exists is_set_metadata
       call_raised exists_not_true raised Nat.add].

(** Only fetches of the polled blob and three-second sleeps. *)
Lemma wait_trace_only_polls (b : BlobClient) (c : nat) (r : outcome bool) (evs : list event) :
  wait_trace b c r evs ->
  Forall (fun e => e = Sleep 3 \/ exists a, e = GetBlobProperties b a) evs.
Proof.
  induction 1.
  1-4: constructor; [right; eexists; reflexivity | constructor].
  constructor; [right; eexists; reflexivity|].
  constructor; [left; reflexivity | assumption].
Qed.

(** At most [12 - count] fetches, and one sleep between two fetches. *)
Lemma wait_trace_fetches (b : BlobClient) (c : nat) (r : outcome bool) (evs : list event) :
  wait_trace b c r evs ->
  count is_fetch evs <= S (11 - c) /\ count is_sleep evs + 1 = count is_fetch evs.
Proof.
  induction 1; count_step; try lia.
Qed.

Lemma only_polls_count (b : BlobClient) (f : event -> bool) (evs : list event) :
  Forall (fun e => e = Sleep 3 \/ exists a, e = GetBlobProperties b a) evs ->
  f (Sleep 3) = false ->
  (forall a, f (GetBlobProperties b a) = false) ->
  count f evs = 0.
Proof.
  intros HF Hs Hg. induction HF as [|e l He _ IH]; [reflexivity|].
  rewrite count_cons, IH.
  destruct He as [-> | [a ->]]; [rewrite Hs | rewrite Hg]; reflexivity.
Qed.

(** The result is [True] exactly when ["success"] was read. *)
Lemma wait_trace_success (b : BlobClient) (c : nat) (r : outcome bool) (evs : list event) :
  wait_trace b c r evs ->
  (r = Ret true <-> In (Some "success") (observed evs)) /\
  count is_success evs = (match r with Ret true => 1 | _ => 0 end).
Proof.
  induction 1; simpl.
  - split; [split; [discriminate|intros []]|reflexivity].
  - split; [|count_step; rewrite H; reflexivity].
    split; [intros _; left; apply status_is_eq; assumption|reflexivity].
  - split; [|count_step; rewrite H; reflexivity].
    split; [discriminate|].
    intros [Heq|[]]. apply status_is_eq in Heq. congruence.
  - pose proof (pending_not_success _ H) as Hn.
    apply pending_split in H. destruct H as [H _].
    split; [|count_step; rewrite H; reflexivity].
    split; [discriminate|]. intros [Heq|[]]. congruence.
  - pose proof (pending_not_success _ H) as Hn.
    apply pending_split in H. destruct H as [H _].
    destruct IHwait_trace as [IH1 IH2].
    split; [|count_step; rewrite H; simpl; exact IH2].
    rewrite IH1. split; [intros Hin; right; exact Hin|].
    intros [Heq|Hin]; [congruence|exact Hin].
Qed.

(** Reading ["failed"] or ["aborted"] gives [False]. *)
Lemma wait_trace_failed (b : BlobClient) (c : nat) (r : outcome bool) (evs : list event) :
  wait_trace b c r evs ->
  forall st, In st (observed evs) ->
             status_in st ["failed"; "aborted"] = true -> r = Ret false.
Proof.
  induction 1; cbn [observed flat_map app In]; intros st Hin Hst.
  - destruct Hin.
  - destruct Hin as [<-|[]]. apply failed_is_not_success in Hst. congruence.
  - reflexivity.
  - reflexivity.
  - destruct Hin as [<-|Hin]; [|eapply IHwait_trace; eassumption].
    apply pending_not_failed in H. congruence.
Qed.

(** A pending status read at poll [i] (from 0) is followed by one more fetch
    while the counter allows it, and by the timeout once it does not. *)
Lemma wait_trace_pending (b : BlobClient) (c : nat) (r : outcome bool) (evs : list event) :
  wait_trace b c r evs ->
  forall i st, nth_error (observed evs) i = Some st -> pending st = true ->
    (i + c <= 10 -> S i < count is_fetch evs) /\
    (10 < i + c -> r = Ret false /\ count is_fetch evs = S i).
Proof.
  induction 1; cbn [observed flat_map app]; intros i st Hi Hp.
  - destruct i; discriminate.
  - destruct i as [|i]; [|destruct i; discriminate].
    injection Hi as <-. apply pending_split in Hp. destruct Hp. congruence.
  - destruct i as [|i]; [|destruct i; discriminate].
    injection Hi as <-. apply pending_not_failed in Hp. congruence.
  - destruct i as [|i]; [|destruct i; discriminate].
    split; [lia|]. intros _. split; reflexivity.
  - destruct i as [|i].
    + split; [|lia]. intros _. count_step.
      apply wait_trace_fetches in H1. lia.
    + simpl in Hi. destruct (IHwait_trace i st Hi Hp) as [IH1 IH2].
      count_step. split.
      * intros Hle. specialize (IH1 ltac:(lia)). lia.
      * intros Hgt. destruct (IH2 ltac:(lia)) as [-> ->]. split; [reflexivity|lia].
Qed.

(** A fetch raised exactly when the loop raises, and then it is the last call. *)
Lemma wait_trace_raised (b : BlobClient) (c : nat) (r : outcome bool) (evs : list event) :
  wait_trace b c r evs ->
  count call_raised evs = (match r with Raise _ => 1 | Ret _ => 0 end) /\
  (forall e, r = Raise e -> exists pre, evs = pre ++ [GetBlobProperties b (Raise e)]).
Proof.
  induction 1; count_step; try (split; [reflexivity|discriminate]).
  - split; [reflexivity|]. intros e0 He. injection He as <-. exists []. reflexivity.
  - destruct IHwait_trace as [IH1 IH2]. split; [exact IH1|].
    intros e He. destruct (IH2 e He) as [pre ->].
    exists (GetBlobProperties b (Ret props) :: Sleep 3 :: pre). reflexivity.
Qed.

(** A fetch that raised gives the loop its exception. *)
Lemma wait_trace_raise_in (b : BlobClient) (c : nat) (r : outcome bool) (evs : list event) :
  wait_trace b c r evs ->
  forall a e, In (GetBlobProperties a (Raise e)) evs -> r = Raise e.
Proof.
  induction 1; intros a e0 Hin.
  - destruct Hin as [Heq|[]]. injection Heq; intros; subst; reflexivity.
  - destruct Hin as [Heq|[]]. discriminate Heq.
  - destruct Hin as [Heq|[]]. discriminate Heq.
  - destruct Hin as [Heq|[]]. discriminate Heq.
  - destruct Hin as [Heq|[Heq|Hin]]; [discriminate Heq | discriminate Heq |].
    eapply IHwait_trace. exact Hin.
Qed.

(** The calls of the loop are one fetch per answer with a sleep of three
    seconds between two fetches, and there are [12 - count] answers at most. *)
Lemma wait_trace_polls (b : BlobClient) (c : nat) (r : outcome bool) (evs : list event) :
  wait_trace b c r evs ->
  exists answers, evs = polls b answers /\ 1 <= List.length answers <= S (11 - c).
Proof.
  induction 1.
  1-4: eexists [_]; split; [reflexivity | cbn [List.length]; lia].
  destruct IHwait_trace as (answers & -> & Hl).
  exists (Ret props :: answers).
  destruct answers as [|a rest]; [cbn [List.length] in Hl; lia|].
  split; [reflexivity | cbn [List.length] in *; lia].
Qed.

Lemma call_exn_raised (ev : event) (x : exn) :
  call_exn ev = Some x -> call_raised ev = true.
Proof.
  destruct ev as [? ? r|? r|? r|? ? r|? r|? r|? r|? ? r|?]; try destruct r;
    cbn; intros H; (reflexivity || discriminate H).
Qed.

Lemma raise_ends_app {A : Type} (r : outcome A) (l1 l2 : list event) :
  count call_raised l1 = 0 -> raise_ends r l2 -> raise_ends r (l1 ++ l2).
Proof.
  intros H1. destruct r as [a|x]; cbn [raise_ends].
  - intros H2. rewrite count_app. lia.
  - intros (pre & ev & -> & Hc & Hx). exists (l1 ++ pre), ev.
    split; [rewrite app_assoc; reflexivity|].
    split; [rewrite count_app; lia | exact Hx].
Qed.

(** In a run that lets its first exception out, a call that raised is the
    last call, and the run raised what that call raised. *)
Lemma raise_ends_last {A : Type} (r : outcome A) (evs : list event) :
  raise_ends r evs ->
  forall pre ev post x,
    evs = pre ++ ev :: post -> call_exn ev = Some x -> post = [] /\ r = Raise x.
Proof.
  intros Hr pre ev post x -> Hx.
  pose proof (call_exn_raised _ _ Hx) as Hraised.
  destruct r as [a|x0]; cbn [raise_ends] in Hr.
  - rewrite count_app, count_cons, Hraised in Hr. lia.
  - destruct Hr as (pre0 & ev0 & Heq & Hc & Hx0).
    induction post as [|p post' _] using rev_ind.
    + apply app_inj_tail in Heq. destruct Heq as [_ ->].
      split; [reflexivity | congruence].
    + exfalso. rewrite app_comm_cons, app_assoc in Heq.
      apply app_inj_tail in Heq. destruct Heq as [<- _].
      rewrite count_app, count_cons, Hraised in Hc. lia.
Qed.

(** The polling loop lets the exception of a fetch out. *)
Lemma wait_trace_raise_ends (b : BlobClient) (c : nat) (r : outcome bool) (evs : list event) :
  wait_trace b c r evs -> raise_ends r evs.
Proof.
  intros Ht. destruct (wait_trace_raised _ _ _ _ Ht) as [Hc Hlast].
  destruct r as [ok|e]; cbn [raise_ends]; [exact Hc|].
  destruct (Hlast e eq_refl) as [pre ->].
  exists pre, (GetBlobProperties b (Raise e)).
  split; [reflexivity|]. split; [|reflexivity].
  rewrite count_app, count_cons, count_nil in Hc. cbn [call_raised raised] in Hc. lia.
Qed.

(** When every fetch returns a pending status the loop gives up at the
    fetch that finds the counter above 10. *)
Lemma wait_trace_all_pending (b : BlobClient) (c : nat) (r : outcome bool) (evs : list event) :
  wait_trace b c r evs ->
  count call_raised evs = 0 ->
  forallb pending (observed evs) = true ->
  r = Ret false /\ count is_fetch evs = S (11 - c).
Proof.
  induction 1; cbn [observed flat_map app forallb]; intros Hr Hp.
  - rewrite count_cons in Hr. discriminate.
  - rewrite andb_true_r in Hp. apply pending_split in Hp. destruct Hp. congruence.
  - rewrite andb_true_r in Hp. apply pending_not_failed in Hp. congruence.
  - split; [reflexivity|]. count_step. lia.
  - apply andb_true_iff in Hp. destruct Hp as [_ Hp].
    rewrite !count_cons in Hr. cbn [call_raised raised Nat.add] in Hr.
    destruct (IHwait_trace Hr Hp) as [-> Hc].
    split; [reflexivity|]. count_step. lia.
Qed.

Lemma status_in_eq (st : option string) :
  status_in st ["failed"; "aborted"] = true <-> st = Some "failed" \/ st = Some "aborted".
Proof.
  unfold status_in. cbn [existsb].
  rewrite orb_false_r, orb_true_iff, !status_is_eq. reflexivity.
Qed.

Lemma pending_eq (st : option string) :
  pending st = true <->
  st <> Some "success" /\ st <> Some "failed" /\ st <> Some "aborted".
Proof.
  rewrite pending_split. split.
  - intros [H1 H2]. repeat split; intros Heq.
    + apply status_is_eq in Heq. congruence.
    + assert (status_in st ["failed"; "aborted"] = true)
        by (apply status_in_eq; auto). congruence.
    + assert (status_in st ["failed"; "aborted"] = true)
        by (apply status_in_eq; auto). congruence.
  - intros (H1 & H2 & H3). split.
    + destruct (status_is st "success") eqn:E; [|reflexivity].
      apply status_is_eq in E. contradiction.
    + destruct (status_in st ["failed"; "aborted"]) eqn:E; [|reflexivity].
      apply status_in_eq in E. destruct E; contradiction.
Qed.

(** [wait_for_copy] on a world: its result, what it wrote and issued, and the
    service it leaves, all determined by the service it starts from. *)
Lemma wait_for_copy_run (b : BlobClient) (s0 : Svc) :
  exists r out evs s,
    wait_trace b 0 r evs /\
    forall w : World event Svc,
      service w = s0 -> wait_for_copy b w = (r, after w out evs s).
Proof.
  unfold wait_for_copy. apply (wait_for_copy_loop_run b 12 0 s0). lia.
Qed.

(** C1, amended.  [wait_for_copy] always returns.  It fetches the properties
    of the blob at most 12 times, with a sleep between two fetches: its calls
    are one fetch on the blob per answer of the service, twelve answers at
    most, and one [time.sleep(3)] between two fetches, nothing else.  When no
    fetch raises its result is a boolean; a fetch that raises ends it with
    that exception: the result is the exception of that fetch, and that fetch
    is the last call.  When every fetch returns a status other than
    "success", "failed" and "aborted", it returns [False] on the twelfth
    fetch, the one that finds [count] at 11. *)
Theorem wait_for_copy_returns_within_twelve_polls (b : BlobClient) (w : World event Svc) :
  exists r w',
    wait_for_copy b w = (r, w') /\
    count is_fetch (issued w w') <= 12 /\
    count is_sleep (issued w w') + 1 = count is_fetch (issued w w') /\
    (count call_raised (issued w w') = 0 -> exists ok, r = Ret ok) /\
    (forall e, r = Raise e ->
       exists pre, issued w w' = pre ++ [GetBlobProperties b (Raise e)]) /\
    (count call_raised (issued w w') = 0 ->
     forallb pending (observed (issued w w')) = true ->
     r = Ret false /\ count is_fetch (issued w w') = 12) /\
    (exists answers,
        issued w w' = polls b answers /\ 1 <= List.length answers <= 12) /\
    (forall a e, In (GetBlobProperties a (Raise e)) (issued w w') -> r = Raise e).
Proof.
  destruct (wait_for_copy_run b (service w)) as (r & out & evs & s & Ht & Hrun).
  exists r, (after w out evs s). split; [apply Hrun; reflexivity|].
  rewrite (issued_app w (after w out evs s) evs) by reflexivity.
  pose proof (wait_trace_fetches _ _ _ _ Ht) as [Hf Hs].
  pose proof (wait_trace_raised _ _ _ _ Ht) as [Hr Hlast].
  split; [exact Hf|]. split; [exact Hs|].
  split.
  { intros H0. rewrite H0 in Hr.
    destruct r as [ok|e]; [exists ok; reflexivity|discriminate]. }
  split; [exact Hlast|].
  split; [intros H0 Hp; exact (wait_trace_all_pending _ _ _ _ Ht H0 Hp)|].
  split.
  - destruct (wait_trace_polls _ _ _ _ Ht) as (answers & Heq & Hl).
    exists answers. split; [exact Heq | lia].
  - exact (wait_trace_raise_in _ _ _ _ Ht).
Qed.

(** C2.  [wait_for_copy] returns [True] exactly when one of the statuses it
    read is the string "success".  Reading "failed" or "aborted" makes it
    return [False].  Any other status read at one of the first eleven polls
    is followed by another fetch, so the blob is still waited for; read at the
    twelfth poll it ends the wait with [False].  Twelve polls at most. *)
Theorem wait_for_copy_true_iff_success_read (b : BlobClient) (w : World event Svc) :
  exists r w',
    wait_for_copy b w = (r, w') /\
    (r = Ret true <-> In (Some "success") (observed (issued w w'))) /\
    (forall st, In st (observed (issued w w')) ->
                st = Some "failed" \/ st = Some "aborted" -> r = Ret false) /\
    (forall i st, nth_error (observed (issued w w')) i = Some st ->
                  st <> Some "success" -> st <> Some "failed" -> st <> Some "aborted" ->
                  (i <= 10 -> S i < count is_fetch (issued w w')) /\
                  (10 < i -> r = Ret false)) /\
    count is_fetch (issued w w') <= 12.
Proof.
  destruct (wait_for_copy_run b (service w)) as (r & out & evs & s & Ht & Hrun).
  exists r, (after w out evs s). split; [apply Hrun; reflexivity|].
  rewrite (issued_app w (after w out evs s) evs) by reflexivity.
  split; [apply (wait_trace_success _ _ _ _ Ht)|].
  split.
  { intros st Hin Hst. eapply wait_trace_failed; [exact Ht|exact Hin|].
    apply status_in_eq. exact Hst. }
  split.
  { intros i st Hi H1 H2 H3.
    assert (Hp : pending st = true) by (apply pending_eq; auto).
    destruct (wait_trace_pending _ _ _ _ Ht i st Hi Hp) as [Ha Hb].
    split.
    - intros Hle. apply Ha. lia.
    - intros Hgt. apply Hb. lia. }
  apply (wait_trace_fetches _ _ _ _ Ht).
Qed.

(** *** The single-blob move *)

Ltac run_handler :=
  cbn -[String.append nl wait_for_copy status_in count without_exists] in *.

(** Closes the equations of a run: the result, then the calls it added. *)
Ltac close_run :=
  split; [reflexivity|];
  split; [cbn [trace]; rewrite <- ?app_assoc; reflexivity|];
  split; [reflexivity|].

(** C5.  When the existence check of the source blob answers [False],
    [move_specific_blob] prints the not-found message and returns at once:
    the only calls it has issued are the construction of the source client
    and the existence check, so no copy is started and nothing is deleted. *)
Theorem move_specific_blob_source_missing
    (w : World event Svc) (sc bn dc : string) (rest : list string) (s1 : Svc) :
  stdin w = sc :: bn :: dc :: rest ->
  new_blob_client sc bn = None ->
  service_exists (mkBlobClient sc bn) (service w) = (Ret false, s1) ->
  exists w',
    move_specific_blob w = (Ret tt, w') /\
    issued w w' = [GetBlobClient sc bn (Ret (mkBlobClient sc bn));
                   Exists (mkBlobClient sc bn) (Ret false)] /\
    count is_copy (issued w w') = 0 /\
    count is_delete (issued w w') = 0 /\
    last (stdout w') "" =
      (nl ++ "❌ ERROR: Blob '" ++ bn ++ "' not found in container '" ++ sc ++ "'.")%string /\
    stdin w' = rest /\
    service w' = s1.
Proof.
  intros Hin Hnew Hex.
  eexists. split.
  - unfold move_specific_blob, move_specific_blob_try, try_except, bind, print, input,
      get_blob_client, BlobClient_exists, sdk_call.
    run_handler. rewrite Hin. run_handler. rewrite Hnew. run_handler.
    rewrite Hex. run_handler. reflexivity.
  - rewrite (issued_app w _ [GetBlobClient sc bn (Ret (mkBlobClient sc bn));
                             Exists (mkBlobClient sc bn) (Ret false)]).
    2:{ cbn [trace]. rewrite <- app_assoc. reflexivity. }
    cbn [stdout stdin service]. rewrite last_last.
    repeat split; reflexivity.
Qed.

(** When the handler reaches the wait, it has read three lines, built the two
    clients from them and issued four calls; the rest of the handler is the
    wait and what follows it, under the handler's [except] clauses. *)
Lemma move_specific_blob_reaches_wait
    (w w1 : World event Svc) (src dst : BlobClient) :
  move_specific_blob_until_wait w = (Ret (Some (src, dst)), w1) ->
  exists sc bn dc,
    stdin w = sc :: bn :: dc :: stdin w1 /\
    src = mkBlobClient sc bn /\
    dst = mkBlobClient dc bn /\
    trace w1 = trace w ++ [GetBlobClient sc bn (Ret src); Exists src (Ret true);
                           GetBlobClient dc bn (Ret dst);
                           StartCopyFromUrl dst (url src) (Ret tt)] /\
    move_specific_blob w =
      try_except (copied <- wait_for_copy dst ;;
                  move_specific_blob_finish bn sc src copied)
                 move_specific_blob_except w1.
Proof.
  unfold move_specific_blob_until_wait, move_specific_blob, move_specific_blob_try,
    move_specific_blob_finish, try_except, bind, print, input, ret,
    get_blob_client, BlobClient_exists, BlobClient_start_copy_from_url, sdk_call.
  run_handler.
  destruct (stdin w) as [|sc [|bn [|dc rest]]] eqn:Hin; run_handler; try discriminate.
  destruct (new_blob_client sc bn) eqn:Hnew; run_handler; [discriminate|].
  destruct (service_exists (mkBlobClient sc bn) (service w)) as [[[|]|e] s1] eqn:Hex;
    run_handler; try discriminate.
  destruct (new_blob_client dc bn) eqn:Hnew2; run_handler; [discriminate|].
  destruct (service_start_copy_from_url (mkBlobClient dc bn) (url (mkBlobClient sc bn)) s1)
    as [[[]|e] s2] eqn:Hcopy; run_handler; [|discriminate].
  intros H. injection H as <- <- <-.
  exists sc, bn, dc. run_handler.
  repeat split; try reflexivity.
  rewrite <- !app_assoc. reflexivity.
Qed.

(** The calls issued from the start of the handler to the end of the wait. *)
Lemma move_specific_blob_wait_calls
    (w w1 w2 : World event Svc) (src dst : BlobClient) (r : outcome bool) :
  move_specific_blob_until_wait w = (Ret (Some (src, dst)), w1) ->
  wait_for_copy dst w1 = (r, w2) ->
  exists evs four,
    trace w2 = trace w ++ four ++ evs /\
    count is_delete (four ++ evs) = 0 /\
    count is_copy (four ++ evs) = 1.
Proof.
  intros Hpre Hwait.
  destruct (move_specific_blob_reaches_wait _ _ _ _ Hpre)
    as (sc & bn & dc & _ & _ & _ & Htr & _).
  destruct (wait_for_copy_run dst (service w1)) as (r' & out & evs & s & Ht & Hrun).
  rewrite (Hrun w1 eq_refl) in Hwait. injection Hwait as _ <-.
  eexists evs, _. cbn [trace]. rewrite Htr, <- app_assoc.
  split; [reflexivity|].
  pose proof (wait_trace_only_polls _ _ _ _ Ht) as Hp.
  rewrite !count_app.
  rewrite (only_polls_count dst is_delete evs Hp) by reflexivity.
  rewrite (only_polls_count dst is_copy evs Hp) by reflexivity.
  split; reflexivity.
Qed.

(** C3.  When the copy-and-wait step of [move_specific_blob] answers
    [False], the handler issues no call after the wait: no delete call is in
    its trace, the service is left as the wait left it, and the last line
    says that the original blob was not deleted. *)
Theorem move_specific_blob_failed_copy_keeps_source
    (w w1 w2 : World event Svc) (src dst : BlobClient) :
  move_specific_blob_until_wait w = (Ret (Some (src, dst)), w1) ->
  wait_for_copy dst w1 = (Ret false, w2) ->
  exists w',
    move_specific_blob w = (Ret tt, w') /\
    count is_delete (issued w w') = 0 /\
    issued w w' = issued w w2 /\
    service w' = service w2 /\
    last (stdout w') "" =
      (nl ++ "❌ Move operation failed. Original blob was NOT deleted.")%string.
Proof.
  intros Hpre Hwait.
  destruct (move_specific_blob_wait_calls _ _ _ _ _ _ Hpre Hwait)
    as (evs & four & Htr & Hdel & _).
  destruct (move_specific_blob_reaches_wait _ _ _ _ Hpre)
    as (sc & bn & dc & _ & _ & _ & _ & Hmove).
  eexists. split.
  - rewrite Hmove. unfold try_except, bind. rewrite Hwait.
    unfold move_specific_blob_finish, print. reflexivity.
  - cbn [trace service stdout]. rewrite last_last.
    rewrite (issued_app w _ (four ++ evs)) by exact Htr.
    rewrite (issued_app w w2 (four ++ evs)) by exact Htr.
    repeat split; try reflexivity. exact Hdel.
Qed.

(** C4, amended.  When the copy-and-wait step of [move_specific_blob]
    answers [True], the handler issues exactly one delete call, right after
    the wait, on the client of the source blob: the blob named by the second
    line typed, in the container named by the first.  That blob is not the
    destination blob when the two container names differ; when they are the
    same name, source and destination are one blob, and it is deleted. *)
Theorem move_specific_blob_deletes_source_once
    (w w1 w2 : World event Svc) (src dst : BlobClient) :
  move_specific_blob_until_wait w = (Ret (Some (src, dst)), w1) ->
  wait_for_copy dst w1 = (Ret true, w2) ->
  exists sc bn dc rd w',
    stdin w = sc :: bn :: dc :: stdin w1 /\
    src = mkBlobClient sc bn /\
    dst = mkBlobClient dc bn /\
    move_specific_blob w = (Ret tt, w') /\
    issued w w' = issued w w2 ++ [DeleteBlob src rd] /\
    (rd, service w') = service_delete_blob src (service w2) /\
    count is_delete (issued w w') = 1 /\
    (src = dst <-> sc = dc).
Proof.
  intros Hpre Hwait.
  destruct (move_specific_blob_wait_calls _ _ _ _ _ _ Hpre Hwait)
    as (evs & four & Htr & Hdel & _).
  destruct (move_specific_blob_reaches_wait _ _ _ _ Hpre)
    as (sc & bn & dc & Hin & Hsrc & Hdst & _ & Hmove).
  destruct (service_delete_blob src (service w2)) as [rd s3] eqn:Hd.
  assert (Hrun : exists w',
             move_specific_blob w = (Ret tt, w') /\
             trace w' = trace w2 ++ [DeleteBlob src rd] /\ service w' = s3).
  { rewrite Hmove. unfold try_except, bind. rewrite Hwait.
    unfold move_specific_blob_finish, bind, print, BlobClient_delete_blob, sdk_call.
    cbn [stdin stdout trace service]. rewrite Hd.
    destruct rd as [[]|e].
    - eexists. split; [reflexivity|]. split; reflexivity.
    - unfold move_specific_blob_except, print.
      destruct (is_resource_not_found e); eexists; (split; [reflexivity|]);
        split; reflexivity. }
  destruct Hrun as (w' & Hrun & Htr' & Hs).
  exists sc, bn, dc, rd, w'.
  rewrite (issued_app w w' ((four ++ evs) ++ [DeleteBlob src rd]))
    by (rewrite Htr', Htr, <- !app_assoc; reflexivity).
  rewrite (issued_app w w2 (four ++ evs)) by exact Htr.
  repeat split; try assumption; try reflexivity.
  - rewrite Hs. reflexivity.
  - rewrite count_app, Hdel. reflexivity.
  - rewrite Hsrc, Hdst. intros H. injection H. auto.
  - intros ->. rewrite Hsrc, Hdst. reflexivity.
Qed.

(** *** The bulk move *)

(** Settles the three counts of one turn of a loop, after rewriting with the
    counts of the polling run when there is one. *)
Ltac turn_counts rw :=
  split; [count_step; rw; lia|];
  split; [count_step; rw; lia|];
  count_step; rw;
  first [ lia | intros _; split; [reflexivity | lia] ].

(** C8.  [move_all_blobs] issues no call at all, so no copy and no delete,
    unless the third line typed, the answer to the confirmation prompt, is
    the letter y in either case.  With any other answer the handler prints
    that the operation is cancelled and returns, the trace and the service
    being as they were. *)
Theorem move_all_blobs_needs_confirmation (w : World event Svc) :
  (forall sc dc confirm rest,
      stdin w = sc :: dc :: confirm :: rest ->
      lower confirm <> "y" ->
      exists w',
        move_all_blobs w = (Ret tt, w') /\
        issued w w' = [] /\
        service w' = service w /\
        last (stdout w') "" = "Operation cancelled.") /\
  (issued w (snd (move_all_blobs w)) <> [] ->
   exists sc dc confirm rest,
     stdin w = sc :: dc :: confirm :: rest /\ (confirm = "y" \/ confirm = "Y")).
Proof.
  split.
  - intros sc dc confirm rest Hin Hno.
    apply String.eqb_neq in Hno.
    eexists. split.
    + unfold move_all_blobs, bind, print, input. run_handler.
      rewrite Hin. run_handler. rewrite Hno. run_handler. reflexivity.
    + cbn [stdout service]. rewrite last_last.
      split; [apply issued_app; cbn [trace]; rewrite app_nil_r; reflexivity|].
      split; reflexivity.
  - unfold move_all_blobs, bind, print, input. run_handler.
    destruct (stdin w) as [|sc [|dc [|confirm rest]]] eqn:Hin; run_handler.
    1-3: intros H; exfalso; apply H; apply issued_app; cbn [trace];
         rewrite app_nil_r; reflexivity.
    destruct (String.eqb (lower confirm) "y") eqn:Hy; run_handler.
    + intros _. exists sc, dc, confirm, rest. split; [reflexivity|].
      apply lower_is_y. apply String.eqb_eq. exact Hy.
    + intros H; exfalso; apply H; apply issued_app; cbn [trace];
        rewrite app_nil_r; reflexivity.
Qed.

(** The counts of a polling run that the bulk move adds up. *)
Lemma wait_trace_counts (b : BlobClient) (r : outcome bool) (evs : list event) :
  wait_trace b 0 r evs ->
  count is_delete evs = 0 /\
  count is_copy evs = 0 /\
  count is_exists evs = 0 /\
  count exists_not_true evs = 0 /\
  count is_success evs = (match r with Ret true => 1 | _ => 0 end) /\
  count call_raised evs = (match r with Raise _ => 1 | Ret _ => 0 end) /\
  without_exists evs = evs.
Proof.
  intros Ht. pose proof (wait_trace_only_polls _ _ _ _ Ht) as Hp.
  rewrite !(only_polls_count b _ evs Hp) by reflexivity.
  repeat split.
  - apply (wait_trace_success _ _ _ _ Ht).
  - apply (wait_trace_raised _ _ _ _ Ht).
  - unfold without_exists. apply forallb_filter_id.
    apply forallb_forall. intros e He.
    rewrite Forall_forall in Hp. destruct (Hp e He) as [-> | [a ->]]; reflexivity.
Qed.

(** One turn of the loop of [move_all_blobs]: at most one copy is started;
    a delete is issued exactly when the wait read "success"; when no call
    raises, the copy was started and the turn ends normally. *)
Lemma move_all_blobs_for_one
    (sc dc : string) (total i : nat) (blob : BlobProperties) (w : World event Svc) :
  exists r w' evs,
    move_all_blobs_for sc dc total i [blob] w = (r, w') /\
    trace w' = trace w ++ evs /\
    stdin w' = stdin w /\
    count is_delete evs = count is_success evs /\
    count is_copy evs <= 1 /\
    (count call_raised evs = 0 -> r = Ret tt /\ count is_copy evs = 1).
Proof.
  unfold move_all_blobs_for, bind, print, ret, get_blob_client,
    BlobClient_start_copy_from_url, BlobClient_delete_blob, sdk_call.
  run_handler.
  destruct (new_blob_client sc (name blob)) as [e|] eqn:Hsrc; run_handler.
  { eexists _, _, [_]. close_run. turn_counts idtac. }
  destruct (new_blob_client dc (name blob)) as [e|] eqn:Hdst; run_handler.
  { eexists _, _, [_; _]. close_run. turn_counts idtac. }
  destruct (service_start_copy_from_url (mkBlobClient dc (name blob))
              (url (mkBlobClient sc (name blob))) (service w)) as [[[]|e] s1] eqn:Hcopy;
    run_handler.
  2:{ eexists _, _, [_; _; _]. close_run. turn_counts idtac. }
  destruct (wait_for_copy_run (mkBlobClient dc (name blob)) s1)
    as (r & out & evs & s & Ht & Hrun).
  rewrite Hrun by reflexivity.
  destruct (wait_trace_counts _ _ _ Ht) as (Hd & Hc & _ & _ & Hs & Hr & _).
  destruct r as [[|]|e]; run_handler.
  - destruct (service_delete_blob (mkBlobClient sc (name blob)) s) as [[[]|e] s3] eqn:Hdel;
      run_handler.
    + eexists _, _, ([_; _; _] ++ evs ++ [_]). close_run.
      turn_counts ltac:(rewrite ?Hd, ?Hc, ?Hs, ?Hr).
    + eexists _, _, ([_; _; _] ++ evs ++ [_]). close_run.
      turn_counts ltac:(rewrite ?Hd, ?Hc, ?Hs, ?Hr).
  - eexists _, _, ([_; _; _] ++ evs). close_run.
    turn_counts ltac:(rewrite ?Hd, ?Hc, ?Hs, ?Hr).
  - eexists _, _, ([_; _; _] ++ evs). close_run.
    turn_counts ltac:(rewrite ?Hd, ?Hc, ?Hs, ?Hr).
Qed.

(** The loop over a list is its first turn followed by the loop over the
    rest, whatever the first turn's copy came to. *)
Lemma move_all_blobs_for_cons
    (sc dc : string) (total i : nat) (blob : BlobProperties) (rest : list BlobProperties)
    (w : World event Svc) :
  move_all_blobs_for sc dc total i (blob :: rest) w =
  (move_all_blobs_for sc dc total i [blob] ;;
   move_all_blobs_for sc dc total (i + 1) rest) w.
Proof.
  cbn [move_all_blobs_for].
  unfold bind, print, ret, get_blob_client,
    BlobClient_start_copy_from_url, BlobClient_delete_blob, sdk_call.
  run_handler.
  destruct (new_blob_client sc (name blob)); run_handler; [reflexivity|].
  destruct (new_blob_client dc (name blob)); run_handler; [reflexivity|].
  destruct (service_start_copy_from_url _ _ _) as [[[]|e] s1]; run_handler; [|reflexivity].
  destruct (wait_for_copy _ _) as [[[|]|e] w1]; run_handler; try reflexivity.
  destruct (service_delete_blob _ _) as [[[]|e] s3]; run_handler; reflexivity.
Qed.

(** The whole loop: as many delete calls as waits that read "success", at
    most one copy per blob, and one copy per blob when no call raises. *)
Lemma move_all_blobs_for_run (sc dc : string) (total : nat) (blob_list : list BlobProperties) :
  forall (i : nat) (w : World event Svc),
  exists r w' evs,
    move_all_blobs_for sc dc total i blob_list w = (r, w') /\
    trace w' = trace w ++ evs /\
    stdin w' = stdin w /\
    count is_delete evs = count is_success evs /\
    count is_copy evs <= List.length blob_list /\
    (count call_raised evs = 0 -> r = Ret tt /\ count is_copy evs = List.length blob_list).
Proof.
  induction blob_list as [|blob rest IH]; intros i w.
  - exists (Ret tt), w, []. cbn [move_all_blobs_for List.length]. unfold ret.
    rewrite app_nil_r. repeat split; reflexivity || lia.
  - rewrite move_all_blobs_for_cons. unfold bind.
    destruct (move_all_blobs_for_one sc dc total i blob w)
      as (r1 & w1 & evs1 & Hrun1 & Htr1 & Hin1 & Hd1 & Hc1 & Hn1).
    rewrite Hrun1.
    destruct r1 as [[]|e].
    + destruct (IH (i + 1) w1) as (r2 & w2 & evs2 & Hrun2 & Htr2 & Hin2 & Hd2 & Hc2 & Hn2).
      exists r2, w2, (evs1 ++ evs2).
      split; [exact Hrun2|].
      split; [rewrite Htr2, Htr1, app_assoc; reflexivity|].
      split; [congruence|].
      rewrite !count_app. cbn [List.length].
      split; [lia|]. split; [lia|].
      intros Hz.
      destruct (Hn1 ltac:(lia)) as [_ Hk1].
      destruct (Hn2 ltac:(lia)) as [Hr2 Hk2].
      split; [exact Hr2|lia].
    + exists (Raise e), w1, evs1.
      split; [reflexivity|]. split; [exact Htr1|]. split; [exact Hin1|].
      cbn [List.length]. split; [exact Hd1|]. split; [lia|].
      intros Hz. destruct (Hn1 Hz) as [Hr _]. discriminate.
Qed.

(** One turn of the loop has no [try] of its own: a call of the turn that
    raises is its last call, and the turn raises what that call raised. *)
Lemma move_all_blobs_for_one_raise_ends
    (sc dc : string) (total i : nat) (blob : BlobProperties) (w : World event Svc) :
  exists r w' evs,
    move_all_blobs_for sc dc total i [blob] w = (r, w') /\
    trace w' = trace w ++ evs /\
    raise_ends r evs.
Proof.
  unfold move_all_blobs_for, bind, print, ret, get_blob_client,
    BlobClient_start_copy_from_url, BlobClient_delete_blob, sdk_call.
  run_handler.
  destruct (new_blob_client sc (name blob)) as [e|] eqn:Hsrc; run_handler.
  { eexists _, _, [_]. split; [reflexivity|]. split; [reflexivity|].
    eexists [], _. split; [reflexivity|]. split; reflexivity. }
  destruct (new_blob_client dc (name blob)) as [e|] eqn:Hdst; run_handler.
  { eexists _, _, [_; _]. split; [reflexivity|].
    split; [cbn [trace]; rewrite <- ?app_assoc; reflexivity|].
    eexists [_], _. split; [reflexivity|]. split; reflexivity. }
  destruct (service_start_copy_from_url (mkBlobClient dc (name blob))
              (url (mkBlobClient sc (name blob))) (service w)) as [[[]|e] s1] eqn:Hcopy;
    run_handler.
  2:{ eexists _, _, [_; _; _]. split; [reflexivity|].
      split; [cbn [trace]; rewrite <- ?app_assoc; reflexivity|].
      eexists [_; _], _. split; [reflexivity|]. split; reflexivity. }
  destruct (wait_for_copy_run (mkBlobClient dc (name blob)) s1)
    as (r & out & evs & s & Ht & Hrun).
  rewrite Hrun by reflexivity.
  pose proof (wait_trace_raise_ends _ _ _ _ Ht) as Hw.
  destruct r as [[|]|e]; cbn [raise_ends] in Hw; run_handler.
  - destruct (service_delete_blob (mkBlobClient sc (name blob)) s) as [[[]|e] s3] eqn:Hdel;
      run_handler.
    + eexists _, _, ([_; _; _] ++ evs ++ [_]). split; [reflexivity|].
      split; [cbn [trace]; rewrite <- ?app_assoc; reflexivity|].
      cbn [raise_ends]. count_step. rewrite Hw. reflexivity.
    + eexists _, _, ([_; _; _] ++ evs ++ [_]). split; [reflexivity|].
      split; [cbn [trace]; rewrite <- ?app_assoc; reflexivity|].
      cbn [raise_ends]. eexists (_ :: _ :: _ :: evs), _.
      split; [reflexivity|]. split; [count_step; rewrite Hw; reflexivity | reflexivity].
  - eexists _, _, ([_; _; _] ++ evs). split; [reflexivity|].
    split; [cbn [trace]; rewrite <- ?app_assoc; reflexivity|].
    cbn [raise_ends]. count_step. rewrite Hw. reflexivity.
  - destruct Hw as (pre & ev & Heq & Hc & Hx).
    eexists _, _, ([_; _; _] ++ evs). split; [reflexivity|].
    split; [cbn [trace]; rewrite <- ?app_assoc; reflexivity|].
    cbn [raise_ends]. eexists (_ :: _ :: _ :: pre), ev.
    split; [rewrite Heq; reflexivity|].
    split; [count_step; rewrite Hc; reflexivity | exact Hx].
Qed.

(** So has the whole loop: it stops at the first call that raises. *)
Lemma move_all_blobs_for_raise_ends
    (sc dc : string) (total : nat) (blob_list : list BlobProperties) :
  forall (i : nat) (w : World event Svc),
  exists r w' evs,
    move_all_blobs_for sc dc total i blob_list w = (r, w') /\
    trace w' = trace w ++ evs /\
    raise_ends r evs.
Proof.
  induction blob_list as [|blob rest IH]; intros i w.
  - exists (Ret tt), w, []. cbn [move_all_blobs_for]. unfold ret.
    rewrite app_nil_r. split; [reflexivity|]. split; reflexivity.
  - rewrite move_all_blobs_for_cons. unfold bind.
    destruct (move_all_blobs_for_one_raise_ends sc dc total i blob w)
      as (r1 & w1 & evs1 & Hrun1 & Htr1 & He1).
    rewrite Hrun1. destruct r1 as [[]|e].
    + destruct (IH (i + 1) w1) as (r2 & w2 & evs2 & Hrun2 & Htr2 & He2).
      exists r2, w2, (evs1 ++ evs2). split; [exact Hrun2|].
      split; [rewrite Htr2, Htr1, app_assoc; reflexivity|].
      apply raise_ends_app; [exact He1 | exact He2].
    + exists (Raise e), w1, evs1.
      split; [reflexivity|]. split; [exact Htr1 | exact He1].
Qed.

(** The [try] block of [move_all_blobs] stops at the first call that raises. *)
Lemma move_all_blobs_try_raise_ends (sc dc : string) (w : World event Svc) :
  exists r w' evs,
    move_all_blobs_try sc dc w = (r, w') /\
    trace w' = trace w ++ evs /\
    raise_ends r evs.
Proof.
  unfold move_all_blobs_try, bind, print, ret,
    get_container_client, ContainerClient_list_blobs, sdk_call.
  run_handler.
  destruct (new_container_client sc) as [e|] eqn:Hnew; run_handler.
  { eexists _, _, [_]. split; [reflexivity|]. split; [reflexivity|].
    eexists [], _. split; [reflexivity|]. split; reflexivity. }
  destruct (service_list_blobs (mkContainerClient sc) (service w))
    as [[blob_list|e] s1] eqn:Hlist; run_handler.
  2:{ eexists _, _, [_; _]. split; [reflexivity|].
      split; [cbn [trace]; rewrite <- ?app_assoc; reflexivity|].
      eexists [_], _. split; [reflexivity|]. split; reflexivity. }
  destruct blob_list as [|blob others] eqn:Hbl.
  - run_handler. eexists _, _, [_; _]. split; [reflexivity|].
    split; [cbn [trace]; rewrite <- ?app_assoc; reflexivity | reflexivity].
  - rewrite <- Hbl. replace (List.length blob_list =? 0) with false
      by (rewrite Hbl; reflexivity).
    match goal with
    | |- context [move_all_blobs_for sc dc ?t 0 blob_list ?w0] =>
        destruct (move_all_blobs_for_raise_ends sc dc t blob_list 0 w0)
          as (r & w1 & evs & Hrun & Htr & He)
    end.
    rewrite Hrun. cbn [trace] in Htr.
    destruct r as [[]|e].
    + eexists _, _, ([_; _] ++ evs). split; [reflexivity|].
      split; [cbn [trace]; rewrite Htr, <- !app_assoc; reflexivity|].
      apply raise_ends_app; [reflexivity | exact He].
    + eexists _, _, ([_; _] ++ evs). split; [reflexivity|].
      split; [rewrite Htr, <- !app_assoc; reflexivity|].
      apply raise_ends_app; [reflexivity | exact He].
Qed.

(** [move_all_blobs] has one [try] around its enumeration and its whole
    loop: in any run, a call that raised is the last call issued, the
    [except] clause for its exception prints the last line, and the handler
    returns. *)
Lemma move_all_blobs_one_try (w : World event Svc) :
  forall pre ev post x,
    issued w (snd (move_all_blobs w)) = pre ++ ev :: post ->
    call_exn ev = Some x ->
    post = [] /\
    fst (move_all_blobs w) = Ret tt /\
    last (stdout (snd (move_all_blobs w))) ""
      = (if is_resource_not_found x
         then nl ++ "❌ ERROR: Source container '" ++ nth 0 (stdin w) "" ++ "' not found."
         else nl ++ "An unexpected error occurred: " ++ exn_str x)%string.
Proof.
  intros pre ev post x.
  unfold move_all_blobs, bind, print, input, ret.
  cbn -[String.append nl count move_all_blobs_try try_except].
  destruct (stdin w) as [|sc [|dc [|confirm rest]]] eqn:Hin;
    cbn -[String.append nl count move_all_blobs_try try_except].
  1-3: rewrite (issued_app w _ []) by (cbn [trace]; rewrite app_nil_r; reflexivity);
       intros H; destruct pre; discriminate H.
  destruct (String.eqb (lower confirm) "y");
    cbn -[String.append nl count move_all_blobs_try try_except].
  2:{ rewrite (issued_app w _ []) by (cbn [trace]; rewrite app_nil_r; reflexivity).
      intros H; destruct pre; discriminate H. }
  unfold try_except.
  match goal with
  | |- context [move_all_blobs_try sc dc ?w0] =>
      destruct (move_all_blobs_try_raise_ends sc dc w0) as (r & w1 & evs & Hrun & Htr & He)
  end.
  rewrite Hrun. cbn [trace] in Htr.
  destruct r as [[]|e].
  - cbn [fst snd]. rewrite (issued_app w w1 evs) by exact Htr. intros Heq Hx.
    destruct (raise_ends_last _ _ He _ _ _ _ Heq Hx) as [_ Habs]. discriminate Habs.
  - unfold move_all_blobs_except, print.
    destruct (is_resource_not_found e) eqn:Hnf; cbn [fst snd stdout trace];
      rewrite (issued_app w _ evs) by (cbn [trace]; exact Htr); intros Heq Hx;
      destruct (raise_ends_last _ _ He _ _ _ _ Heq Hx) as [-> Hre];
      injection Hre as <-; rewrite last_last, Hnf; repeat split.
Qed.

(** C6, amended.  A bulk move that was confirmed and whose enumeration
    returned [blob_list] issues as many delete calls as there were waits
    that read "success", and never more copy calls than there are blobs in
    [blob_list]; when no SDK call raises, it issues exactly one copy call per
    blob.  A call that raises inside the loop ends the loop, so the blobs
    after it are not copied: in the run, a call that raised is the last call
    issued, and the last line printed is the one of the [except] clause for
    its exception.  Each turn of the loop issues a delete exactly when its
    own wait read "success"; when the turn ends normally, for instance after
    a wait that answered [False], the loop goes on with the next blob; a turn
    in which a call raised raises, and then the loop over this blob and the
    blobs after it ends there with that exception, in the world the turn
    left. *)
Theorem move_all_blobs_copies_each_deletes_copied
    (w : World event Svc) (sc dc confirm : string) (rest : list string)
    (blob_list : list BlobProperties) (s1 : Svc) :
  stdin w = sc :: dc :: confirm :: rest ->
  lower confirm = "y" ->
  new_container_client sc = None ->
  service_list_blobs (mkContainerClient sc) (service w) = (Ret blob_list, s1) ->
  (exists w',
      move_all_blobs w = (Ret tt, w') /\
      count is_delete (issued w w') = count is_success (issued w w') /\
      count is_copy (issued w w') <= List.length blob_list /\
      (count call_raised (issued w w') = 0 ->
       count is_copy (issued w w') = List.length blob_list) /\
      (forall pre ev post x,
          issued w w' = pre ++ ev :: post ->
          call_exn ev = Some x ->
          post = [] /\
          last (stdout w') ""
            = (if is_resource_not_found x
               then nl ++ "❌ ERROR: Source container '" ++ sc ++ "' not found."
               else nl ++ "An unexpected error occurred: " ++ exn_str x)%string)) /\
  (forall total i blob others (w0 : World event Svc),
      exists r1 w1,
        move_all_blobs_for sc dc total i [blob] w0 = (r1, w1) /\
        count is_delete (issued w0 w1) = count is_success (issued w0 w1) /\
        count is_copy (issued w0 w1) <= 1 /\
        (r1 = Ret tt ->
         move_all_blobs_for sc dc total i (blob :: others) w0 =
         move_all_blobs_for sc dc total (i + 1) others w1) /\
        (count call_raised (issued w0 w1) <> 0 -> exists x, r1 = Raise x) /\
        (forall x, r1 = Raise x ->
           move_all_blobs_for sc dc total i (blob :: others) w0 = (Raise x, w1))).
Proof.
  intros Hin Hy Hnew Hlist. split.
  - assert (Hcounts : exists w',
               move_all_blobs w = (Ret tt, w') /\
               count is_delete (issued w w') = count is_success (issued w w') /\
               count is_copy (issued w w') <= List.length blob_list /\
               (count call_raised (issued w w') = 0 ->
                count is_copy (issued w w') = List.length blob_list)).
    { apply String.eqb_eq in Hy.
      unfold move_all_blobs, move_all_blobs_try, try_except, bind, print, input, ret,
        get_container_client, ContainerClient_list_blobs, sdk_call.
      run_handler. rewrite Hin. run_handler. rewrite Hy. run_handler.
      rewrite Hnew. run_handler. rewrite Hlist. run_handler.
      destruct blob_list as [|blob others] eqn:Hbl.
      + run_handler. eexists. split; [reflexivity|].
        rewrite (issued_app w _ [_; _]) by (cbn [trace]; rewrite <- app_assoc; reflexivity).
        count_step. repeat split; lia.
      + rewrite <- Hbl. replace (List.length blob_list =? 0) with false
          by (rewrite Hbl; reflexivity).
        match goal with
        | |- context [move_all_blobs_for sc dc ?t 0 blob_list ?w0] =>
            destruct (move_all_blobs_for_run sc dc t blob_list 0 w0)
              as (r & w1 & evs & Hrun & Htr & _ & Hd & Hc & Hn)
        end.
        rewrite Hrun. cbn [trace] in Htr.
        destruct r as [[]|e].
        * eexists. split; [reflexivity|].
          rewrite (issued_app w _ ([_; _] ++ evs))
            by (cbn [trace]; rewrite Htr, <- !app_assoc; reflexivity).
          count_step. split; [lia|]. split; [lia|].
          intros Hz. apply Hn. lia.
        * unfold move_all_blobs_except, print.
          destruct (is_resource_not_found e); (eexists; split; [reflexivity|]);
            rewrite (issued_app w _ ([_; _] ++ evs))
              by (cbn [trace]; rewrite Htr, <- !app_assoc; reflexivity);
            count_step; (split; [lia|]); (split; [lia|]);
            intros Hz; apply Hn; lia. }
    destruct Hcounts as (w' & Hrun & Hd & Hc & Hn).
    exists w'. split; [exact Hrun|]. split; [exact Hd|]. split; [exact Hc|].
    split; [exact Hn|].
    intros pre ev post x Heq Hx.
    pose proof (move_all_blobs_one_try w pre ev post x) as Htry.
    rewrite Hrun, Hin in Htry. cbn [fst snd nth] in Htry.
    destruct (Htry Heq Hx) as (Hpost & _ & Hlast).
    split; [exact Hpost | exact Hlast].
  - intros total i blob others w0.
    destruct (move_all_blobs_for_one sc dc total i blob w0)
      as (r1 & w1 & evs1 & Hrun1 & Htr1 & _ & Hd1 & Hc1 & _).
    destruct (move_all_blobs_for_one_raise_ends sc dc total i blob w0)
      as (r1' & w1' & evs1' & Hrun1' & Htr1' & He1).
    rewrite Hrun1 in Hrun1'. injection Hrun1' as <- <-.
    rewrite Htr1 in Htr1'. apply app_inv_head in Htr1'. subst evs1'.
    exists r1, w1. split; [exact Hrun1|].
    rewrite (issued_app w0 w1 evs1) by exact Htr1.
    split; [exact Hd1|]. split; [exact Hc1|].
    split.
    { intros ->. rewrite move_all_blobs_for_cons. unfold bind. rewrite Hrun1. reflexivity. }
    split.
    + intros Hraised. destruct r1 as [[]|x]; [|exists x; reflexivity].
      exfalso. apply Hraised. exact He1.
    + intros x ->. rewrite move_all_blobs_for_cons. unfold bind. rewrite Hrun1. reflexivity.
Qed.

(** *** The bulk move and the single-blob workflow *)

Lemma without_exists_app (l1 l2 : list event) :
  without_exists (l1 ++ l2) = without_exists l1 ++ without_exists l2.
Proof. unfold without_exists. apply filter_app. Qed.

(** Refutes a run in which a call raised or an existence check said no. *)
Ltac not_this_run rw :=
  let Hz1 := fresh in let Hz2 := fresh in
  intros Hz1 Hz2; exfalso; revert Hz1 Hz2; count_step; rw; lia.

(** Steps through a run of the single-blob workflow without touching the
    loop of the bulk move. *)
Ltac run_workflow :=
  cbn -[String.append nl wait_for_copy status_in count without_exists move_all_blobs_for]
    in *.

(** One blob through the single-blob workflow, against one turn of the loop
    of [move_all_blobs], from the same service state.  When the workflow's
    calls all return and its existence check says yes, the turn issues the
    same calls but the existence check, and leaves the same service state. *)
Lemma move_each_turn
    (Hquery : forall b s, snd (service_exists b s) = s)
    (sc dc : string) (total i : nat) (blob : BlobProperties) (w2 : World event Svc) :
  exists w2' evs2,
    try_except (move_specific_blob_try sc (name blob) dc) move_specific_blob_except w2
      = (Ret tt, w2') /\
    trace w2' = trace w2 ++ evs2 /\
    stdin w2' = stdin w2 /\
    forall w1 : World event Svc,
      service w1 = service w2 ->
      count call_raised evs2 = 0 ->
      count exists_not_true evs2 = 0 ->
      exists w1',
        move_all_blobs_for sc dc total i [blob] w1 = (Ret tt, w1') /\
        trace w1' = trace w1 ++ without_exists evs2 /\
        stdin w1' = stdin w1 /\
        service w1' = service w2'.
Proof.
  unfold move_specific_blob_try, move_specific_blob_except,
    try_except, bind, print, ret, get_blob_client, BlobClient_exists,
    BlobClient_start_copy_from_url, BlobClient_delete_blob, sdk_call.
  run_workflow.
  destruct (new_blob_client sc (name blob)) as [e|] eqn:Hsrc; run_workflow.
  { destruct (is_resource_not_found e); eexists _, [_]; close_run;
      intros w1 _; not_this_run idtac. }
  pose proof (Hquery (mkBlobClient sc (name blob)) (service w2)) as Hq.
  destruct (service_exists (mkBlobClient sc (name blob)) (service w2))
    as [[[|]|e] s0] eqn:Hex; cbn [snd] in Hq; subst s0; run_workflow.
  2:{ eexists _, [_; _]; close_run; intros w1 _; not_this_run idtac. }
  2:{ destruct (is_resource_not_found e); eexists _, [_; _]; close_run;
        intros w1 _; not_this_run idtac. }
  destruct (new_blob_client dc (name blob)) as [e|] eqn:Hdst; run_workflow.
  { destruct (is_resource_not_found e); eexists _, [_; _; _]; close_run;
      intros w1 _; not_this_run idtac. }
  destruct (service_start_copy_from_url (mkBlobClient dc (name blob))
              (url (mkBlobClient sc (name blob))) (service w2)) as [[[]|e] s1] eqn:Hcopy;
    run_workflow.
  2:{ destruct (is_resource_not_found e); eexists _, [_; _; _; _]; close_run;
        intros w1 _; not_this_run idtac. }
  destruct (wait_for_copy_run (mkBlobClient dc (name blob)) s1)
    as (r & out & evs & s & Ht & Hrun).
  rewrite Hrun by reflexivity.
  destruct (wait_trace_counts _ _ _ Ht) as (_ & _ & _ & Hx & _ & Hr & Hwe).
  destruct r as [[|]|e]; run_workflow.
  - destruct (service_delete_blob (mkBlobClient sc (name blob)) s) as [[[]|e] s3] eqn:Hdel;
      run_workflow.
    + eexists _, ([_; _; _; _] ++ evs ++ [_]). close_run.
      intros w1 Hs _ _. eexists. split.
      * unfold move_all_blobs_for, bind, print, ret, get_blob_client,
          BlobClient_start_copy_from_url, BlobClient_delete_blob, sdk_call.
        run_handler. rewrite Hs, Hsrc. run_handler. rewrite Hdst. run_handler.
        rewrite Hcopy. run_handler. rewrite Hrun by reflexivity. run_handler.
        rewrite Hdel. reflexivity.
      * rewrite !without_exists_app, Hwe.
        cbn [without_exists filter is_exists negb app trace stdin service].
        rewrite <- !app_assoc. repeat split; reflexivity.
    + destruct (is_resource_not_found e); eexists _, ([_; _; _; _] ++ evs ++ [_]);
        close_run; intros w1 _; not_this_run ltac:(rewrite ?Hx, ?Hr).
  - eexists _, ([_; _; _; _] ++ evs). close_run.
    intros w1 Hs _ _. eexists. split.
    + unfold move_all_blobs_for, bind, print, ret, get_blob_client,
        BlobClient_start_copy_from_url, BlobClient_delete_blob, sdk_call.
      run_handler. rewrite Hs, Hsrc. run_handler. rewrite Hdst. run_handler.
      rewrite Hcopy. run_handler. rewrite Hrun by reflexivity. reflexivity.
    + rewrite !without_exists_app, Hwe.
      cbn [without_exists filter is_exists negb app trace stdin service].
      rewrite <- !app_assoc. repeat split; reflexivity.
  - destruct (is_resource_not_found e); eexists _, ([_; _; _; _] ++ evs);
      close_run; intros w1 _; not_this_run ltac:(rewrite ?Hx, ?Hr).
Qed.

(** The same for the whole sequence, by induction on it. *)
Lemma move_each_run
    (Hquery : forall b s, snd (service_exists b s) = s)
    (sc dc : string) (total : nat) (blob_list : list BlobProperties) :
  forall (i : nat) (w2 : World event Svc),
  exists w2' evs2,
    move_each_as_specified sc dc blob_list w2 = (Ret tt, w2') /\
    trace w2' = trace w2 ++ evs2 /\
    stdin w2' = stdin w2 /\
    forall w1 : World event Svc,
      service w1 = service w2 ->
      count call_raised evs2 = 0 ->
      count exists_not_true evs2 = 0 ->
      exists w1',
        move_all_blobs_for sc dc total i blob_list w1 = (Ret tt, w1') /\
        trace w1' = trace w1 ++ without_exists evs2 /\
        stdin w1' = stdin w1 /\
        service w1' = service w2'.
Proof.
  induction blob_list as [|blob others IH]; intros i w2.
  - exists w2, []. cbn [move_each_as_specified move_all_blobs_for]. unfold ret.
    rewrite app_nil_r. repeat split; try reflexivity.
    intros w1 Hs _ _. exists w1. cbn [without_exists filter].
    rewrite app_nil_r. repeat split; try reflexivity. exact Hs.
  - destruct (move_each_turn Hquery sc dc total i blob w2)
      as (wa & evsa & Hruna & Htra & Hina & Hcode_a).
    destruct (IH (i + 1) wa) as (wb & evsb & Hrunb & Htrb & Hinb & Hcode_b).
    exists wb, (evsa ++ evsb).
    split.
    { cbn [move_each_as_specified]. unfold bind at 1. rewrite Hruna. exact Hrunb. }
    split; [rewrite Htrb, Htra, app_assoc; reflexivity|].
    split; [congruence|].
    intros w1 Hs. rewrite !count_app. intros Hz1 Hz2.
    destruct (Hcode_a w1 Hs ltac:(lia) ltac:(lia)) as (w1a & Hr1 & Ht1 & Hi1 & Hs1).
    destruct (Hcode_b w1a Hs1 ltac:(lia) ltac:(lia)) as (w1b & Hr2 & Ht2 & Hi2 & Hs2).
    exists w1b. split.
    { rewrite move_all_blobs_for_cons. unfold bind. rewrite Hr1. exact Hr2. }
    rewrite without_exists_app.
    split; [rewrite Ht2, Ht1, app_assoc; reflexivity|].
    split; [congruence|exact Hs2].
Qed.

(** C7, amended.  [move_all_blobs] does not run the single-blob workflow
    as it stands: it never makes the workflow's existence check, and a call
    that raises ends the whole loop instead of one element.  What holds is
    this.  Take a service whose existence check is a query that leaves the
    service as it is, and a run of the bulk move as specified (confirmation,
    eager enumeration, then the workflow on each element in order) in which
    every call returns and every existence check says yes.  Then
    [move_all_blobs] returns the same result, issues the same calls in the
    same order except the existence checks, and leaves the same service
    state and the same unread input.  And there is one [try] around the
    whole loop: in every run of [move_all_blobs], a call that raised is the
    last call issued, whichever element it was made for; the handler then
    returns, and the last line it printed is the one of the [except] clause
    for the exception of that call. *)
Theorem move_all_blobs_matches_specified_without_exists
    (w w_spec : World event Svc) (r_spec : outcome unit) :
  ((forall b s, snd (service_exists b s) = s) ->
   move_all_blobs_as_specified w = (r_spec, w_spec) ->
   count call_raised (issued w w_spec) = 0 ->
   count exists_not_true (issued w w_spec) = 0 ->
   exists w',
     move_all_blobs w = (r_spec, w') /\
     issued w w' = without_exists (issued w w_spec) /\
     service w' = service w_spec /\
     stdin w' = stdin w_spec) /\
  (forall pre ev post x,
      issued w (snd (move_all_blobs w)) = pre ++ ev :: post ->
      call_exn ev = Some x ->
      post = [] /\
      fst (move_all_blobs w) = Ret tt /\
      last (stdout (snd (move_all_blobs w))) ""
        = (if is_resource_not_found x
           then nl ++ "❌ ERROR: Source container '" ++ nth 0 (stdin w) "" ++ "' not found."
           else nl ++ "An unexpected error occurred: " ++ exn_str x)%string).
Proof.
  split; [|exact (move_all_blobs_one_try w)].
  intros Hquery.
  unfold move_all_blobs_as_specified, move_all_blobs, move_all_blobs_try,
    move_all_blobs_except, try_except, bind, print, input, ret,
    get_container_client, ContainerClient_list_blobs, sdk_call.
  run_workflow.
  destruct (stdin w) as [|sc [|dc [|confirm rest]]] eqn:Hin; run_workflow.
  1-3: intros H _ _; injection H as <- <-; eexists; (split; [reflexivity|]);
       rewrite !(issued_app w _ []) by (cbn [trace]; rewrite app_nil_r; reflexivity);
       repeat split; reflexivity.
  destruct (String.eqb (lower confirm) "y") eqn:Hy; run_workflow.
  2:{ intros H _ _; injection H as <- <-; eexists; (split; [reflexivity|]).
      rewrite !(issued_app w _ []) by (cbn [trace]; rewrite app_nil_r; reflexivity).
      repeat split; reflexivity. }
  destruct (new_container_client sc) as [e|] eqn:Hnew; run_workflow.
  { destruct (is_resource_not_found e); run_workflow;
      intros H; injection H as <- <-;
      rewrite (issued_app w _ [GetContainerClient sc (Raise e)]) by reflexivity;
      count_step; intros Hz; exfalso; lia. }
  destruct (service_list_blobs (mkContainerClient sc) (service w))
    as [[blob_list|e] s1] eqn:Hlist; run_workflow.
  2:{ destruct (is_resource_not_found e); run_workflow;
        intros H; injection H as <- <-;
        rewrite (issued_app w _ [GetContainerClient sc (Ret (mkContainerClient sc));
                                 ListBlobs (mkContainerClient sc) (Raise e)])
          by (cbn [trace]; rewrite <- app_assoc; reflexivity);
        count_step; intros Hz; exfalso; lia. }
  match goal with
  | |- context [move_each_as_specified sc dc blob_list ?w0] =>
      destruct (move_each_run Hquery sc dc (List.length blob_list) blob_list 0 w0)
        as (w2 & evs2 & Hrun2 & Htr2 & Hin2 & Hcode)
  end.
  rewrite Hrun2. cbn [trace stdin] in Htr2, Hin2.
  intros H. injection H as <- <-.
  rewrite (issued_app w w2 ([GetContainerClient sc (Ret (mkContainerClient sc));
                             ListBlobs (mkContainerClient sc) (Ret blob_list)] ++ evs2))
    by (rewrite Htr2, <- !app_assoc; reflexivity).
  rewrite !count_app, without_exists_app. count_step. intros Hz1 Hz2.
  cbn [without_exists filter is_exists negb app].
  destruct blob_list as [|blob others] eqn:Hbl.
  - cbn [List.length Nat.eqb]. cbn [move_each_as_specified] in Hrun2.
    unfold ret in Hrun2. injection Hrun2 as Hw2.
    rewrite <- Hw2 in Htr2. cbn [trace] in Htr2.
    assert (Hl : List.length evs2 = 0)
      by (apply (f_equal (@List.length _)) in Htr2; rewrite !length_app in Htr2; lia).
    apply length_zero_iff_nil in Hl. subst evs2. subst w2.
    eexists. split; [reflexivity|].
    rewrite (issued_app w _ [_; _]) by (cbn [trace]; rewrite <- app_assoc; reflexivity).
    repeat split; reflexivity.
  - rewrite <- Hbl in *. replace (List.length blob_list =? 0) with false
      by (rewrite Hbl; reflexivity).
    match goal with
    | |- context [move_all_blobs_for sc dc _ 0 blob_list ?w0] =>
        destruct (Hcode w0 eq_refl ltac:(lia) ltac:(lia)) as (w1 & Hr1 & Ht1 & Hi1 & Hs1)
    end.
    rewrite Hr1. eexists. split; [reflexivity|].
    cbn [trace stdin service] in *.
    rewrite (issued_app w _ ([GetContainerClient sc (Ret (mkContainerClient sc));
                              ListBlobs (mkContainerClient sc) (Ret blob_list)]
                               ++ without_exists evs2))
      by (cbn [trace]; rewrite Ht1, <- !app_assoc; reflexivity).
    repeat split; [exact Hs1 | congruence].
Qed.

(** *** Setting metadata *)

(** The loop that reads the pairs: on a script that holds pairs with
    non-empty keys and then an empty line, it returns the dict with the pairs
    assigned in order, having read up to and including the empty line and
    issued no call. *)
Lemma set_blob_metadata_while_reads (pairs : list (string * string)) :
  forall (metadata : dict) (w : World event Svc) (rest : list string),
    stdin w = typed_pairs pairs ++ "" :: rest ->
    Forall (fun p => truthy (fst p) = true) pairs ->
    exists out,
      set_blob_metadata_while metadata w =
      (Ret (assigned metadata pairs), mkWorld rest (stdout w ++ out) (trace w) (service w)).
Proof.
  induction pairs as [|[k v] others IH]; intros metadata w rest Hin Hkeys.
  - destruct w as [i o t s]. cbn in Hin. subst i.
    rewrite set_blob_metadata_while_unfold_eq.
    eexists [_]. reflexivity.
  - destruct w as [i o t s]. cbn in Hin. subst i.
    inversion Hkeys as [|p l Hk Hothers]; subst. cbn [fst] in Hk.
    rewrite set_blob_metadata_while_unfold_eq.
    unfold set_blob_metadata_while_unfold. cbn -[String.append set_blob_metadata_while].
    rewrite Hk. cbn -[String.append set_blob_metadata_while].
    edestruct (IH (dict_set metadata k v)) as [out Hrun]; [|exact Hothers|].
    2:{ rewrite Hrun. cbn [stdout trace service assigned fold_left fst snd].
        eexists (_ :: _ :: out). rewrite <- !app_assoc. reflexivity. }
    reflexivity.
Qed.

Lemma print_items_run (metadata : dict) :
  forall w : World event Svc,
  exists out,
    print_items metadata w = (Ret tt, mkWorld (stdin w) (stdout w ++ out) (trace w) (service w)).
Proof.
  induction metadata as [|[k v] rest IH]; intros w.
  - exists []. cbn [print_items]. unfold ret. rewrite app_nil_r. destruct w; reflexivity.
  - cbn [print_items]. unfold bind, print.
    destruct (IH (mkWorld (stdin w) (stdout w ++ [("  " ++ k ++ ": " ++ v)%string])
                          (trace w) (service w))) as [out Hrun].
    rewrite Hrun. cbn [stdin stdout trace service].
    eexists (_ :: out). rewrite <- app_assoc. reflexivity.
Qed.

(** C10.  When the operator enters no pair (an empty first key), or enters
    pairs and then answers the overwrite prompt with anything but the letter
    y in either case, [set_blob_metadata] returns without having issued a
    metadata-setting call: its trace holds at most the construction of the
    client and the existence check. *)
Theorem set_blob_metadata_cancelled_sets_nothing
    (w : World event Svc) (cn bn : string) (lines : list string) :
  stdin w = cn :: bn :: lines ->
  (exists rest, lines = "" :: rest) \/
  (exists pairs confirm rest,
      lines = typed_pairs pairs ++ "" :: confirm :: rest /\
      Forall (fun p => truthy (fst p) = true) pairs /\
      lower confirm <> "y") ->
  exists w',
    set_blob_metadata w = (Ret tt, w') /\
    count is_set_metadata (issued w w') = 0 /\
    List.length (issued w w') <= 2.
Proof.
  intros Hin Hlines.
  assert (Hscript : exists pairs after_pairs,
             lines = typed_pairs pairs ++ "" :: after_pairs /\
             Forall (fun p => truthy (fst p) = true) pairs /\
             (pairs = [] \/ exists confirm rest,
                 after_pairs = confirm :: rest /\ lower confirm <> "y")).
  { destruct Hlines as [[rest ->] | (pairs & confirm & rest & -> & Hk & Hn)].
    - exists [], rest. repeat split; [constructor | left; reflexivity].
    - exists pairs, (confirm :: rest). repeat split; [exact Hk|].
      right. exists confirm, rest. split; [reflexivity|exact Hn]. }
  destruct Hscript as (pairs & after_pairs & -> & Hkeys & Hend).
  unfold set_blob_metadata, set_blob_metadata_try, try_except, bind, print, input, ret,
    get_blob_client, BlobClient_exists, BlobClient_set_blob_metadata, sdk_call.
  cbn -[String.append nl count set_blob_metadata_while print_items].
  rewrite Hin.
  cbn -[String.append nl count set_blob_metadata_while print_items].
  destruct (new_blob_client cn bn) as [e|] eqn:Hnew;
    cbn -[String.append nl count set_blob_metadata_while print_items].
  { eexists. split; [reflexivity|].
    rewrite (issued_app w _ [_]) by reflexivity. split; [reflexivity|]. cbn. lia. }
  destruct (service_exists (mkBlobClient cn bn) (service w)) as [[[|]|e] s1] eqn:Hex;
    cbn -[String.append nl count set_blob_metadata_while print_items].
  2,3: eexists; (split; [reflexivity|]);
       rewrite (issued_app w _ [_; _]) by (cbn [trace]; rewrite <- app_assoc; reflexivity);
       (split; [reflexivity|]); cbn; lia.
  match goal with
  | |- context [set_blob_metadata_while [] ?w0] =>
      destruct (set_blob_metadata_while_reads pairs [] w0 after_pairs eq_refl Hkeys)
        as [out Hloop]
  end.
  rewrite Hloop.
  cbn -[String.append nl count set_blob_metadata_while print_items].
  destruct Hend as [-> | (confirm & rest & -> & Hno)].
  - cbn -[String.append nl count].
    eexists. split; [reflexivity|].
    rewrite (issued_app w _ [_; _]) by (cbn [trace]; rewrite <- app_assoc; reflexivity).
    split; [reflexivity|]. cbn. lia.
  - apply String.eqb_neq in Hno.
    destruct (dict_truthy (assigned [] pairs)) eqn:Hmd; cbn [negb].
    + match goal with
      | |- context [print_items ?md ?w0] =>
          destruct (print_items_run md w0) as [out2 Hitems]
      end.
      rewrite Hitems. cbn -[String.append nl count]. rewrite Hno.
      eexists. split; [reflexivity|].
      rewrite (issued_app w _ [_; _]) by (cbn [trace]; rewrite <- app_assoc; reflexivity).
      split; [reflexivity|]. cbn. lia.
    + eexists. split; [reflexivity|].
      rewrite (issued_app w _ [_; _]) by (cbn [trace]; rewrite <- app_assoc; reflexivity).
      split; [reflexivity|]. cbn. lia.
Qed.

End StorageFacts.

(** ** The Cosmos DB manager *)

Section CosmosFacts.
Import Cosmos.
Context {Svc : Type} {sdk : CosmosService Svc}.

(** C9.  [delete_item] issues no SDK call, so no delete call, unless the
    fifth line typed, the answer to the confirmation prompt, is the letter y
    in either case.  With any other answer it prints that the operation is
    cancelled and returns, the trace and the service being as they were. *)
Theorem delete_item_needs_confirmation (w : World event Svc) :
  (forall db c item pk confirm rest,
      stdin w = db :: c :: item :: pk :: confirm :: rest ->
      lower confirm <> "y" ->
      exists w',
        delete_item w = (Ret tt, w') /\
        issued w w' = [] /\
        service w' = service w /\
        last (stdout w') "" = "Operation cancelled.") /\
  (issued w (snd (delete_item w)) <> [] ->
   exists db c item pk confirm rest,
     stdin w = db :: c :: item :: pk :: confirm :: rest /\
     (confirm = "y" \/ confirm = "Y")).
Proof.
  split.
  - intros db c item pk confirm rest Hin Hno.
    apply String.eqb_neq in Hno.
    eexists. split.
    + unfold delete_item, bind, print, input. cbn -[String.append nl].
      rewrite Hin. cbn -[String.append nl]. rewrite Hno. reflexivity.
    + cbn [stdout service]. rewrite last_last.
      split; [apply issued_app; cbn [trace]; rewrite app_nil_r; reflexivity|].
      split; reflexivity.
  - unfold delete_item, bind, print, input. cbn -[String.append nl].
    destruct (stdin w) as [|db [|c [|item [|pk [|confirm rest]]]]] eqn:Hin;
      cbn -[String.append nl].
    1-5: intros H; exfalso; apply H; apply issued_app; cbn [trace];
         rewrite app_nil_r; reflexivity.
    destruct (String.eqb (lower confirm) "y") eqn:Hy; cbn -[String.append nl].
    + intros _. exists db, c, item, pk, confirm, rest. split; [reflexivity|].
      apply lower_is_y. apply String.eqb_eq. exact Hy.
    + intros H; exfalso; apply H; apply issued_app; cbn [trace];
        rewrite app_nil_r; reflexivity.
Qed.

End CosmosFacts.

(** * Runs on the in-memory account *)

Section Runs.
Import Storage Emulator.

(** C1 as stated fails: on a copy that stays pending, [wait_for_copy]
    fetches the properties twelve times, not ten at most, before it returns
    [False]; and on a blob whose properties cannot be fetched it does not
    return a boolean, the exception of the fetch comes out of it. *)
Lemma wait_for_copy_polls_twelve_times :
  let w0 := session [] (two_blobs 100 "success") in
  fst (wait_for_copy x_in_a w0) = Ret false /\
  count is_fetch (issued w0 (snd (wait_for_copy x_in_a w0))) = 12 /\
  ~ count is_fetch (issued w0 (snd (wait_for_copy x_in_a w0))) <= 10 /\
  fst (wait_for_copy x_in_b w0) = Raise missing_blob.
Proof.
  vm_compute. repeat split. lia.
Qed.

Lemma wait_for_copy_returns_within_twelve_polls_witness :
  let w0 := session [] (two_blobs 100 "success") in
  exists w',
    wait_for_copy x_in_a w0 = (Ret false, w') /\
    count is_fetch (issued w0 w') = 12.
Proof.
  intros w0.
  destruct (wait_for_copy_returns_within_twelve_polls x_in_a w0)
    as (r & w' & Hrun & _ & _ & _ & _ & Hall & _ & _).
  assert (Hw : w' = snd (wait_for_copy x_in_a w0)) by (rewrite Hrun; reflexivity).
  assert (H1 : count call_raised (issued w0 w') = 0) by (rewrite Hw; vm_compute; reflexivity).
  assert (H2 : forallb pending (observed (issued w0 w')) = true)
    by (rewrite Hw; vm_compute; reflexivity).
  destruct (Hall H1 H2) as [Hr Hc].
  exists w'. split; [rewrite Hrun, Hr; reflexivity | exact Hc].
Defined.

Lemma wait_for_copy_true_iff_success_read_witness :
  let w0 := session [] (two_blobs 1 "success") in
  exists w',
    wait_for_copy x_in_a w0 = (Ret true, w') /\
    In (Some "success") (observed (issued w0 w')).
Proof.
  intros w0.
  destruct (wait_for_copy_true_iff_success_read x_in_a w0)
    as (r & w' & Hrun & Hiff & _).
  assert (Hr : r = fst (wait_for_copy x_in_a w0)) by (rewrite Hrun; reflexivity).
  vm_compute in Hr.
  exists w'. split; [rewrite Hrun, Hr; reflexivity | apply Hiff; exact Hr].
Defined.

Lemma move_specific_blob_source_missing_witness :
  let w0 := session ["a"; "z.txt"; "b"] (two_blobs 1 "success") in
  stdin w0 = "a" :: "z.txt" :: "b" :: [] /\
  new_blob_client "a" "z.txt" = None /\
  service_exists (mkBlobClient "a" "z.txt") (service w0) = (Ret false, two_blobs 1 "success") /\
  exists w',
    move_specific_blob w0 = (Ret tt, w') /\
    count is_copy (issued w0 w') = 0 /\
    count is_delete (issued w0 w') = 0.
Proof.
  intros w0.
  assert (H1 : stdin w0 = "a" :: "z.txt" :: "b" :: []) by reflexivity.
  assert (H2 : new_blob_client "a" "z.txt" = None) by reflexivity.
  assert (H3 : service_exists (mkBlobClient "a" "z.txt") (service w0)
               = (Ret false, two_blobs 1 "success")) by reflexivity.
  split; [exact H1|]. split; [exact H2|]. split; [exact H3|].
  destruct (move_specific_blob_source_missing w0 "a" "z.txt" "b" [] _ H1 H2 H3)
    as (w' & Hrun & _ & Hc & Hd & _).
  exists w'. repeat split; assumption.
Defined.

Lemma move_specific_blob_failed_copy_keeps_source_witness :
  let w0 := session ["a"; "x.txt"; "b"] (two_blobs 1 "failed") in
  let w1 := snd (move_specific_blob_until_wait w0) in
  let w2 := snd (wait_for_copy x_in_b w1) in
  move_specific_blob_until_wait w0 = (Ret (Some (x_in_a, x_in_b)), w1) /\
  wait_for_copy x_in_b w1 = (Ret false, w2) /\
  exists w',
    move_specific_blob w0 = (Ret tt, w') /\
    count is_delete (issued w0 w') = 0 /\
    has_blob (service w') x_in_a = true.
Proof.
  intros w0 w1 w2.
  assert (H1 : move_specific_blob_until_wait w0 = (Ret (Some (x_in_a, x_in_b)), w1))
    by (vm_compute; reflexivity).
  assert (H2 : wait_for_copy x_in_b w1 = (Ret false, w2)) by (vm_compute; reflexivity).
  split; [exact H1|]. split; [exact H2|].
  destruct (move_specific_blob_failed_copy_keeps_source w0 w1 w2 x_in_a x_in_b H1 H2)
    as (w' & Hrun & Hd & _ & Hs & _).
  exists w'. split; [exact Hrun|]. split; [exact Hd|].
  rewrite Hs. vm_compute. reflexivity.
Defined.

(** C4 as stated fails: with the same container typed as source and as
    destination, the copy succeeds, the one delete call is on the destination
    blob, and no blob of that name is left. *)
Lemma move_specific_blob_same_container_deletes_destination :
  let w0 := session ["a"; "x.txt"; "a"] (two_blobs 0 "success") in
  let w1 := snd (move_specific_blob_until_wait w0) in
  let w2 := snd (wait_for_copy x_in_a w1) in
  let dest_blob := mkBlobClient "a" "x.txt" in
  move_specific_blob_until_wait w0 = (Ret (Some (x_in_a, dest_blob)), w1) /\
  wait_for_copy dest_blob w1 = (Ret true, w2) /\
  fst (move_specific_blob w0) = Ret tt /\
  In (DeleteBlob dest_blob (Ret tt)) (issued w0 (snd (move_specific_blob w0))) /\
  has_blob (service (snd (move_specific_blob w0))) dest_blob = false.
Proof.
  vm_compute. repeat split. repeat first [left; reflexivity | right].
Qed.

Lemma move_specific_blob_deletes_source_once_witness :
  let w0 := session ["a"; "x.txt"; "b"] (two_blobs 1 "success") in
  let w1 := snd (move_specific_blob_until_wait w0) in
  let w2 := snd (wait_for_copy x_in_b w1) in
  move_specific_blob_until_wait w0 = (Ret (Some (x_in_a, x_in_b)), w1) /\
  wait_for_copy x_in_b w1 = (Ret true, w2) /\
  exists rd w',
    move_specific_blob w0 = (Ret tt, w') /\
    issued w0 w' = issued w0 w2 ++ [DeleteBlob x_in_a rd] /\
    count is_delete (issued w0 w') = 1 /\
    x_in_a <> x_in_b.
Proof.
  intros w0 w1 w2.
  assert (H1 : move_specific_blob_until_wait w0 = (Ret (Some (x_in_a, x_in_b)), w1))
    by (vm_compute; reflexivity).
  assert (H2 : wait_for_copy x_in_b w1 = (Ret true, w2)) by (vm_compute; reflexivity).
  split; [exact H1|]. split; [exact H2|].
  destruct (move_specific_blob_deletes_source_once w0 w1 w2 x_in_a x_in_b H1 H2)
    as (sc & bn & dc & rd & w' & Hin & Hsrc & Hdst & Hrun & Hiss & _ & Hone & Hsame).
  exists rd, w'. repeat split; try assumption.
  intros Heq. apply Hsame in Heq.
  injection Hsrc as <- _. injection Hdst as <- _. discriminate Heq.
Defined.

Lemma move_all_blobs_needs_confirmation_witness :
  let w0 := session ["a"; "b"; "no"] (two_blobs 1 "success") in
  stdin w0 = "a" :: "b" :: "no" :: [] /\
  lower "no" <> "y" /\
  exists w',
    move_all_blobs w0 = (Ret tt, w') /\
    issued w0 w' = [] /\
    service w' = service w0.
Proof.
  intros w0.
  assert (H1 : stdin w0 = "a" :: "b" :: "no" :: []) by reflexivity.
  assert (H2 : lower "no" <> "y") by (apply String.eqb_neq; reflexivity).
  split; [exact H1|]. split; [exact H2|].
  destruct (proj1 (move_all_blobs_needs_confirmation w0) "a" "b" "no" [] H1 H2)
    as (w' & Hrun & Hiss & Hs & _).
  exists w'. repeat split; assumption.
Defined.

(** C6 as stated fails: the enumeration returns two blobs, the destination
    container does not exist, the first copy call raises and ends the loop:
    one copy call is issued, not two. *)
Lemma move_all_blobs_stops_at_first_raise :
  let w0 := session ["a"; "zz"; "y"] (two_blobs 1 "success") in
  exists blob_list,
    In (ListBlobs (mkContainerClient "a") (Ret blob_list))
       (issued w0 (snd (move_all_blobs w0))) /\
    List.length blob_list = 2 /\
    count is_copy (issued w0 (snd (move_all_blobs w0))) = 1 /\
    count is_copy (issued w0 (snd (move_all_blobs w0))) <> List.length blob_list.
Proof.
  vm_compute. eexists. split; [right; left; reflexivity|].
  repeat split. discriminate.
Qed.

Lemma move_all_blobs_copies_each_deletes_copied_witness :
  let acc := mkAccount ["a"; "b"] [x_in_a; mkBlobClient "a" "y.txt"] 1 "failed" in
  let w0 := session ["a"; "b"; "Y"] acc in
  let blob_list := [mkBlobProperties "x.txt" no_copy; mkBlobProperties "y.txt" no_copy] in
  stdin w0 = "a" :: "b" :: "Y" :: [] /\
  lower "Y" = "y" /\
  new_container_client "a" = None /\
  service_list_blobs (mkContainerClient "a") (service w0) = (Ret blob_list, acc) /\
  exists w',
    move_all_blobs w0 = (Ret tt, w') /\
    count is_copy (issued w0 w') = 2 /\
    count is_delete (issued w0 w') = 0.
Proof.
  intros acc w0 blob_list.
  assert (H1 : stdin w0 = "a" :: "b" :: "Y" :: []) by reflexivity.
  assert (H2 : lower "Y" = "y") by reflexivity.
  assert (H3 : new_container_client "a" = None) by reflexivity.
  assert (H4 : service_list_blobs (mkContainerClient "a") (service w0)
               = (Ret blob_list, acc)) by reflexivity.
  split; [exact H1|]. split; [exact H2|]. split; [exact H3|]. split; [exact H4|].
  destruct (proj1 (move_all_blobs_copies_each_deletes_copied
                     w0 "a" "b" "Y" [] blob_list acc H1 H2 H3 H4))
    as (w' & Hrun & Hd & _ & Hall & _).
  assert (Hw : w' = snd (move_all_blobs w0)) by (rewrite Hrun; reflexivity).
  exists w'. split; [exact Hrun|]. split.
  - apply Hall. rewrite Hw. vm_compute. reflexivity.
  - rewrite Hd, Hw. vm_compute. reflexivity.
Defined.

(** C7 as stated fails.  On two blobs the bulk move makes no existence
    check where the workflow makes one per blob, so the calls differ; and
    with a destination container that does not exist the bulk move stops at
    the first copy, where the workflow applied to each element starts two. *)
Lemma move_all_blobs_is_not_the_workflow_on_each :
  let w0 := session ["a"; "b"; "y"] (two_blobs 1 "success") in
  let w1 := session ["a"; "zz"; "y"] (two_blobs 1 "success") in
  count is_exists (issued w0 (snd (move_all_blobs w0))) = 0 /\
  count is_exists (issued w0 (snd (move_all_blobs_as_specified w0))) = 2 /\
  issued w0 (snd (move_all_blobs w0)) <> issued w0 (snd (move_all_blobs_as_specified w0)) /\
  count is_copy (issued w1 (snd (move_all_blobs w1))) = 1 /\
  count is_copy (issued w1 (snd (move_all_blobs_as_specified w1))) = 2.
Proof.
  vm_compute. repeat split. discriminate.
Qed.

Lemma move_all_blobs_matches_specified_without_exists_witness :
  let w0 := session ["a"; "b"; "y"] (two_blobs 1 "success") in
  let w_spec := snd (move_all_blobs_as_specified w0) in
  (forall b s, snd (service_exists b s) = s) /\
  move_all_blobs_as_specified w0 = (Ret tt, w_spec) /\
  count call_raised (issued w0 w_spec) = 0 /\
  count exists_not_true (issued w0 w_spec) = 0 /\
  exists w',
    move_all_blobs w0 = (Ret tt, w') /\
    issued w0 w' = without_exists (issued w0 w_spec) /\
    service w' = service w_spec.
Proof.
  intros w0 w_spec.
  assert (H1 : forall b s, snd (service_exists b s) = s) by (intros b s; reflexivity).
  assert (H2 : move_all_blobs_as_specified w0 = (Ret tt, w_spec)) by (vm_compute; reflexivity).
  assert (H3 : count call_raised (issued w0 w_spec) = 0) by (vm_compute; reflexivity).
  assert (H4 : count exists_not_true (issued w0 w_spec) = 0) by (vm_compute; reflexivity).
  split; [exact H1|]. split; [exact H2|]. split; [exact H3|]. split; [exact H4|].
  destruct (proj1 (move_all_blobs_matches_specified_without_exists w0 w_spec (Ret tt))
              H1 H2 H3 H4)
    as (w' & Hrun & Hiss & Hs & _).
  exists w'. repeat split; assumption.
Defined.

Lemma set_blob_metadata_cancelled_sets_nothing_witness :
  let w0 := session ["a"; "x.txt"; "owner"; "ayush"; ""; "n"] (two_blobs 1 "success") in
  stdin w0 = "a" :: "x.txt" :: typed_pairs [("owner", "ayush")] ++ "" :: "n" :: [] /\
  Forall (fun p => truthy (fst p) = true) [("owner", "ayush")] /\
  lower "n" <> "y" /\
  exists w',
    set_blob_metadata w0 = (Ret tt, w') /\
    count is_set_metadata (issued w0 w') = 0.
Proof.
  intros w0.
  assert (H1 : stdin w0 = "a" :: "x.txt" :: typed_pairs [("owner", "ayush")] ++ "" :: "n" :: [])
    by reflexivity.
  assert (H2 : Forall (fun p => truthy (fst p) = true) [("owner", "ayush")])
    by (repeat constructor).
  assert (H3 : lower "n" <> "y") by (apply String.eqb_neq; reflexivity).
  split; [exact H1|]. split; [exact H2|]. split; [exact H3|].
  destruct (set_blob_metadata_cancelled_sets_nothing w0 "a" "x.txt" _ H1
              (or_intror (ex_intro _ [("owner", "ayush")]
                 (ex_intro _ "n" (ex_intro _ [] (conj eq_refl (conj H2 H3)))))))
    as (w' & Hrun & Hz & _).
  exists w'. split; assumption.
Defined.

(** With the same pairs and the answer y the call is issued: the handler
    does set metadata when it is not cancelled. *)
Example set_blob_metadata_confirmed_sets :
  let w0 := session ["a"; "x.txt"; "owner"; "ayush"; ""; "y"] (two_blobs 1 "success") in
  issued w0 (snd (set_blob_metadata w0)) =
    [GetBlobClient "a" "x.txt" (Ret x_in_a); Exists x_in_a (Ret true);
     SetBlobMetadata x_in_a [("owner", "ayush")] (Ret tt)].
Proof. vm_compute. reflexivity. Qed.

(** The end-to-end move of the specification: one blob, success on the
    first poll, the blob is in [b] and no longer in [a]. *)
Example move_specific_blob_end_to_end :
  let w0 := session ["a"; "x.txt"; "b"] (mkAccount ["a"; "b"] [x_in_a] 0 "success") in
  fst (move_specific_blob w0) = Ret tt /\
  blobs (service (snd (move_specific_blob w0))) = [x_in_b] /\
  count is_fetch (issued w0 (snd (move_specific_blob w0))) = 1.
Proof. vm_compute. repeat split. Qed.

End Runs.

(** * Runs on the in-memory Cosmos container *)

Section CosmosRuns.
Import Cosmos CosmosEmulator.

Lemma delete_item_needs_confirmation_witness :
  let w0 := session ["shop"; "books"; "item3"; "books"; "n"]
                    [("shop", "books", "item3", "books")] in
  stdin w0 = "shop" :: "books" :: "item3" :: "books" :: "n" :: [] /\
  lower "n" <> "y" /\
  exists w',
    delete_item w0 = (Ret tt, w') /\
    issued w0 w' = [] /\
    service w' = [("shop", "books", "item3", "books")].
Proof.
  intros w0.
  assert (H1 : stdin w0 = "shop" :: "books" :: "item3" :: "books" :: "n" :: []) by reflexivity.
  assert (H2 : lower "n" <> "y") by (apply String.eqb_neq; reflexivity).
  split; [exact H1|]. split; [exact H2|].
  destruct (proj1 (delete_item_needs_confirmation w0) _ _ _ _ _ _ H1 H2)
    as (w' & Hrun & Hiss & Hs & _).
  exists w'. repeat split; assumption.
Defined.

(** With the answer Y the delete call is issued and the item is gone. *)
Example delete_item_confirmed_deletes :
  let w0 := session ["shop"; "books"; "item3"; "books"; "Y"]
                    [("shop", "books", "item3", "books")] in
  issued w0 (snd (delete_item w0)) =
    [GetDatabaseClient "shop" (Ret (mkDatabaseProxy "shop"));
     GetContainerClient (mkDatabaseProxy "shop") "books" (Ret (mkContainerProxy "shop" "books"));
     DeleteItem (mkContainerProxy "shop" "books") "item3" "books" (Ret tt)] /\
  service (snd (delete_item w0)) = [].
Proof. vm_compute. split; reflexivity. Qed.

End CosmosRuns.

(** * More properties *)

(** ** How the behaviours compose *)

Section BehaviourFacts.
Context {E Svc : Type}.

Lemma emits_ret (P : E -> Prop) {A : Type} (a : A) : emits P (@ret E Svc A a).
Proof.
  intros w. split; [exists []; reflexivity|].
  exists []. split; [symmetry; apply app_nil_r | constructor].
Qed.

Lemma emits_print (P : E -> Prop) (s : string) : emits P (@print E Svc s).
Proof.
  intros w. split; [exists []; reflexivity|].
  exists []. split; [symmetry; apply app_nil_r | constructor].
Qed.

Lemma emits_input (P : E -> Prop) (prompt : string) : emits P (@input E Svc prompt).
Proof.
  intros w. unfold input. destruct (stdin w) as [|line rest] eqn:Hin; cbn [snd stdin trace].
  - split; [exists []; reflexivity|].
    exists []. split; [symmetry; apply app_nil_r | constructor].
  - split; [exists [line]; reflexivity|].
    exists []. split; [symmetry; apply app_nil_r | constructor].
Qed.

Lemma emits_sdk_call (P : E -> Prop) {A : Type}
    (f : Svc -> outcome A * Svc) (ev : outcome A -> E) :
  (forall r, P (ev r)) -> emits P (sdk_call f ev).
Proof.
  intros HP w. unfold sdk_call. destruct (f (service w)) as [r s1]. cbn [snd stdin trace].
  split; [exists []; reflexivity|].
  exists [ev r]. split; [reflexivity | constructor; [apply HP | constructor]].
Qed.

Lemma emits_log (P : E -> Prop) (e : E) : P e -> emits P (@log E Svc e).
Proof.
  intros HP w. split; [exists []; reflexivity|].
  exists [e]. split; [reflexivity | constructor; [exact HP | constructor]].
Qed.

Lemma emits_bind (P : E -> Prop) {A B : Type} (m : M E Svc A) (k : A -> M E Svc B) :
  emits P m -> (forall a, emits P (k a)) -> emits P (bind m k).
Proof.
  intros Hm Hk w. unfold bind.
  destruct (Hm w) as [[used Hu] [evs [Ht He]]].
  destruct (m w) as [[a|e] w1]; cbn [snd] in *.
  - destruct (Hk a w1) as [[used2 Hu2] [evs2 [Ht2 He2]]].
    split.
    + exists (used ++ used2). rewrite Hu, Hu2, app_assoc. reflexivity.
    + exists (evs ++ evs2). rewrite Ht2, Ht, app_assoc.
      split; [reflexivity | apply Forall_app; split; assumption].
  - split; [exists used; exact Hu | exists evs; split; assumption].
Qed.

Lemma emits_try_except (P : E -> Prop) {A : Type} (m : M E Svc A) (h : exn -> M E Svc A) :
  emits P m -> (forall e, emits P (h e)) -> emits P (try_except m h).
Proof.
  intros Hm Hh w. unfold try_except.
  destruct (Hm w) as [[used Hu] [evs [Ht He]]].
  destruct (m w) as [[a|e] w1]; cbn [snd] in *.
  - split; [exists used; exact Hu | exists evs; split; assumption].
  - destruct (Hh e w1) as [[used2 Hu2] [evs2 [Ht2 He2]]].
    split.
    + exists (used ++ used2). rewrite Hu, Hu2, app_assoc. reflexivity.
    + exists (evs ++ evs2). rewrite Ht2, Ht, app_assoc.
      split; [reflexivity | apply Forall_app; split; assumption].
Qed.

Lemma emits_weaken (P Q : E -> Prop) {A : Type} (m : M E Svc A) :
  (forall e, P e -> Q e) -> emits P m -> emits Q m.
Proof.
  intros HPQ Hm w. destruct (Hm w) as [Hu [evs [Ht He]]].
  split; [exact Hu|]. exists evs. split; [exact Ht|].
  eapply Forall_impl; [|exact He]. exact HPQ.
Qed.

(** What [emits] says of a run, in terms of [issued]. *)
Lemma emits_issued (P : E -> Prop) {A : Type} (m : M E Svc A) (w : World E Svc) :
  emits P m ->
  Forall P (issued w (snd (m w))) /\
  List.length (stdin (snd (m w))) <= List.length (stdin w).
Proof.
  intros Hm. destruct (Hm w) as [[used Hu] [evs [Ht He]]].
  rewrite (issued_app w _ evs Ht). split; [exact He|].
  rewrite Hu, length_app. lia.
Qed.

Lemma never_raises_ret {A : Type} (a : A) : never_raises (@ret E Svc A a).
Proof. intros w. exists a. reflexivity. Qed.

Lemma never_raises_print (s : string) : never_raises (@print E Svc s).
Proof. intros w. exists tt. reflexivity. Qed.

Lemma never_raises_bind {A B : Type} (m : M E Svc A) (k : A -> M E Svc B) :
  never_raises m -> (forall a, never_raises (k a)) -> never_raises (bind m k).
Proof.
  intros Hm Hk w. unfold bind. destruct (Hm w) as [a Ha].
  destruct (m w) as [[a'|e] w1]; cbn [fst] in Ha; [|discriminate].
  apply Hk.
Qed.

(** A [try] whose [except] clauses catch everything and only print lets
    nothing out. *)
Lemma never_raises_try_except {A : Type} (m : M E Svc A) (h : exn -> M E Svc A) :
  (forall e, never_raises (h e)) -> never_raises (try_except m h).
Proof.
  intros Hh w. unfold try_except.
  destruct (m w) as [[a|e] w1]; [exists a; reflexivity | apply Hh].
Qed.

Lemma never_raises_only_eof {A : Type} (m : M E Svc A) : never_raises m -> only_eof m.
Proof.
  intros Hm w e He. destruct (Hm w) as [a Ha]. congruence.
Qed.

Lemma only_eof_input (prompt : string) : only_eof (@input E Svc prompt).
Proof.
  intros w e. unfold input. destruct (stdin w); cbn [fst]; intros H; [|discriminate].
  injection H as <-. reflexivity.
Qed.

Lemma only_eof_bind {A B : Type} (m : M E Svc A) (k : A -> M E Svc B) :
  only_eof m -> (forall a, only_eof (k a)) -> only_eof (bind m k).
Proof.
  intros Hm Hk w e. unfold bind. specialize (Hm w).
  destruct (m w) as [[a|e'] w1]; cbn [fst] in *.
  - apply Hk.
  - intros H. injection H as <-. apply Hm. reflexivity.
Qed.

End BehaviourFacts.

(** ** More on the blob manager *)

Section StorageMore.
Import Storage.
Context {Svc : Type} {sdk : BlobService Svc} {fields : BlobPropertiesFields}.

Local Abbreviation Py := (M event Svc).

Lemma Forall_count_zero (f : event -> bool) (evs : list event) :
  Forall (fun e => f e = false) evs -> count f evs = 0.
Proof.
  intros H. induction H as [|e l He _ IH]; [reflexivity|].
  rewrite count_cons, He, IH. reflexivity.
Qed.

(** The wait adds fetches of the polled blob and three-second sleeps, and
    reads no line. *)
Lemma emits_wait_for_copy (P : event -> Prop) (b : BlobClient) :
  P (Sleep 3) -> (forall a, P (GetBlobProperties b a)) -> emits P (wait_for_copy b).
Proof.
  intros Hs Hg w.
  destruct (wait_for_copy_run b (service w)) as (r & out & evs & s & Ht & Hrun).
  rewrite (Hrun w eq_refl). cbn [snd stdin trace].
  split; [exists []; reflexivity|].
  exists evs. split; [reflexivity|].
  eapply Forall_impl; [|exact (wait_trace_only_polls _ _ _ _ Ht)].
  intros e [-> | [a ->]]; [exact Hs | apply Hg].
Qed.

(** The loop that reads the pairs issues no call, and lets out nothing but
    the [EOFError] of a script that ends before the empty key. *)
Lemma set_blob_metadata_while_quiet (n : nat) :
  forall (metadata : dict) (w : World event Svc),
    List.length (stdin w) < n ->
    (exists used, stdin w = used ++ stdin (snd (set_blob_metadata_while metadata w))) /\
    trace (snd (set_blob_metadata_while metadata w)) = trace w /\
    service (snd (set_blob_metadata_while metadata w)) = service w /\
    (forall e, fst (set_blob_metadata_while metadata w) = Raise e ->
               e = EOFError /\ stdin (snd (set_blob_metadata_while metadata w)) = []).
Proof.
  induction n as [|n IH]; intros metadata w Hn; [lia|].
  destruct w as [i o t s]. cbn [stdin] in Hn.
  rewrite set_blob_metadata_while_unfold_eq.
  unfold set_blob_metadata_while_unfold.
  destruct i as [|key rest].
  { cbn -[String.append].
    split; [exists []; reflexivity|]. split; [reflexivity|]. split; [reflexivity|].
    intros e He. injection He as <-. split; reflexivity. }
  cbn -[String.append set_blob_metadata_while].
  destruct (truthy key) eqn:Hk; cbn -[String.append set_blob_metadata_while].
  2:{ split; [exists [key]; reflexivity|]. split; [reflexivity|]. split; [reflexivity|].
      intros e He. discriminate He. }
  destruct rest as [|value rest].
  { cbn -[String.append].
    split; [exists [key]; reflexivity|]. split; [reflexivity|]. split; [reflexivity|].
    intros e He. injection He as <-. split; reflexivity. }
  cbn -[String.append set_blob_metadata_while].
  match goal with
  | |- context [set_blob_metadata_while ?md ?w0] =>
      destruct (IH md w0 ltac:(cbn [stdin List.length] in *; lia))
        as ([used Hu] & Htr & Hsv & Hraise)
  end.
  cbn [stdin trace service] in *.
  split; [exists (key :: value :: used); cbn [app]; rewrite Hu at 1; reflexivity|].
  split; [exact Htr|]. split; [exact Hsv|]. exact Hraise.
Qed.

Lemma emits_set_blob_metadata_while (P : event -> Prop) (metadata : dict) :
  emits (Svc := Svc) P (set_blob_metadata_while metadata).
Proof.
  intros w.
  destruct (set_blob_metadata_while_quiet (Datatypes.S (List.length (stdin w))) metadata w)
    as (Hu & Htr & _ & _); [lia|].
  split; [exact Hu|]. exists []. rewrite Htr, app_nil_r. split; [reflexivity|constructor].
Qed.

Lemma only_eof_set_blob_metadata_while (metadata : dict) :
  only_eof (Svc := Svc) (set_blob_metadata_while metadata).
Proof.
  intros w e He.
  destruct (set_blob_metadata_while_quiet (Datatypes.S (List.length (stdin w))) metadata w)
    as (_ & _ & _ & Hr); [lia|].
  apply (Hr e He).
Qed.

(** *** Copying one blob *)

Ltac run_more :=
  cbn -[String.append nl wait_for_copy status_in count without_exists
        copies deleted metadata_sent slept set_blob_metadata_while] in *.

Ltac count_more :=
  rewrite ?count_app, ?count_cons, ?count_nil;
  cbn [is_fetch is_sleep is_success is_delete is_copy is_exists is_set_metadata is_write
       call_raised exists_not_true raised Nat.add].

Ltac close_more :=
  split; [reflexivity|];
  split; [cbn [trace]; rewrite <- ?app_assoc; reflexivity|];
  split; [reflexivity|].

(** The copy workflow and the move workflow on the same names, from the
    same world: both return; the move issues the calls of the copy and then,
    when the wait read "success", one delete on the source blob; the copy
    starts at most one copy and issues no delete. *)
Lemma copy_and_move_try_run (sc bn dc : string) (w wm : World event Svc) :
  service wm = service w ->
  exists w_copy evs,
    try_except (copy_specific_blob_try sc bn dc) copy_specific_blob_except w
      = (Ret tt, w_copy) /\
    trace w_copy = trace w ++ evs /\
    stdin w_copy = stdin w /\
    count is_copy evs <= 1 /\
    count is_delete evs = 0 /\
    count is_set_metadata evs = 0 /\
    count is_success evs <= count is_copy evs /\
    exists w_move dels,
      try_except (move_specific_blob_try sc bn dc) move_specific_blob_except wm
        = (Ret tt, w_move) /\
      trace w_move = trace wm ++ evs ++ dels /\
      stdin w_move = stdin wm /\
      List.length dels = count is_success evs /\
      Forall (fun e => exists rd, e = DeleteBlob (mkBlobClient sc bn) rd) dels /\
      (dels = [] -> service w_move = service w_copy).
Proof.
  unfold copy_specific_blob_try, copy_specific_blob_except,
    move_specific_blob_try, move_specific_blob_except,
    try_except, bind, print, ret, get_blob_client, BlobClient_exists,
    BlobClient_start_copy_from_url, BlobClient_delete_blob, sdk_call.
  intros Hsame. run_more. rewrite Hsame.
  destruct (new_blob_client sc bn) as [e|] eqn:Hsrc; run_more.
  { destruct (is_resource_not_found e); eexists _, [_]; close_more;
      count_more; repeat (split; [lia|]);
      eexists _, []; close_more; repeat split; reflexivity || constructor. }
  destruct (service_exists (mkBlobClient sc bn) (service w)) as [[[|]|e] s0] eqn:Hex;
    run_more.
  2:{ eexists _, [_; _]; close_more; count_more; repeat (split; [lia|]);
        eexists _, []; close_more; repeat split; reflexivity || constructor. }
  2:{ destruct (is_resource_not_found e); eexists _, [_; _]; close_more;
        count_more; repeat (split; [lia|]);
        eexists _, []; close_more; repeat split; reflexivity || constructor. }
  destruct (new_blob_client dc bn) as [e|] eqn:Hdst; run_more.
  { destruct (is_resource_not_found e); eexists _, [_; _; _]; close_more;
      count_more; repeat (split; [lia|]);
      eexists _, []; close_more; repeat split; reflexivity || constructor. }
  destruct (service_start_copy_from_url (mkBlobClient dc bn) (url (mkBlobClient sc bn)) s0)
    as [[[]|e] s1] eqn:Hcopy; run_more.
  2:{ destruct (is_resource_not_found e); eexists _, [_; _; _; _]; close_more;
        count_more; repeat (split; [lia|]);
        eexists _, []; close_more; repeat split; reflexivity || constructor. }
  destruct (wait_for_copy_run (mkBlobClient dc bn) s1) as (r & out & evs & s & Ht & Hrun).
  rewrite !Hrun by reflexivity.
  destruct (wait_trace_counts _ _ _ Ht) as (Hd & Hc & _ & _ & Hs & _ & _).
  assert (Hm : count is_set_metadata evs = 0).
  { apply Forall_count_zero.
    eapply Forall_impl; [|exact (wait_trace_only_polls _ _ _ _ Ht)].
    intros e0 [-> | [a ->]]; reflexivity. }
  destruct r as [[|]|e]; run_more.
  - destruct (service_delete_blob (mkBlobClient sc bn) s) as [[[]|e] s3] eqn:Hdel; run_more.
    + eexists _, ([_; _; _; _] ++ evs). close_more.
      count_more. rewrite Hd, Hc, Hs, Hm. repeat (split; [lia|]).
      eexists _, [_]. close_more. cbn [List.length].
      split; [lia|]. split; [repeat constructor; eexists; reflexivity|]. discriminate.
    + destruct (is_resource_not_found e); eexists _, ([_; _; _; _] ++ evs); close_more;
        count_more; rewrite Hd, Hc, Hs, Hm; repeat (split; [lia|]);
        eexists _, [_]; close_more; cbn [List.length];
        (split; [lia|]); (split; [repeat constructor; eexists; reflexivity|]); discriminate.
  - eexists _, ([_; _; _; _] ++ evs). close_more.
    count_more. rewrite Hd, Hc, Hs, Hm. repeat (split; [lia|]).
    eexists _, []. split; [reflexivity|].
    split; [cbn [trace]; rewrite app_nil_r, <- ?app_assoc; reflexivity|].
    repeat split; reflexivity || constructor.
  - destruct (is_resource_not_found e); eexists _, ([_; _; _; _] ++ evs); close_more;
      count_more; rewrite Hd, Hc, Hs, Hm; repeat (split; [lia|]);
      eexists _, []; (split; [reflexivity|]);
      (split; [cbn [trace]; rewrite app_nil_r, <- ?app_assoc; reflexivity|]);
      repeat split; reflexivity || constructor.
Qed.

(** The two handlers from the same world: same result, same lines read;
    the calls of the move are the calls of the copy, then the deletes. *)
Lemma copy_and_move_run (w : World event Svc) :
  exists evs dels,
    issued w (snd (copy_specific_blob w)) = evs /\
    issued w (snd (move_specific_blob w)) = evs ++ dels /\
    fst (move_specific_blob w) = fst (copy_specific_blob w) /\
    stdin (snd (move_specific_blob w)) = stdin (snd (copy_specific_blob w)) /\
    count is_copy evs <= 1 /\
    count is_delete evs = 0 /\
    count is_set_metadata evs = 0 /\
    count is_success evs <= count is_copy evs /\
    List.length dels = count is_success evs /\
    Forall (fun e => exists rd,
                e = DeleteBlob (mkBlobClient (nth 0 (stdin w) "") (nth 1 (stdin w) "")) rd)
           dels /\
    (dels = [] ->
     service (snd (move_specific_blob w)) = service (snd (copy_specific_blob w))).
Proof.
  unfold copy_specific_blob, move_specific_blob, bind, print, input.
  cbn -[String.append nl try_except copy_specific_blob_try move_specific_blob_try count].
  destruct (stdin w) as [|sc [|bn [|dc rest]]] eqn:Hin;
    cbn -[String.append nl try_except copy_specific_blob_try move_specific_blob_try count].
  1-3: exists [], []; rewrite !(issued_app w _ []) by (cbn [trace]; rewrite app_nil_r; reflexivity);
       repeat split; solve [reflexivity | apply Forall_nil | cbn; lia].
  match goal with
  | |- context [try_except (copy_specific_blob_try sc bn dc) _ ?wc] =>
      match goal with
      | |- context [try_except (move_specific_blob_try sc bn dc) _ ?wm] =>
          destruct (copy_and_move_try_run sc bn dc wc wm eq_refl)
            as (w_copy & evs & Hc & Htc & Hic & H1 & H2 & H3 & H4 &
                w_move & dels & Hm & Htm & Him & H5 & H6 & H7)
      end
  end.
  rewrite Hc, Hm. cbn [fst snd]. cbn [trace stdin] in Htc, Htm, Hic, Him.
  exists evs, dels.
  rewrite (issued_app w w_copy evs Htc), (issued_app w w_move (evs ++ dels) Htm).
  cbn [nth].
  repeat split; try assumption; try reflexivity. congruence.
Qed.

(** X1.  [copy_specific_blob] never deletes and never sets metadata, and
    it starts at most one copy; it reads "success" at most once, and only
    after it started the copy. *)
Theorem copy_specific_blob_never_deletes (w : World event Svc) :
  count is_delete (issued w (snd (copy_specific_blob w))) = 0 /\
  count is_set_metadata (issued w (snd (copy_specific_blob w))) = 0 /\
  count is_copy (issued w (snd (copy_specific_blob w))) <= 1 /\
  count is_success (issued w (snd (copy_specific_blob w)))
    <= count is_copy (issued w (snd (copy_specific_blob w))).
Proof.
  destruct (copy_and_move_run w)
    as (evs & dels & -> & _ & _ & _ & H1 & H2 & H3 & H4 & _).
  repeat split; assumption.
Qed.

(** X2.  [move_specific_blob] is [copy_specific_blob] followed by the
    delete: from the same world the two handlers return the same result and
    read the same lines, and the calls of the move are the calls of the copy
    followed by one delete of the source blob (the blob and container typed
    first) when the copy read "success", and by nothing otherwise, in which
    case both leave the same service state. *)
Theorem move_specific_blob_is_copy_then_delete (w : World event Svc) :
  exists dels,
    issued w (snd (move_specific_blob w))
      = issued w (snd (copy_specific_blob w)) ++ dels /\
    List.length dels = count is_success (issued w (snd (copy_specific_blob w))) /\
    Forall (fun e => exists rd,
                e = DeleteBlob (mkBlobClient (nth 0 (stdin w) "") (nth 1 (stdin w) "")) rd)
           dels /\
    fst (move_specific_blob w) = fst (copy_specific_blob w) /\
    stdin (snd (move_specific_blob w)) = stdin (snd (copy_specific_blob w)) /\
    (dels = [] ->
     service (snd (move_specific_blob w)) = service (snd (copy_specific_blob w))).
Proof.
  destruct (copy_and_move_run w)
    as (evs & dels & -> & -> & Hr & Hi & _ & _ & _ & _ & Hl & Hd & Hs).
  exists dels. repeat split; assumption.
Qed.

(** X3.  In every run of [move_specific_blob] the number of delete calls is
    the number of times "success" was read, which is at most the number of
    copies started, which is at most one: nothing is deleted that was not
    copied first. *)
Theorem move_specific_blob_deletes_what_it_copied (w : World event Svc) :
  count is_delete (issued w (snd (move_specific_blob w)))
    = count is_success (issued w (snd (move_specific_blob w))) /\
  count is_success (issued w (snd (move_specific_blob w)))
    <= count is_copy (issued w (snd (move_specific_blob w))) /\
  count is_copy (issued w (snd (move_specific_blob w))) <= 1.
Proof.
  destruct (copy_and_move_run w)
    as (evs & dels & _ & -> & _ & _ & H1 & H2 & _ & H4 & Hl & Hd & _).
  assert (Hdel : count is_delete dels = List.length dels /\
                 count is_success dels = 0 /\ count is_copy dels = 0).
  { clear Hl. induction Hd as [|e l [rd ->] _ IH]; [repeat split; reflexivity|].
    destruct IH as (I1 & I2 & I3). count_more. cbn [List.length]. lia. }
  destruct Hdel as (D1 & D2 & D3).
  rewrite !count_app. lia.
Qed.

(** *** The two bulk handlers *)

Lemma copies_app (l1 l2 : list event) : copies (l1 ++ l2) = copies l1 ++ copies l2.
Proof. apply flat_map_app. Qed.

Lemma deleted_app (l1 l2 : list event) : deleted (l1 ++ l2) = deleted l1 ++ deleted l2.
Proof. apply flat_map_app. Qed.

(** A polling run starts no copy and deletes nothing. *)
Lemma wait_trace_reads (b : BlobClient) (r : outcome bool) (evs : list event) :
  wait_trace b 0 r evs -> copies evs = [] /\ deleted evs = [].
Proof.
  intros Ht. pose proof (wait_trace_only_polls _ _ _ _ Ht) as Hp.
  clear Ht. induction Hp as [|e l He _ [IH1 IH2]]; [split; reflexivity|].
  unfold copies, deleted in *.
  destruct He as [-> | [a ->]]; cbn [flat_map app]; split; assumption.
Qed.

(** One turn of the loop of [move_all_blobs], call by call: it starts the
    copy of its blob to the same name in the destination container, unless a
    client cannot be built; it deletes nothing, or the blob it copied and
    nothing else. *)
Lemma move_all_blobs_for_one_calls
    (sc dc : string) (total i : nat) (blob : BlobProperties) (w : World event Svc) :
  exists r w' evs,
    move_all_blobs_for sc dc total i [blob] w = (r, w') /\
    trace w' = trace w ++ evs /\
    (copies evs = [] \/ copies evs = [copy_of sc dc blob]) /\
    (r = Ret tt -> copies evs = [copy_of sc dc blob]) /\
    (deleted evs = [] \/
     (deleted evs = [mkBlobClient sc (name blob)] /\ copies evs = [copy_of sc dc blob])).
Proof.
  unfold move_all_blobs_for, bind, print, ret, get_blob_client,
    BlobClient_start_copy_from_url, BlobClient_delete_blob, sdk_call, copy_of.
  run_more.
  destruct (new_blob_client sc (name blob)) as [e|] eqn:Hsrc; run_more.
  { eexists _, _, [_]. split; [reflexivity|]. split; [reflexivity|].
    split; [left; reflexivity|]. split; [discriminate|]. left; reflexivity. }
  destruct (new_blob_client dc (name blob)) as [e|] eqn:Hdst; run_more.
  { eexists _, _, [_; _]. split; [reflexivity|].
    split; [cbn [trace]; rewrite <- ?app_assoc; reflexivity|].
    split; [left; reflexivity|]. split; [discriminate|]. left; reflexivity. }
  destruct (service_start_copy_from_url (mkBlobClient dc (name blob))
              (url (mkBlobClient sc (name blob))) (service w)) as [[[]|e] s1] eqn:Hcopy;
    run_more.
  2:{ eexists _, _, [_; _; _]. split; [reflexivity|].
      split; [cbn [trace]; rewrite <- ?app_assoc; reflexivity|].
      split; [right; reflexivity|]. split; [discriminate|]. left; reflexivity. }
  destruct (wait_for_copy_run (mkBlobClient dc (name blob)) s1)
    as (r & out & evs & s & Ht & Hrun).
  rewrite Hrun by reflexivity.
  destruct (wait_trace_reads _ _ _ Ht) as [Hc Hd].
  destruct r as [[|]|e]; run_more.
  - destruct (service_delete_blob (mkBlobClient sc (name blob)) s) as [rd s3] eqn:Hdel.
    assert (Hshape : copies ([GetBlobClient sc (name blob) (Ret (mkBlobClient sc (name blob)));
                              GetBlobClient dc (name blob) (Ret (mkBlobClient dc (name blob)));
                              StartCopyFromUrl (mkBlobClient dc (name blob))
                                (url (mkBlobClient sc (name blob))) (Ret tt)]
                             ++ evs ++ [DeleteBlob (mkBlobClient sc (name blob)) rd])
                     = [(mkBlobClient dc (name blob), url (mkBlobClient sc (name blob)))]
                     /\ deleted ([GetBlobClient sc (name blob) (Ret (mkBlobClient sc (name blob)));
                              GetBlobClient dc (name blob) (Ret (mkBlobClient dc (name blob)));
                              StartCopyFromUrl (mkBlobClient dc (name blob))
                                (url (mkBlobClient sc (name blob))) (Ret tt)]
                             ++ evs ++ [DeleteBlob (mkBlobClient sc (name blob)) rd])
                        = [mkBlobClient sc (name blob)])
      by (rewrite !copies_app, !deleted_app, Hc, Hd; split; reflexivity).
    destruct Hshape as [Hs1 Hs2].
    destruct rd as [[]|e]; run_more.
    + eexists _, _, _. split; [reflexivity|].
      split; [cbn [trace]; rewrite <- ?app_assoc; reflexivity|].
      cbn [app] in *. rewrite Hs1, Hs2.
      split; [right; reflexivity|]. split; [reflexivity|]. right; split; reflexivity.
    + eexists _, _, _. split; [reflexivity|].
      split; [cbn [trace]; rewrite <- ?app_assoc; reflexivity|].
      cbn [app] in *. rewrite Hs1, Hs2.
      split; [right; reflexivity|]. split; [reflexivity|]. right; split; reflexivity.
  - eexists _, _, ([_; _; _] ++ evs). split; [reflexivity|].
    split; [cbn [trace]; rewrite <- ?app_assoc; reflexivity|].
    rewrite copies_app, deleted_app, Hc, Hd.
    split; [right; reflexivity|]. split; [reflexivity|]. left; reflexivity.
  - eexists _, _, ([_; _; _] ++ evs). split; [reflexivity|].
    split; [cbn [trace]; rewrite <- ?app_assoc; reflexivity|].
    rewrite copies_app, deleted_app, Hc, Hd.
    split; [right; reflexivity|]. split; [reflexivity|]. left; reflexivity.
Qed.

(** The whole loop, call by call: the copies started are those of the first
    blobs of the list, in order; what is deleted was copied and lies in the
    source container. *)
Lemma move_all_blobs_for_calls (sc dc : string) (total : nat) (blob_list : list BlobProperties) :
  forall (i : nat) (w : World event Svc),
  exists r w' evs,
    move_all_blobs_for sc dc total i blob_list w = (r, w') /\
    trace w' = trace w ++ evs /\
    (exists k, copies evs = firstn k (map (copy_of sc dc) blob_list)) /\
    (r = Ret tt -> copies evs = map (copy_of sc dc) blob_list) /\
    Forall (fun b => container_name b = sc /\
                     In (mkBlobClient dc (blob_name b), url b) (copies evs))
           (deleted evs).
Proof.
  induction blob_list as [|blob rest IH]; intros i w.
  - exists (Ret tt), w, []. cbn [move_all_blobs_for]. unfold ret.
    rewrite app_nil_r. repeat split; try reflexivity; [exists 0; reflexivity | constructor].
  - rewrite move_all_blobs_for_cons. unfold bind.
    destruct (move_all_blobs_for_one_calls sc dc total i blob w)
      as (r1 & w1 & evs1 & Hrun1 & Htr1 & Hc1 & Hok1 & Hd1).
    rewrite Hrun1.
    assert (Hdel1 : Forall (fun b => container_name b = sc /\
                              In (mkBlobClient dc (blob_name b), url b) (copies evs1))
                           (deleted evs1)).
    { destruct Hd1 as [-> | [-> ->]]; [constructor|].
      constructor; [|constructor]. split; [reflexivity | left; reflexivity]. }
    destruct r1 as [[]|e].
    + destruct (IH (i + 1) w1) as (r2 & w2 & evs2 & Hrun2 & Htr2 & [k Hk] & Hok2 & Hd2).
      exists r2, w2, (evs1 ++ evs2).
      split; [exact Hrun2|].
      split; [rewrite Htr2, Htr1, app_assoc; reflexivity|].
      rewrite copies_app, deleted_app, (Hok1 eq_refl). cbn [map app].
      split; [exists (Datatypes.S k); cbn [firstn]; rewrite Hk; reflexivity|].
      split; [intros Hr; rewrite (Hok2 Hr); reflexivity|].
      apply Forall_app. split.
      * rewrite (Hok1 eq_refl) in Hdel1.
        eapply Forall_impl; [|exact Hdel1].
        intros b [Hb Hin]. split; [exact Hb|].
        destruct Hin as [Hin|[]]. left. exact Hin.
      * eapply Forall_impl; [|exact Hd2].
        intros b [Hb Hin]. split; [exact Hb | right; exact Hin].
    + exists (Raise e), w1, evs1.
      split; [reflexivity|]. split; [exact Htr1|].
      split; [destruct Hc1 as [-> | ->]; [exists 0 | exists 1]; reflexivity|].
      split; [discriminate | exact Hdel1].
Qed.

(** X4.  A confirmed bulk move whose enumeration returned [blob_list] copies
    the blobs in the order of the enumeration, each to the same name in the
    destination container and from its address in the source container: the
    copy calls are those of the first blobs of the list, and of all of them
    when no call raises.  Every blob it deletes lies in the source container
    and is one whose copy it started in this run. *)
Theorem move_all_blobs_keeps_names_and_order
    (w : World event Svc) (sc dc confirm : string) (rest : list string)
    (blob_list : list BlobProperties) (s1 : Svc) :
  stdin w = sc :: dc :: confirm :: rest ->
  lower confirm = "y" ->
  new_container_client sc = None ->
  service_list_blobs (mkContainerClient sc) (service w) = (Ret blob_list, s1) ->
  (exists k, copies (issued w (snd (move_all_blobs w)))
             = firstn k (map (copy_of sc dc) blob_list)) /\
  (count call_raised (issued w (snd (move_all_blobs w))) = 0 ->
   copies (issued w (snd (move_all_blobs w))) = map (copy_of sc dc) blob_list) /\
  Forall (fun b => container_name b = sc /\
                   In (mkBlobClient dc (blob_name b), url b)
                      (copies (issued w (snd (move_all_blobs w)))))
         (deleted (issued w (snd (move_all_blobs w)))).
Proof.
  intros Hin Hy Hnew Hlist. apply String.eqb_eq in Hy.
  unfold move_all_blobs, move_all_blobs_try, try_except, bind, print, input, ret,
    get_container_client, ContainerClient_list_blobs, sdk_call.
  cbn -[String.append nl count copies deleted move_all_blobs_for].
  rewrite Hin. cbn -[String.append nl count copies deleted move_all_blobs_for].
  rewrite Hy. cbn -[String.append nl count copies deleted move_all_blobs_for].
  rewrite Hnew. cbn -[String.append nl count copies deleted move_all_blobs_for].
  rewrite Hlist. cbn -[String.append nl count copies deleted move_all_blobs_for].
  destruct blob_list as [|blob others] eqn:Hbl.
  - cbn -[String.append nl count copies deleted].
    rewrite (issued_app w _ [_; _]) by (cbn [trace]; rewrite <- app_assoc; reflexivity).
    split; [exists 0; reflexivity|]. split; [reflexivity | constructor].
  - rewrite <- Hbl. replace (List.length blob_list =? 0) with false
      by (rewrite Hbl; reflexivity).
    match goal with
    | |- context [move_all_blobs_for sc dc ?t 0 blob_list ?w0] =>
        destruct (move_all_blobs_for_calls sc dc t blob_list 0 w0)
          as (r & w1 & evs & Hrun & Htr & Hk & Hok & Hd);
        destruct (move_all_blobs_for_run sc dc t blob_list 0 w0)
          as (r' & w1' & evs' & Hrun' & Htr' & _ & _ & _ & Hn)
    end.
    rewrite Hrun in Hrun'. injection Hrun' as <- <-.
    rewrite Htr in Htr'. apply app_inv_head in Htr'. subst evs'.
    rewrite Hrun. cbn [trace] in Htr.
    assert (Hiss : forall wf : World event Svc, trace wf = trace w1 ->
              issued w wf = [GetContainerClient sc (Ret (mkContainerClient sc));
                             ListBlobs (mkContainerClient sc) (Ret blob_list)] ++ evs).
    { intros wf Hwf. apply issued_app. rewrite Hwf, Htr, <- !app_assoc. reflexivity. }
    assert (Hgoal : forall wf : World event Svc, trace wf = trace w1 ->
              (exists k, copies (issued w wf) = firstn k (map (copy_of sc dc) blob_list)) /\
              (count call_raised (issued w wf) = 0 ->
               copies (issued w wf) = map (copy_of sc dc) blob_list) /\
              Forall (fun b => container_name b = sc /\
                               In (mkBlobClient dc (blob_name b), url b)
                                  (copies (issued w wf)))
                     (deleted (issued w wf))).
    { intros wf Hwf. rewrite (Hiss wf Hwf).
      rewrite copies_app, deleted_app, count_app. cbn [copies deleted flat_map app].
      split; [exact Hk|]. split; [|exact Hd].
      count_more. intros Hz. apply Hok. apply Hn. lia. }
    destruct r as [[]|e]; cbn -[String.append nl count copies deleted].
    + apply Hgoal. reflexivity.
    + unfold move_all_blobs_except, print.
      destruct (is_resource_not_found e); cbn [snd]; apply Hgoal; reflexivity.
Qed.

(** One turn of the loop of [copy_all_blobs]: the turn ends normally
    exactly when none of its calls raises, whatever the wait answers. *)
Lemma copy_all_blobs_for_one
    (sc dc : string) (total i : nat) (blob : BlobProperties) (w : World event Svc) :
  exists r w' evs,
    copy_all_blobs_for sc dc total i [blob] w = (r, w') /\
    trace w' = trace w ++ evs /\
    stdin w' = stdin w /\
    (copies evs = [] \/ copies evs = [copy_of sc dc blob]) /\
    (r = Ret tt -> copies evs = [copy_of sc dc blob]) /\
    (count call_raised evs = 0 -> r = Ret tt).
Proof.
  unfold copy_all_blobs_for, bind, print, ret, get_blob_client,
    BlobClient_start_copy_from_url, sdk_call, copy_of.
  run_more.
  destruct (new_blob_client sc (name blob)) as [e|] eqn:Hsrc; run_more.
  { eexists _, _, [_]. close_more.
    split; [left; reflexivity|]. split; [discriminate|]. count_more. lia. }
  destruct (new_blob_client dc (name blob)) as [e|] eqn:Hdst; run_more.
  { eexists _, _, [_; _]. close_more.
    split; [left; reflexivity|]. split; [discriminate|]. count_more. lia. }
  destruct (service_start_copy_from_url (mkBlobClient dc (name blob))
              (url (mkBlobClient sc (name blob))) (service w)) as [[[]|e] s1] eqn:Hcopy;
    run_more.
  2:{ eexists _, _, [_; _; _]. close_more.
      split; [right; reflexivity|]. split; [discriminate|]. count_more. lia. }
  destruct (wait_for_copy_run (mkBlobClient dc (name blob)) s1)
    as (r & out & evs & s & Ht & Hrun).
  rewrite Hrun by reflexivity.
  destruct (wait_trace_reads _ _ _ Ht) as [Hc Hd].
  destruct (wait_trace_counts _ _ _ Ht) as (_ & _ & _ & _ & _ & Hr & _).
  destruct r as [ok|e]; run_more.
  - eexists _, _, ([_; _; _] ++ evs). close_more.
    rewrite copies_app, Hc.
    split; [right; reflexivity|]. split; [reflexivity|]. reflexivity.
  - eexists _, _, ([_; _; _] ++ evs). close_more.
    rewrite copies_app, Hc.
    split; [right; reflexivity|]. split; [reflexivity|]. count_more. rewrite Hr. lia.
Qed.

Lemma copy_all_blobs_for_cons
    (sc dc : string) (total i : nat) (blob : BlobProperties) (rest : list BlobProperties)
    (w : World event Svc) :
  copy_all_blobs_for sc dc total i (blob :: rest) w =
  (copy_all_blobs_for sc dc total i [blob] ;;
   copy_all_blobs_for sc dc total (i + 1) rest) w.
Proof.
  cbn [copy_all_blobs_for].
  unfold bind, print, ret, get_blob_client, BlobClient_start_copy_from_url, sdk_call.
  run_more.
  destruct (new_blob_client sc (name blob)); run_more; [reflexivity|].
  destruct (new_blob_client dc (name blob)); run_more; [reflexivity|].
  destruct (service_start_copy_from_url _ _ _) as [[[]|e] s1]; run_more; [|reflexivity].
  destruct (wait_for_copy _ _) as [[ok|e] w1]; run_more; reflexivity.
Qed.

Lemma copy_all_blobs_for_calls (sc dc : string) (total : nat) (blob_list : list BlobProperties) :
  forall (i : nat) (w : World event Svc),
  exists r w' evs,
    copy_all_blobs_for sc dc total i blob_list w = (r, w') /\
    trace w' = trace w ++ evs /\
    stdin w' = stdin w /\
    (exists k, copies evs = firstn k (map (copy_of sc dc) blob_list)) /\
    (r = Ret tt -> copies evs = map (copy_of sc dc) blob_list) /\
    (count call_raised evs = 0 -> r = Ret tt).
Proof.
  induction blob_list as [|blob rest IH]; intros i w.
  - exists (Ret tt), w, []. cbn [copy_all_blobs_for]. unfold ret.
    rewrite app_nil_r. repeat split; try reflexivity. exists 0; reflexivity.
  - rewrite copy_all_blobs_for_cons. unfold bind.
    destruct (copy_all_blobs_for_one sc dc total i blob w)
      as (r1 & w1 & evs1 & Hrun1 & Htr1 & Hin1 & Hc1 & Hok1 & Hn1).
    rewrite Hrun1.
    destruct r1 as [[]|e].
    + destruct (IH (i + 1) w1)
        as (r2 & w2 & evs2 & Hrun2 & Htr2 & Hin2 & [k Hk] & Hok2 & Hn2).
      exists r2, w2, (evs1 ++ evs2).
      split; [exact Hrun2|].
      split; [rewrite Htr2, Htr1, app_assoc; reflexivity|].
      split; [congruence|].
      rewrite copies_app, count_app, (Hok1 eq_refl). cbn [map app].
      split; [exists (Datatypes.S k); cbn [firstn]; rewrite Hk; reflexivity|].
      split; [intros Hr; rewrite (Hok2 Hr); reflexivity|].
      intros Hz. apply Hn2. lia.
    + exists (Raise e), w1, evs1.
      split; [reflexivity|]. split; [exact Htr1|]. split; [exact Hin1|].
      split; [destruct Hc1 as [-> | ->]; [exists 0 | exists 1]; reflexivity|].
      split; [discriminate|].
      intros Hz. specialize (Hn1 Hz). discriminate.
Qed.

(** *** What each handler may issue *)

(** Walks through a handler and leaves the calls it issues to be checked. *)
Ltac emits_go :=
  repeat first
    [ apply emits_ret
    | apply emits_print
    | apply emits_input
    | apply emits_wait_for_copy; [|intros ?]
    | apply emits_set_blob_metadata_while
    | apply emits_sdk_call; intros ?
    | apply emits_bind; [|intros ?]
    | apply emits_try_except; [|intros ?]
    | match goal with |- emits _ (if ?b then _ else _) => destruct b end
    | match goal with |- emits _ (match ?x with _ => _ end) => destruct x end ].

Lemma emits_print_items (P : event -> Prop) (metadata : dict) :
  emits (Svc := Svc) P (print_items metadata).
Proof.
  induction metadata as [|[k v] rest IH]; cbn [print_items]; emits_go. exact IH.
Qed.

Lemma emits_print_metadata (P : event -> Prop) (metadata : dict) :
  emits (Svc := Svc) P (print_metadata metadata).
Proof.
  induction metadata as [|[k v] rest IH]; cbn [print_metadata]; emits_go. exact IH.
Qed.

Lemma emits_print_properties (P : event -> Prop) (items : list (string * string)) :
  emits (Svc := Svc) P (print_properties items).
Proof.
  induction items as [|[k v] rest IH]; cbn [print_properties]; emits_go. exact IH.
Qed.

(** The copy handlers issue neither a delete nor a metadata-setting call. *)
Lemma emits_copy_all_blobs_for (sc dc : string) (total : nat) (blob_list : list BlobProperties) :
  forall i,
    emits (fun e => is_delete e = false /\ is_set_metadata e = false)
          (copy_all_blobs_for sc dc total i blob_list).
Proof.
  induction blob_list as [|blob rest IH]; intros i; cbn [copy_all_blobs_for]; emits_go;
    try (split; reflexivity).
  apply IH.
Qed.

Lemma emits_copy_all_blobs :
  emits (fun e => is_delete e = false /\ is_set_metadata e = false) copy_all_blobs.
Proof.
  unfold copy_all_blobs, copy_all_blobs_try, move_all_blobs_except,
    get_container_client, ContainerClient_list_blobs.
  emits_go; try (split; reflexivity).
  all: apply emits_copy_all_blobs_for.
Qed.

(** The information handlers issue no call that changes the account, and no
    existence check either: they build a client and fetch the properties. *)
Lemma emits_information_handlers :
  emits (fun e => is_write e = false /\ is_exists e = false) get_access_tier /\
  emits (fun e => is_write e = false /\ is_exists e = false) get_blob_properties /\
  emits (fun e => is_write e = false /\ is_exists e = false) view_blob_metadata.
Proof.
  unfold get_access_tier, get_blob_properties, view_blob_metadata, blob_not_found_except,
    get_blob_client, BlobClient_get_blob_properties.
  split; [|split]; emits_go; try (split; reflexivity);
    first [apply emits_print_properties | apply emits_print_metadata].
Qed.

(** [set_blob_metadata] starts no copy and deletes nothing. *)
Lemma emits_set_blob_metadata :
  emits (fun e => is_copy e = false /\ is_delete e = false) set_blob_metadata.
Proof.
  unfold set_blob_metadata, set_blob_metadata_try,
    get_blob_client, BlobClient_exists, BlobClient_set_blob_metadata.
  emits_go; try (split; reflexivity).
  all: apply emits_print_items.
Qed.

Lemma emits_move_handlers :
  emits (fun e => is_set_metadata e = false) move_specific_blob /\
  emits (fun e => is_set_metadata e = false) move_all_blobs.
Proof.
  assert (Hloop : forall sc dc total blob_list i,
             emits (fun e => is_set_metadata e = false)
                   (move_all_blobs_for sc dc total i blob_list)).
  { intros sc dc total blob_list.
    induction blob_list as [|blob rest IH]; intros i; cbn [move_all_blobs_for].
    - apply emits_ret.
    - unfold get_blob_client, BlobClient_start_copy_from_url, BlobClient_delete_blob.
      emits_go; try reflexivity. all: apply IH. }
  unfold move_specific_blob, move_specific_blob_try, move_specific_blob_except,
    move_all_blobs, move_all_blobs_try, move_all_blobs_except,
    get_blob_client, get_container_client, BlobClient_exists, ContainerClient_list_blobs,
    BlobClient_start_copy_from_url, BlobClient_delete_blob.
  split; emits_go; try reflexivity. all: apply Hloop.
Qed.

Lemma emits_copy_specific_blob :
  emits (fun e => is_delete e = false /\ is_set_metadata e = false) copy_specific_blob.
Proof.
  unfold copy_specific_blob, copy_specific_blob_try, copy_specific_blob_except,
    get_blob_client, BlobClient_exists, BlobClient_start_copy_from_url.
  emits_go; split; reflexivity.
Qed.

(** *** The wait *)

Lemma slept_polls (b : BlobClient) (evs : list event) :
  Forall (fun e => e = Sleep 3 \/ exists a, e = GetBlobProperties b a) evs ->
  slept evs = 3 * count is_sleep evs.
Proof.
  intros H. induction H as [|e l He _ IH]; [reflexivity|].
  change (slept (e :: l))
    with ((match e with Sleep seconds => seconds | _ => 0 end) + slept l).
  rewrite IH, count_cons.
  destruct He as [-> | [a ->]]; cbn [is_sleep]; lia.
Qed.

(** X5.  [wait_for_copy] only looks and waits: the calls it issues are
    fetches of the properties of the blob it was given and sleeps of three
    seconds, it reads no line of input, and it sleeps 33 seconds at most. *)
Theorem wait_for_copy_only_polls (b : BlobClient) (w : World event Svc) :
  Forall (fun e => e = Sleep 3 \/ exists a, e = GetBlobProperties b a)
         (issued w (snd (wait_for_copy b w))) /\
  count is_write (issued w (snd (wait_for_copy b w))) = 0 /\
  slept (issued w (snd (wait_for_copy b w))) <= 33 /\
  stdin (snd (wait_for_copy b w)) = stdin w.
Proof.
  destruct (wait_for_copy_run b (service w)) as (r & out & evs & s & Ht & Hrun).
  rewrite (Hrun w eq_refl). cbn [snd stdin].
  rewrite (issued_app w _ evs) by reflexivity.
  pose proof (wait_trace_only_polls _ _ _ _ Ht) as Hp.
  pose proof (wait_trace_fetches _ _ _ _ Ht) as [Hf Hs].
  split; [exact Hp|].
  split; [apply (only_polls_count b is_write evs Hp); reflexivity|].
  split; [rewrite (slept_polls b evs Hp); lia | reflexivity].
Qed.

(** *** Copying a container *)

Ltac run_bulk :=
  cbn -[String.append nl count copies deleted move_all_blobs_for copy_all_blobs_for] in *.

(** X6.  [copy_all_blobs] asks for no confirmation: it reads the two
    container names and nothing else.  When the enumeration returned
    [blob_list] it returns normally, deletes nothing, and copies the blobs in
    the order of the enumeration, each to the same name in the destination
    container: the copy calls are those of the first blobs of the list, and
    of all of them when no call raises, whatever the waits answer. *)
Theorem copy_all_blobs_copies_each_in_order
    (w : World event Svc) (sc dc : string) (rest : list string)
    (blob_list : list BlobProperties) (s1 : Svc) :
  stdin w = sc :: dc :: rest ->
  new_container_client sc = None ->
  service_list_blobs (mkContainerClient sc) (service w) = (Ret blob_list, s1) ->
  fst (copy_all_blobs w) = Ret tt /\
  stdin (snd (copy_all_blobs w)) = rest /\
  count is_delete (issued w (snd (copy_all_blobs w))) = 0 /\
  (exists k, copies (issued w (snd (copy_all_blobs w)))
             = firstn k (map (copy_of sc dc) blob_list)) /\
  (count call_raised (issued w (snd (copy_all_blobs w))) = 0 ->
   copies (issued w (snd (copy_all_blobs w))) = map (copy_of sc dc) blob_list).
Proof.
  intros Hin Hnew Hlist.
  assert (Hdel : count is_delete (issued w (snd (copy_all_blobs w))) = 0).
  { apply Forall_count_zero.
    eapply Forall_impl; [|exact (proj1 (emits_issued _ _ w emits_copy_all_blobs))].
    intros e [He _]. exact He. }
  revert Hdel.
  unfold copy_all_blobs, copy_all_blobs_try, try_except, bind, print, input, ret,
    get_container_client, ContainerClient_list_blobs, sdk_call.
  run_bulk. rewrite Hin. run_bulk. rewrite Hnew. run_bulk. rewrite Hlist. run_bulk.
  destruct blob_list as [|blob others] eqn:Hbl.
  - run_bulk. intros Hdel.
    rewrite (issued_app w _ [_; _]) in * by (cbn [trace]; rewrite <- app_assoc; reflexivity).
    split; [reflexivity|]. split; [reflexivity|]. split; [exact Hdel|].
    split; [exists 0; reflexivity|]. intros _. reflexivity.
  - rewrite <- Hbl. replace (List.length blob_list =? 0) with false
      by (rewrite Hbl; reflexivity).
    match goal with
    | |- context [copy_all_blobs_for sc dc ?t 0 blob_list ?w0] =>
        destruct (copy_all_blobs_for_calls sc dc t blob_list 0 w0)
          as (r & w1 & evs & Hrun & Htr & Hi & Hk & Hok & Hn)
    end.
    rewrite Hrun. cbn [trace stdin] in Htr, Hi.
    assert (Hiss : forall wf : World event Svc, trace wf = trace w1 ->
              issued w wf = [GetContainerClient sc (Ret (mkContainerClient sc));
                             ListBlobs (mkContainerClient sc) (Ret blob_list)] ++ evs).
    { intros wf Hwf. apply issued_app. rewrite Hwf, Htr, <- !app_assoc. reflexivity. }
    destruct r as [[]|e]; run_bulk.
    + erewrite !Hiss by reflexivity. intros Hdel.
      split; [reflexivity|]. split; [exact Hi|]. split; [exact Hdel|].
      repeat match goal with
             | |- context [copies (?a :: ?b :: evs)] =>
                 change (copies (a :: b :: evs)) with (copies evs)
             end.
      split; [exact Hk|]. intros _. apply Hok. reflexivity.
    + unfold move_all_blobs_except, print.
      destruct (is_resource_not_found e); cbn [fst snd stdin];
        erewrite !Hiss by reflexivity; intros Hdel;
        (split; [reflexivity|]); (split; [exact Hi|]); (split; [exact Hdel|]);
        repeat match goal with
               | |- context [copies (?a :: ?b :: evs)] =>
                   change (copies (a :: b :: evs)) with (copies evs)
               end;
        (split; [exact Hk|]); count_more; intros Hz;
        assert (Hr : Raise (A := unit) e = Ret tt) by (apply Hn; lia); discriminate Hr.
Qed.

(** X7.  An empty container: when the enumeration returns no blob, both
    bulk handlers print that no blobs were found and return, having issued
    the two calls of the enumeration and nothing else. *)
Theorem bulk_handlers_on_empty_container
    (w : World event Svc) (sc dc confirm : string) (rest : list string) (s1 : Svc) :
  new_container_client sc = None ->
  service_list_blobs (mkContainerClient sc) (service w) = (Ret [], s1) ->
  (stdin w = sc :: dc :: rest ->
   issued w (snd (copy_all_blobs w))
     = [GetContainerClient sc (Ret (mkContainerClient sc));
        ListBlobs (mkContainerClient sc) (Ret [])] /\
   last (stdout (snd (copy_all_blobs w))) ""
     = ("No blobs found in container '" ++ sc ++ "'.")%string) /\
  (stdin w = sc :: dc :: confirm :: rest ->
   lower confirm = "y" ->
   issued w (snd (move_all_blobs w))
     = [GetContainerClient sc (Ret (mkContainerClient sc));
        ListBlobs (mkContainerClient sc) (Ret [])] /\
   last (stdout (snd (move_all_blobs w))) ""
     = ("No blobs found in container '" ++ sc ++ "'.")%string).
Proof.
  intros Hnew Hlist. split.
  - intros Hin.
    unfold copy_all_blobs, copy_all_blobs_try, try_except, bind, print, input, ret,
      get_container_client, ContainerClient_list_blobs, sdk_call.
    run_bulk. rewrite Hin. run_bulk. rewrite Hnew. run_bulk. rewrite Hlist. run_bulk.
    rewrite last_last.
    split; [apply issued_app; cbn [trace]; rewrite <- app_assoc; reflexivity | reflexivity].
  - intros Hin Hy. apply String.eqb_eq in Hy.
    unfold move_all_blobs, move_all_blobs_try, try_except, bind, print, input, ret,
      get_container_client, ContainerClient_list_blobs, sdk_call.
    run_bulk. rewrite Hin. run_bulk. rewrite Hy. run_bulk.
    rewrite Hnew. run_bulk. rewrite Hlist. run_bulk.
    rewrite last_last.
    split; [apply issued_app; cbn [trace]; rewrite <- app_assoc; reflexivity | reflexivity].
Qed.

(** X8.  When the enumeration raises, for instance because the source
    container does not exist, both bulk handlers issue no other call, print
    the message of their [except] clause (the container-not-found one for a
    not-found error, the text of the exception otherwise) and return. *)
Theorem bulk_handlers_when_enumeration_raises
    (w : World event Svc) (sc dc confirm : string) (rest : list string)
    (e : exn) (s1 : Svc) :
  new_container_client sc = None ->
  service_list_blobs (mkContainerClient sc) (service w) = (Raise e, s1) ->
  (stdin w = sc :: dc :: rest ->
   fst (copy_all_blobs w) = Ret tt /\
   issued w (snd (copy_all_blobs w))
     = [GetContainerClient sc (Ret (mkContainerClient sc));
        ListBlobs (mkContainerClient sc) (Raise e)] /\
   last (stdout (snd (copy_all_blobs w))) ""
     = (if is_resource_not_found e
        then nl ++ "❌ ERROR: Source container '" ++ sc ++ "' not found."
        else nl ++ "An unexpected error occurred: " ++ exn_str e)%string) /\
  (stdin w = sc :: dc :: confirm :: rest ->
   lower confirm = "y" ->
   fst (move_all_blobs w) = Ret tt /\
   issued w (snd (move_all_blobs w))
     = [GetContainerClient sc (Ret (mkContainerClient sc));
        ListBlobs (mkContainerClient sc) (Raise e)] /\
   last (stdout (snd (move_all_blobs w))) ""
     = (if is_resource_not_found e
        then nl ++ "❌ ERROR: Source container '" ++ sc ++ "' not found."
        else nl ++ "An unexpected error occurred: " ++ exn_str e)%string).
Proof.
  intros Hnew Hlist. split.
  - intros Hin.
    unfold copy_all_blobs, copy_all_blobs_try, move_all_blobs_except,
      try_except, bind, print, input, ret,
      get_container_client, ContainerClient_list_blobs, sdk_call.
    run_bulk. rewrite Hin. run_bulk. rewrite Hnew. run_bulk. rewrite Hlist. run_bulk.
    destruct (is_resource_not_found e); run_bulk; rewrite last_last;
      (split; [reflexivity|]);
      (split; [apply issued_app; cbn [trace]; rewrite <- app_assoc; reflexivity
              | reflexivity]).
  - intros Hin Hy. apply String.eqb_eq in Hy.
    unfold move_all_blobs, move_all_blobs_try, move_all_blobs_except,
      try_except, bind, print, input, ret,
      get_container_client, ContainerClient_list_blobs, sdk_call.
    run_bulk. rewrite Hin. run_bulk. rewrite Hy. run_bulk.
    rewrite Hnew. run_bulk. rewrite Hlist. run_bulk.
    destruct (is_resource_not_found e); run_bulk; rewrite last_last;
      (split; [reflexivity|]);
      (split; [apply issued_app; cbn [trace]; rewrite <- app_assoc; reflexivity
              | reflexivity]).
Qed.

(** *** Exceptions stay inside the handlers *)

Lemma never_raises_except_clauses :
  (forall e, never_raises (Svc := Svc) (copy_specific_blob_except e)) /\
  (forall e, never_raises (Svc := Svc) (move_specific_blob_except e)) /\
  (forall sc e, never_raises (Svc := Svc) (move_all_blobs_except sc e)) /\
  (forall c b e, never_raises (Svc := Svc) (blob_not_found_except c b e)).
Proof.
  unfold copy_specific_blob_except, move_specific_blob_except, move_all_blobs_except,
    blob_not_found_except.
  repeat split; intros; destruct (is_resource_not_found _); apply never_raises_print.
Qed.

(** A handler that reads its names and then runs a [try] whose clauses only
    print: with the names on the script it returns. *)
Ltac contained :=
  let H := fresh "H" in
  intros H; exfalso; revert H;
  match goal with
  | |- fst (try_except ?m ?h ?w0) = _ -> _ =>
      let a := fresh "a" in let Ha := fresh "Ha" in
      destruct (never_raises_try_except m h
                  ltac:(first [ apply never_raises_except_clauses
                              | intros ?; apply never_raises_print ]) w0) as [a Ha];
      rewrite Ha; discriminate
  end.

Ltac too_short :=
  let H := fresh "H" in
  intros H; injection H as <-; split; [reflexivity | cbn [List.length]; lia].

Ltac run_names :=
  cbn -[String.append nl try_except copy_specific_blob_try copy_all_blobs_try
        move_specific_blob_try move_all_blobs_try set_blob_metadata_try List.length].

(** X9.  No exception of the SDK comes out of a handler of the blob manager.
    A handler raises only when the script ends while it still reads its
    names, two or three lines according to the handler, and then the
    exception is the [EOFError] of [input].  [set_blob_metadata] reads its
    pairs and its confirmation inside its [try], so with the two names typed
    it returns even when the script ends in the middle of the pairs. *)
Theorem storage_handlers_contain_exceptions (w : World event Svc) (e : exn) :
  (fst (copy_specific_blob w) = Raise e -> e = EOFError /\ List.length (stdin w) < 3) /\
  (fst (copy_all_blobs w) = Raise e -> e = EOFError /\ List.length (stdin w) < 2) /\
  (fst (move_specific_blob w) = Raise e -> e = EOFError /\ List.length (stdin w) < 3) /\
  (fst (move_all_blobs w) = Raise e -> e = EOFError /\ List.length (stdin w) < 3) /\
  (fst (get_access_tier w) = Raise e -> e = EOFError /\ List.length (stdin w) < 2) /\
  (fst (get_blob_properties w) = Raise e -> e = EOFError /\ List.length (stdin w) < 2) /\
  (fst (view_blob_metadata w) = Raise e -> e = EOFError /\ List.length (stdin w) < 2) /\
  (fst (set_blob_metadata w) = Raise e -> e = EOFError /\ List.length (stdin w) < 2).
Proof.
  unfold copy_specific_blob, copy_all_blobs, move_specific_blob, move_all_blobs,
    get_access_tier, get_blob_properties, view_blob_metadata, set_blob_metadata,
    bind, print, input.
  run_names.
  destruct (stdin w) as [|l1 [|l2 [|l3 rest]]]; run_names;
    repeat match goal with |- _ /\ _ => split end;
    try too_short; try contained.
  destruct (String.eqb (lower l3) "y"); cbn [negb fst]; [contained | discriminate].
Qed.

(** *** The metadata that is sent *)

(** When the loop that reads the pairs returns, what it read is a sequence
    of pairs with non-empty keys followed by an empty line, and what it
    returns is the dict with these pairs assigned in order. *)
Lemma set_blob_metadata_while_returns (n : nat) :
  forall (metadata result : dict) (w w' : World event Svc),
    List.length (stdin w) < n ->
    set_blob_metadata_while metadata w = (Ret result, w') ->
    exists pairs,
      stdin w = typed_pairs pairs ++ "" :: stdin w' /\
      Forall (fun p => truthy (fst p) = true) pairs /\
      result = assigned metadata pairs /\
      trace w' = trace w /\ service w' = service w.
Proof.
  induction n as [|n IH]; intros metadata result w w' Hn; [lia|].
  destruct w as [i o t s]. cbn [stdin] in Hn.
  rewrite set_blob_metadata_while_unfold_eq.
  unfold set_blob_metadata_while_unfold.
  destruct i as [|key rest]; [cbn -[String.append]; discriminate|].
  cbn -[String.append set_blob_metadata_while].
  destruct key as [|c key'].
  { cbn -[String.append]. intros H. injection H as <- <-.
    exists []. repeat split; constructor. }
  cbn -[String.append set_blob_metadata_while].
  destruct rest as [|value rest]; [cbn -[String.append]; discriminate|].
  cbn -[String.append set_blob_metadata_while].
  intros Hrun.
  apply IH in Hrun; [|cbn [stdin List.length] in *; lia].
  destruct Hrun as (pairs & Hin & Hkeys & Hres & Htr & Hsv).
  cbn [stdin trace service] in *.
  exists ((String c key', value) :: pairs).
  split; [cbn [typed_pairs flat_map fst snd app]; rewrite Hin; reflexivity|].
  split; [constructor; [reflexivity | exact Hkeys]|].
  repeat split; assumption.
Qed.

Lemma assigned_truthy (pairs : list (string * string)) :
  forall metadata,
    dict_truthy metadata = true -> dict_truthy (assigned metadata pairs) = true.
Proof.
  induction pairs as [|p rest IH]; intros metadata H; [exact H|].
  apply IH. destruct metadata as [|[k v] md]; [reflexivity|].
  cbn [dict_set]. destruct (String.eqb k (fst p)); reflexivity.
Qed.

Ltac run_meta :=
  cbn -[String.append nl count metadata_sent set_blob_metadata_while print_items] in *.

(** X10.  [set_blob_metadata] sends metadata only when it was typed and
    confirmed.  If its run issued a metadata-setting call, then the script
    was the two names, at least one pair with a non-empty key, an empty
    line, and the answer y in either case; and the run issued exactly one
    such call, on the blob named, with the dict of the pairs typed. *)
Theorem set_blob_metadata_sends_only_confirmed_pairs (w : World event Svc) :
  count is_set_metadata (issued w (snd (set_blob_metadata w))) <> 0 ->
  exists cn bn pairs confirm rest,
    stdin w = cn :: bn :: typed_pairs pairs ++ "" :: confirm :: rest /\
    pairs <> [] /\
    Forall (fun p => truthy (fst p) = true) pairs /\
    (confirm = "y" \/ confirm = "Y") /\
    metadata_sent (issued w (snd (set_blob_metadata w)))
      = [(mkBlobClient cn bn, assigned [] pairs)].
Proof.
  unfold set_blob_metadata, set_blob_metadata_try, try_except, bind, print, input, ret,
    get_blob_client, BlobClient_exists, BlobClient_set_blob_metadata, sdk_call.
  run_meta.
  destruct (stdin w) as [|cn [|bn lines]] eqn:Hin; run_meta.
  1,2: rewrite (issued_app w _ []) by (cbn [trace]; rewrite app_nil_r; reflexivity);
       intros H; exfalso; apply H; reflexivity.
  destruct (new_blob_client cn bn) as [e|] eqn:Hnew; run_meta.
  { rewrite (issued_app w _ [_]) by reflexivity. intros H; exfalso; apply H; reflexivity. }
  destruct (service_exists (mkBlobClient cn bn) (service w)) as [[[|]|e] s1] eqn:Hex;
    run_meta.
  2,3: rewrite (issued_app w _ [_; _]) by (cbn [trace]; rewrite <- app_assoc; reflexivity);
       intros H; exfalso; apply H; reflexivity.
  match goal with
  | |- context [set_blob_metadata_while [] ?w0] =>
      destruct (set_blob_metadata_while [] w0) as [[md|e] w1] eqn:Hloop;
      [ destruct (set_blob_metadata_while_returns _ [] md w0 w1 (Nat.lt_succ_diag_r _) Hloop)
          as (pairs & Hlines & Hkeys & Hmd & Htr & Hsv)
      | destruct (set_blob_metadata_while_quiet _ [] w0 (Nat.lt_succ_diag_r _))
          as (_ & Htr & _ & _); rewrite Hloop in Htr ]
  end; run_meta.
  2:{ rewrite (issued_app w _ [_; _]) by (cbn [trace]; rewrite Htr, <- app_assoc; reflexivity).
      intros H; exfalso; apply H; reflexivity. }
  destruct (dict_truthy md) eqn:Htruthy; run_meta.
  2:{ rewrite (issued_app w _ [_; _]) by (cbn [trace]; rewrite Htr, <- app_assoc; reflexivity).
      intros H; exfalso; apply H; reflexivity. }
  match goal with
  | |- context [print_items md ?w0] => destruct (print_items_run md w0) as [out2 Hitems]
  end.
  rewrite Hitems. run_meta.
  destruct (stdin w1) as [|confirm rest] eqn:Hin1; run_meta.
  { rewrite (issued_app w _ [_; _]) by (cbn [trace]; rewrite Htr, <- app_assoc; reflexivity).
    intros H; exfalso; apply H; reflexivity. }
  destruct (String.eqb (lower confirm) "y") eqn:Hy; run_meta.
  2:{ rewrite (issued_app w _ [_; _]) by (cbn [trace]; rewrite Htr, <- app_assoc; reflexivity).
      intros H; exfalso; apply H; reflexivity. }
  intros _. exists cn, bn, pairs, confirm, rest.
  split; [rewrite Hlines; reflexivity|].
  split; [intros ->; rewrite Hmd in Htruthy; discriminate|].
  split; [exact Hkeys|].
  split; [apply lower_is_y; apply String.eqb_eq; exact Hy|].
  destruct (service_set_blob_metadata _ _ _) as [[[]|e] s2];
    run_meta;
    try (destruct (is_resource_not_found e));
    rewrite (issued_app w _ [_; _; _])
      by (cbn [trace]; rewrite Htr, <- !app_assoc; reflexivity);
    rewrite Hmd; reflexivity.
Qed.

(** X11.  When the blob exists and the operator types at least one pair,
    an empty line and y, [set_blob_metadata] issues exactly one
    metadata-setting call, after the construction of the client and the
    existence check, on the blob named and with the dict of the pairs typed;
    it returns whatever that call answers, having read the script up to the
    confirmation. *)
Theorem set_blob_metadata_sends_the_pairs
    (w : World event Svc) (cn bn confirm : string) (pairs : list (string * string))
    (rest : list string) (s1 : Svc) :
  stdin w = cn :: bn :: typed_pairs pairs ++ "" :: confirm :: rest ->
  pairs <> [] ->
  Forall (fun p => truthy (fst p) = true) pairs ->
  lower confirm = "y" ->
  new_blob_client cn bn = None ->
  service_exists (mkBlobClient cn bn) (service w) = (Ret true, s1) ->
  fst (set_blob_metadata w) = Ret tt /\
  stdin (snd (set_blob_metadata w)) = rest /\
  exists r,
    issued w (snd (set_blob_metadata w))
      = [GetBlobClient cn bn (Ret (mkBlobClient cn bn));
         Exists (mkBlobClient cn bn) (Ret true);
         SetBlobMetadata (mkBlobClient cn bn) (assigned [] pairs) r] /\
    (r, service (snd (set_blob_metadata w)))
      = service_set_blob_metadata (mkBlobClient cn bn) (assigned [] pairs) s1.
Proof.
  intros Hin Hne Hkeys Hy Hnew Hex. apply String.eqb_eq in Hy.
  assert (Htruthy : dict_truthy (assigned [] pairs) = true).
  { destruct pairs as [|p others]; [contradiction|].
    apply (assigned_truthy others). reflexivity. }
  unfold set_blob_metadata, set_blob_metadata_try, try_except, bind, print, input, ret,
    get_blob_client, BlobClient_exists, BlobClient_set_blob_metadata, sdk_call.
  run_meta. rewrite Hin. run_meta. rewrite Hnew. run_meta. rewrite Hex. run_meta.
  match goal with
  | |- context [set_blob_metadata_while [] ?w0] =>
      destruct (set_blob_metadata_while_reads pairs [] w0 (confirm :: rest) eq_refl Hkeys)
        as [out Hloop]
  end.
  rewrite Hloop. run_meta. rewrite Htruthy. run_meta.
  match goal with
  | |- context [print_items ?md ?w0] => destruct (print_items_run md w0) as [out2 Hitems]
  end.
  rewrite Hitems. run_meta. rewrite Hy. run_meta.
  destruct (service_set_blob_metadata _ _ _) as [[[]|e] s2]; run_meta;
    try (destruct (is_resource_not_found e));
    (split; [reflexivity|]); (split; [reflexivity|]);
    eexists; (split; [|reflexivity]);
    apply issued_app; cbn [trace]; rewrite <- !app_assoc; reflexivity.
Qed.

(** The keys of a dict, in the order [metadata.items()] gives them. *)
Lemma dict_set_keys (metadata : dict) (key value : string) :
  (forall k, In k (map fst (dict_set metadata key value))
             <-> k = key \/ In k (map fst metadata)) /\
  (NoDup (map fst metadata) -> NoDup (map fst (dict_set metadata key value))).
Proof.
  induction metadata as [|[k0 v0] rest [IHin IHnd]]; cbn [dict_set map fst].
  - split; [intros k; cbn; intuition congruence|].
    intros _. constructor; [intros []|constructor].
  - destruct (String.eqb k0 key) eqn:Hk; cbn [map fst].
    + apply String.eqb_eq in Hk. subst k0. split; [|auto].
      intros k. cbn [In]. intuition congruence.
    + apply String.eqb_neq in Hk. split.
      * intros k. cbn [In]. rewrite IHin. intuition congruence.
      * intros Hnd. inversion Hnd as [|x l Hx Hl]; subst.
        constructor; [|apply IHnd; exact Hl].
        rewrite IHin. intros [Heq | Hin]; [congruence | contradiction].
Qed.

Lemma dict_set_values (metadata : dict) (key value : string) :
  In (key, value) (dict_set metadata key value) /\
  (forall k v, k <> key -> In (k, v) metadata -> In (k, v) (dict_set metadata key value)).
Proof.
  induction metadata as [|[k0 v0] rest [IH1 IH2]]; cbn [dict_set].
  - split; [left; reflexivity | intros k v _ []].
  - destruct (String.eqb k0 key) eqn:Hk.
    + apply String.eqb_eq in Hk. subst k0. split; [left; reflexivity|].
      intros k v Hne [Heq | Hin]; [congruence | right; exact Hin].
    + split; [right; exact IH1|].
      intros k v Hne [Heq | Hin]; [left; exact Heq | right; apply IH2; assumption].
Qed.

(** X12.  The dict that [set_blob_metadata] builds: whatever is typed, no
    key appears twice in it, its keys are the keys typed, and a key typed
    several times has the value typed last. *)
Theorem assigned_is_a_dict (pairs : list (string * string)) :
  NoDup (map fst (assigned [] pairs)) /\
  (forall k, In k (map fst (assigned [] pairs)) <-> In k (map fst pairs)) /\
  (forall before k v later,
      pairs = before ++ (k, v) :: later ->
      ~ In k (map fst later) ->
      In (k, v) (assigned [] pairs)).
Proof.
  assert (Hgen : forall ps md,
             (NoDup (map fst md) -> NoDup (map fst (assigned md ps))) /\
             (forall k, In k (map fst (assigned md ps))
                        <-> In k (map fst md) \/ In k (map fst ps)) /\
             (forall k v, In (k, v) md -> ~ In k (map fst ps) ->
                          In (k, v) (assigned md ps))).
  { induction ps as [|[k0 v0] rest IH]; intros md; cbn [assigned fold_left map fst snd].
    - split; [auto|]. split; [intros k; cbn; tauto | intros k v H _; exact H].
    - destruct (IH (dict_set md k0 v0)) as (I1 & I2 & I3).
      destruct (dict_set_keys md k0 v0) as [K1 K2].
      destruct (dict_set_values md k0 v0) as [V1 V2].
      split; [intros Hnd; apply I1, K2, Hnd|].
      split.
      + intros k. unfold assigned in I2. rewrite I2, K1. cbn [In]. intuition congruence.
      + intros k v Hin Hnot. apply I3.
        * apply V2; [|exact Hin]. intros ->. apply Hnot. left. reflexivity.
        * intros Hl. apply Hnot. right. exact Hl. }
  split; [apply Hgen; constructor|].
  split; [intros k; rewrite (proj1 (proj2 (Hgen pairs []))); cbn; tauto|].
  intros before k v later -> Hnot.
  unfold assigned. rewrite fold_left_app. cbn [fold_left fst snd].
  apply (proj2 (proj2 (Hgen later _))); [|exact Hnot].
  apply (proj1 (dict_set_values _ k v)).
Qed.

(** *** The information handlers *)

(** X13.  The three information handlers only read: each builds a client
    and fetches the properties, and issues no copy, no delete, no
    metadata-setting call and no existence check. *)
Theorem information_handlers_only_read (w : World event Svc) :
  (count is_write (issued w (snd (get_access_tier w))) = 0 /\
   count is_exists (issued w (snd (get_access_tier w))) = 0) /\
  (count is_write (issued w (snd (get_blob_properties w))) = 0 /\
   count is_exists (issued w (snd (get_blob_properties w))) = 0) /\
  (count is_write (issued w (snd (view_blob_metadata w))) = 0 /\
   count is_exists (issued w (snd (view_blob_metadata w))) = 0).
Proof.
  destruct emits_information_handlers as (H1 & H2 & H3).
  split; [|split]; split; apply Forall_count_zero.
  1,2: eapply Forall_impl; [|exact (proj1 (emits_issued _ _ w H1))]; intros e [? ?]; assumption.
  1,2: eapply Forall_impl; [|exact (proj1 (emits_issued _ _ w H2))]; intros e [? ?]; assumption.
  1,2: eapply Forall_impl; [|exact (proj1 (emits_issued _ _ w H3))]; intros e [? ?]; assumption.
Qed.

(** *** The menu *)

Lemma emits_main_menu_dispatch (P : event -> Prop) (choice : string) :
  (choice = "1" \/ choice = "2" ->
   forall e, is_delete e = false /\ is_set_metadata e = false -> P e) ->
  (choice = "3" \/ choice = "4" -> forall e, is_set_metadata e = false -> P e) ->
  (choice = "5" \/ choice = "6" \/ choice = "7" ->
   forall e, is_write e = false /\ is_exists e = false -> P e) ->
  (choice = "8" -> forall e, is_copy e = false /\ is_delete e = false -> P e) ->
  emits P (main_menu_dispatch choice).
Proof.
  intros H12 H34 H567 H8. unfold main_menu_dispatch.
  destruct emits_information_handlers as (I1 & I2 & I3).
  destruct emits_move_handlers as (M1 & M2).
  repeat match goal with
         | |- emits _ (if String.eqb choice ?c then _ else _) =>
             let E := fresh "E" in
             destruct (String.eqb choice c) eqn:E;
             [apply String.eqb_eq in E; apply emits_bind; [|intros ?; apply emits_ret]|]
         end.
  - eapply emits_weaken; [apply H12; auto | exact emits_copy_specific_blob].
  - eapply emits_weaken; [apply H12; auto | exact emits_copy_all_blobs].
  - eapply emits_weaken; [apply H34; auto | exact M1].
  - eapply emits_weaken; [apply H34; auto | exact M2].
  - eapply emits_weaken; [apply H567; auto | exact I1].
  - eapply emits_weaken; [apply H567; auto | exact I2].
  - eapply emits_weaken; [apply H567; auto | exact I3].
  - eapply emits_weaken; [apply H8; auto | exact emits_set_blob_metadata].
  - apply emits_print.
  - apply emits_bind; [apply emits_print | intros ?; apply emits_ret].
Qed.

(** X14.  What a menu entry can do to the account: a delete call comes
    only from entries 3 and 4, a metadata-setting call only from entry 8, and
    a copy only from entries 1 to 4; so entries 5, 6 and 7, the quit entry
    and an invalid choice change nothing. *)
Theorem main_menu_dispatch_writes_by_entry (choice : string) (w : World event Svc) :
  (choice <> "3" -> choice <> "4" ->
   count is_delete (issued w (snd (main_menu_dispatch choice w))) = 0) /\
  (choice <> "8" ->
   count is_set_metadata (issued w (snd (main_menu_dispatch choice w))) = 0) /\
  (choice <> "1" -> choice <> "2" -> choice <> "3" -> choice <> "4" ->
   count is_copy (issued w (snd (main_menu_dispatch choice w))) = 0).
Proof.
  split; [|split].
  - intros N3 N4. apply Forall_count_zero.
    apply (emits_issued (fun e => is_delete e = false)).
    apply emits_main_menu_dispatch.
    + intros _ e [H _]. exact H.
    + intros [-> | ->]; contradiction.
    + intros _ e [H _]. destruct e; try reflexivity; discriminate H.
    + intros _ e [_ H]. exact H.
  - intros N8. apply Forall_count_zero.
    apply (emits_issued (fun e => is_set_metadata e = false)).
    apply emits_main_menu_dispatch.
    + intros _ e [_ H]. exact H.
    + intros _ e H. exact H.
    + intros _ e [H _]. destruct e; try reflexivity; discriminate H.
    + intros ->. contradiction.
  - intros N1 N2 N3 N4. apply Forall_count_zero.
    apply (emits_issued (fun e => is_copy e = false)).
    apply emits_main_menu_dispatch.
    + intros [-> | ->]; contradiction.
    + intros [-> | ->]; contradiction.
    + intros _ e [H _]. destruct e; try reflexivity; discriminate H.
    + intros _ e [H _]. exact H.
Qed.

(** Builds [only_eof] for a handler: prints, inputs, then a [try] whose
    clauses only print. *)
Ltac only_eof_go :=
  repeat first
    [ apply only_eof_input
    | apply never_raises_only_eof;
      first [ apply never_raises_print
            | apply never_raises_ret
            | apply never_raises_try_except;
              first [ apply never_raises_except_clauses
                    | intros ?; apply never_raises_print ] ]
    | apply only_eof_bind; [|intros ?]
    | match goal with |- only_eof (if ?b then _ else _) => destruct b end ].

Lemma only_eof_main_menu_dispatch (choice : string) :
  only_eof (Svc := Svc) (main_menu_dispatch choice).
Proof.
  unfold main_menu_dispatch, copy_specific_blob, copy_all_blobs, move_specific_blob,
    move_all_blobs, get_access_tier, get_blob_properties, view_blob_metadata,
    set_blob_metadata.
  only_eof_go.
Qed.

(** Runs the prints and inputs of a turn, by value: each world is computed
    once before it is passed on. *)
Ltac run_menu :=
  cbv beta iota zeta delta [main_menu main_menu_turn main_menu_print clear_screen
                       bind print input ret stdin stdout trace service fst snd].

(** The loop is its turn, then the loop again unless the turn left it. *)
Lemma main_menu_unfold (fuel : nat) (w : World event Svc) :
  main_menu (Datatypes.S fuel) w =
  (quit <- main_menu_turn ;; if quit then ret (Some tt) else main_menu fuel) w.
Proof.
  run_menu.
  destruct w as [i o t s]. destruct i as [|choice rest]; [reflexivity|].
  match goal with
  | |- context [main_menu_dispatch (lower choice) ?w1] =>
      destruct (main_menu_dispatch (lower choice) w1) as [[[|]|e] [i2 o2 t2 s2]]
  end; try reflexivity.
  destruct i2 as [|enter rest2]; reflexivity.
Qed.

(** A turn reads at least one line when it returns, lets out nothing but
    [EOFError], and issues only the calls of the handler chosen. *)
Lemma main_menu_turn_progress (w : World event Svc) :
  (forall quit, fst (main_menu_turn w) = Ret quit ->
                List.length (stdin (snd (main_menu_turn w))) < List.length (stdin w)) /\
  (forall e, fst (main_menu_turn w) = Raise e -> e = EOFError).
Proof.
  destruct w as [i o t s].
  destruct i as [|choice rest].
  { run_menu. split; [discriminate|]. intros e H. injection H as <-. reflexivity. }
  run_menu.
  match goal with
  | |- context [main_menu_dispatch (lower choice) ?w1] =>
      pose proof (only_eof_main_menu_dispatch (lower choice) w1) as Hraise;
      pose proof (proj2 (emits_issued (fun _ => True) _ w1
                           (emits_main_menu_dispatch _ (lower choice)
                              (fun _ _ _ => I) (fun _ _ _ => I)
                              (fun _ _ _ => I) (fun _ _ _ => I)))) as Hlen;
      destruct (main_menu_dispatch (lower choice) w1) as [[[|]|e] [i2 o2 t2 s2]]
  end; cbn [fst snd stdin List.length] in *.
  - split; [intros _ _; lia | discriminate].
  - destruct i2 as [|enter rest2]; cbn [fst snd stdin List.length] in *.
    + split; [discriminate|]. intros e H. injection H as <-. reflexivity.
    + split; [intros _ _; lia | discriminate].
  - split; [discriminate|]. intros e0 H. injection H as <-. apply Hraise. reflexivity.
Qed.

(** X15.  The menu loop always ends, and it ends in two ways only: by the
    quit entry, or with the [EOFError] of a script that ran out.  No answer
    of the service ends it, since no handler lets an SDK exception out.  A
    number of turns above the number of lines on the script is never used
    up, and any two such numbers give the same run. *)
Theorem main_menu_ends_by_quit_or_end_of_input (fuel : nat) :
  forall (w : World event Svc),
    List.length (stdin w) < fuel ->
    (fst (main_menu fuel w) = Ret (Some tt) \/ fst (main_menu fuel w) = Raise EOFError) /\
    (forall fuel', List.length (stdin w) < fuel' -> main_menu fuel' w = main_menu fuel w).
Proof.
  induction fuel as [|fuel IH]; intros w Hlen; [lia|].
  destruct (main_menu_turn_progress w) as [Hprog Hraise].
  split.
  - rewrite main_menu_unfold. unfold bind.
    destruct (main_menu_turn w) as [[[|]|e] w1]; cbn [fst snd] in *.
    + left. reflexivity.
    + apply IH. specialize (Hprog false eq_refl). lia.
    + right. rewrite (Hraise e eq_refl). reflexivity.
  - intros fuel' Hlen'. destruct fuel' as [|fuel']; [lia|].
    rewrite !main_menu_unfold. unfold bind.
    destruct (main_menu_turn w) as [[[|]|e] w1]; cbn [fst snd] in *; try reflexivity.
    specialize (Hprog false eq_refl).
    apply IH; lia.
Qed.

(** X16.  Leaving the menu, and a choice that is no entry.  The letter q
    in either case leaves the loop at once: no handler runs, no call is
    issued, and the lines after it are left unread.  A choice that is none of
    1 to 8 and not q runs no handler and issues no call either: the menu
    waits for Enter and shows again. *)
Theorem main_menu_quit_and_invalid_choice
    (fuel : nat) (w : World event Svc) (choice : string) (lines : list string) :
  stdin w = choice :: lines ->
  (choice = "q" \/ choice = "Q" ->
   fst (main_menu (Datatypes.S fuel) w) = Ret (Some tt) /\
   issued w (snd (main_menu (Datatypes.S fuel) w)) = [] /\
   stdin (snd (main_menu (Datatypes.S fuel) w)) = lines /\
   service (snd (main_menu (Datatypes.S fuel) w)) = service w) /\
  (~ In (lower choice) ["1"; "2"; "3"; "4"; "5"; "6"; "7"; "8"; "q"] ->
   forall enter rest, lines = enter :: rest ->
   exists out,
     main_menu (Datatypes.S fuel) w
       = main_menu fuel (mkWorld rest (stdout w ++ out) (trace w) (service w))).
Proof.
  intros Hin. destruct w as [i o t s]. cbn [stdin] in Hin. subst i. split.
  - intros Hq.
    assert (Hl : lower choice = "q") by (destruct Hq as [-> | ->]; reflexivity).
    cbn [main_menu]. run_menu. rewrite Hl.
    cbv beta iota zeta delta [main_menu_dispatch String.eqb Ascii.eqb Bool.eqb
                              bind print ret stdin stdout trace service fst snd].
    repeat split. apply issued_app. cbn [trace]. rewrite app_nil_r. reflexivity.
  - intros Hno enter rest ->.
    assert (Hd : main_menu_dispatch (Svc := Svc) (lower choice)
                 = (print "Invalid choice. Please try again." ;; ret false)).
    { unfold main_menu_dispatch.
      repeat match goal with
             | |- context [String.eqb (lower choice) ?c] =>
                 let E := fresh "E" in
                 destruct (String.eqb (lower choice) c) eqn:E;
                 [apply String.eqb_eq in E; exfalso; apply Hno; rewrite E; cbn; tauto|]
             end.
      reflexivity. }
    cbn [main_menu]. run_menu. rewrite Hd. run_menu.
    eexists. rewrite <- !app_assoc. reflexivity.
Qed.

End StorageMore.

(** ** More on the Cosmos DB manager *)

Section CosmosMore.
Import Cosmos.
Context {Svc : Type} {sdk : CosmosService Svc}.

(** X17.  A confirmed [delete_item] deletes what was typed: when the two
    proxies can be built it issues one delete call, on the container of the
    database and container names typed, with the item id and the partition
    key typed in that order, and nothing after it.  It returns normally
    whatever the call answers, and its last line reports the answer: success,
    item not found for the two not-found errors, or the text of any other
    exception. *)
Theorem delete_item_deletes_what_was_typed
    (w : World event Svc) (db c item pk confirm : string) (rest : list string) :
  stdin w = db :: c :: item :: pk :: confirm :: rest ->
  lower confirm = "y" ->
  new_database_client db = None ->
  new_container_client (mkDatabaseProxy db) c = None ->
  fst (delete_item w) = Ret tt /\
  stdin (snd (delete_item w)) = rest /\
  exists r,
    issued w (snd (delete_item w))
      = [GetDatabaseClient db (Ret (mkDatabaseProxy db));
         GetContainerClient (mkDatabaseProxy db) c (Ret (mkContainerProxy db c));
         DeleteItem (mkContainerProxy db c) item pk r] /\
    (r, service (snd (delete_item w)))
      = service_delete_item (mkContainerProxy db c) item pk (service w) /\
    last (stdout (snd (delete_item w))) ""
      = (match r with
         | Ret _ => nl ++ "✅ Item deleted successfully!"
         | Raise e => if is_resource_not_found e
                      then "❌ ERROR: Item '" ++ item ++ "' not found."
                      else "An error occurred: " ++ exn_str e
         end)%string.
Proof.
  intros Hin Hy Hdb Hc. apply String.eqb_eq in Hy.
  unfold delete_item, delete_item_try, delete_item_except, try_except, bind, print, input,
    get_database_client, get_container_client, ContainerProxy_delete_item, sdk_call.
  cbn -[String.append nl]. rewrite Hin. cbn -[String.append nl].
  rewrite Hy. cbn -[String.append nl]. rewrite Hdb. cbn -[String.append nl].
  rewrite Hc. cbn -[String.append nl].
  destruct (service_delete_item (mkContainerProxy db c) item pk (service w))
    as [[[]|e] s1]; cbn -[String.append nl];
    try (destruct (is_resource_not_found e) eqn:Hnf; cbn -[String.append nl]);
    (split; [reflexivity|]); (split; [reflexivity|]);
    eexists; (split; [apply issued_app; cbn [trace]; rewrite <- !app_assoc; reflexivity|]);
    rewrite last_last, ?Hnf; split; reflexivity.
Qed.

(** X18.  No exception of the SDK comes out of [delete_item]: it raises
    only when the script has fewer than the five lines it reads before its
    [try], and then the exception is the [EOFError] of [input]. *)
Theorem delete_item_contains_exceptions (w : World event Svc) (e : exn) :
  fst (delete_item w) = Raise e -> e = EOFError /\ List.length (stdin w) < 5.
Proof.
  unfold delete_item, bind, print, input.
  cbn -[String.append nl try_except delete_item_try List.length].
  destruct (stdin w) as [|l1 [|l2 [|l3 [|l4 [|l5 rest]]]]];
    cbn -[String.append nl try_except delete_item_try List.length].
  1-5: intros H; injection H as <-; split; [reflexivity | cbn [List.length]; lia].
  destruct (String.eqb (lower l5) "y"); cbn [negb fst].
  - intros H. exfalso. revert H.
    match goal with
    | |- fst (try_except ?m ?h ?w0) = _ -> _ =>
        destruct (never_raises_try_except m h
                    ltac:(intros x; unfold delete_item_except;
                          destruct (is_resource_not_found x); apply never_raises_print)
                    w0) as [a Ha]
    end.
    rewrite Ha. discriminate.
  - unfold ret. discriminate.
Qed.

End CosmosMore.

(** * More runs on the in-memory account *)

Section MoreRuns.
Import Storage Emulator.

Lemma move_all_blobs_keeps_names_and_order_witness :
  let acc := two_blobs 0 "success" in
  let w0 := session ["a"; "b"; "y"] acc in
  let blob_list := [mkBlobProperties "x.txt" no_copy; mkBlobProperties "y.txt" no_copy] in
  stdin w0 = "a" :: "b" :: "y" :: [] /\
  lower "y" = "y" /\
  new_container_client "a" = None /\
  service_list_blobs (mkContainerClient "a") (service w0) = (Ret blob_list, acc) /\
  copies (issued w0 (snd (move_all_blobs w0)))
    = [(mkBlobClient "b" "x.txt", url x_in_a);
       (mkBlobClient "b" "y.txt", url (mkBlobClient "a" "y.txt"))].
Proof.
  intros acc w0 blob_list.
  assert (H1 : stdin w0 = "a" :: "b" :: "y" :: []) by reflexivity.
  assert (H2 : lower "y" = "y") by reflexivity.
  assert (H3 : new_container_client "a" = None) by reflexivity.
  assert (H4 : service_list_blobs (mkContainerClient "a") (service w0)
               = (Ret blob_list, acc)) by reflexivity.
  split; [exact H1|]. split; [exact H2|]. split; [exact H3|]. split; [exact H4|].
  destruct (move_all_blobs_keeps_names_and_order w0 "a" "b" "y" [] blob_list acc H1 H2 H3 H4)
    as (_ & Hall & _).
  rewrite Hall; [reflexivity|]. vm_compute. reflexivity.
Defined.

Lemma copy_all_blobs_copies_each_in_order_witness :
  let acc := two_blobs 0 "failed" in
  let w0 := session ["a"; "b"; "left unread"] acc in
  let blob_list := [mkBlobProperties "x.txt" no_copy; mkBlobProperties "y.txt" no_copy] in
  stdin w0 = "a" :: "b" :: ["left unread"] /\
  new_container_client "a" = None /\
  service_list_blobs (mkContainerClient "a") (service w0) = (Ret blob_list, acc) /\
  stdin (snd (copy_all_blobs w0)) = ["left unread"] /\
  count is_delete (issued w0 (snd (copy_all_blobs w0))) = 0 /\
  copies (issued w0 (snd (copy_all_blobs w0)))
    = [(mkBlobClient "b" "x.txt", url x_in_a);
       (mkBlobClient "b" "y.txt", url (mkBlobClient "a" "y.txt"))].
Proof.
  intros acc w0 blob_list.
  assert (H1 : stdin w0 = "a" :: "b" :: ["left unread"]) by reflexivity.
  assert (H2 : new_container_client "a" = None) by reflexivity.
  assert (H3 : service_list_blobs (mkContainerClient "a") (service w0)
               = (Ret blob_list, acc)) by reflexivity.
  split; [exact H1|]. split; [exact H2|]. split; [exact H3|].
  destruct (copy_all_blobs_copies_each_in_order w0 "a" "b" _ blob_list acc H1 H2 H3)
    as (_ & Hin & Hdel & _ & Hall).
  split; [exact Hin|]. split; [exact Hdel|].
  rewrite Hall; [reflexivity|]. vm_compute. reflexivity.
Defined.

Lemma bulk_handlers_on_empty_container_witness :
  let acc := two_blobs 0 "success" in
  let w0 := session ["b"; "a"; "y"] acc in
  new_container_client "b" = None /\
  service_list_blobs (mkContainerClient "b") (service w0) = (Ret [], acc) /\
  stdin w0 = "b" :: "a" :: "y" :: [] /\
  lower "y" = "y" /\
  issued w0 (snd (move_all_blobs w0))
    = [GetContainerClient "b" (Ret (mkContainerClient "b"));
       ListBlobs (mkContainerClient "b") (Ret [])].
Proof.
  intros acc w0.
  assert (H1 : new_container_client "b" = None) by reflexivity.
  assert (H2 : service_list_blobs (mkContainerClient "b") (service w0) = (Ret [], acc))
    by reflexivity.
  assert (H3 : stdin w0 = "b" :: "a" :: "y" :: []) by reflexivity.
  assert (H4 : lower "y" = "y") by reflexivity.
  split; [exact H1|]. split; [exact H2|]. split; [exact H3|]. split; [exact H4|].
  exact (proj1 (proj2 (bulk_handlers_on_empty_container w0 "b" "a" "y" [] acc H1 H2) H3 H4)).
Defined.

Lemma bulk_handlers_when_enumeration_raises_witness :
  let acc := two_blobs 0 "success" in
  let w0 := session ["nowhere"; "b"] acc in
  new_container_client "nowhere" = None /\
  service_list_blobs (mkContainerClient "nowhere") (service w0)
    = (Raise missing_container, acc) /\
  stdin w0 = "nowhere" :: "b" :: [] /\
  fst (copy_all_blobs w0) = Ret tt /\
  count is_copy (issued w0 (snd (copy_all_blobs w0))) = 0.
Proof.
  intros acc w0.
  assert (H1 : new_container_client "nowhere" = None) by reflexivity.
  assert (H2 : service_list_blobs (mkContainerClient "nowhere") (service w0)
               = (Raise missing_container, acc)) by reflexivity.
  assert (H3 : stdin w0 = "nowhere" :: "b" :: []) by reflexivity.
  split; [exact H1|]. split; [exact H2|]. split; [exact H3|].
  destruct (proj1 (bulk_handlers_when_enumeration_raises
                     w0 "nowhere" "b" "" [] missing_container acc H1 H2) H3)
    as (Hr & Hiss & _).
  split; [exact Hr|]. rewrite Hiss. reflexivity.
Defined.

Lemma storage_handlers_contain_exceptions_witness :
  let w0 := session ["a"] (two_blobs 0 "success") in
  fst (move_specific_blob w0) = Raise EOFError /\
  List.length (stdin w0) < 3.
Proof.
  intros w0.
  assert (H : fst (move_specific_blob w0) = Raise EOFError) by reflexivity.
  split; [exact H|].
  exact (proj2 (proj1 (proj2 (proj2 (storage_handlers_contain_exceptions w0 EOFError))) H)).
Defined.

Lemma set_blob_metadata_sends_only_confirmed_pairs_witness :
  let w0 := session ["a"; "x.txt"; "owner"; "ayush"; "owner"; "team"; ""; "Y"]
                    (two_blobs 0 "success") in
  count is_set_metadata (issued w0 (snd (set_blob_metadata w0))) <> 0 /\
  metadata_sent (issued w0 (snd (set_blob_metadata w0))) = [(x_in_a, [("owner", "team")])] /\
  exists cn bn pairs confirm rest,
    stdin w0 = cn :: bn :: typed_pairs pairs ++ "" :: confirm :: rest /\
    pairs <> [] /\
    Forall (fun p => truthy (fst p) = true) pairs /\
    (confirm = "y" \/ confirm = "Y") /\
    metadata_sent (issued w0 (snd (set_blob_metadata w0)))
      = [(mkBlobClient cn bn, assigned [] pairs)].
Proof.
  intros w0.
  assert (H : count is_set_metadata (issued w0 (snd (set_blob_metadata w0))) <> 0)
    by (vm_compute; discriminate).
  split; [exact H|].
  split; [reflexivity|].
  exact (set_blob_metadata_sends_only_confirmed_pairs w0 H).
Defined.

Lemma set_blob_metadata_sends_the_pairs_witness :
  let acc := two_blobs 0 "success" in
  let w0 := session ["a"; "x.txt"; "owner"; "ayush"; ""; "y"; "next"] acc in
  stdin w0 = "a" :: "x.txt" :: typed_pairs [("owner", "ayush")] ++ "" :: "y" :: ["next"] /\
  [("owner", "ayush")] <> [] /\
  Forall (fun p => truthy (fst p) = true) [("owner", "ayush")] /\
  lower "y" = "y" /\
  new_blob_client "a" "x.txt" = None /\
  service_exists x_in_a (service w0) = (Ret true, acc) /\
  stdin (snd (set_blob_metadata w0)) = ["next"] /\
  exists r,
    issued w0 (snd (set_blob_metadata w0))
      = [GetBlobClient "a" "x.txt" (Ret x_in_a); Exists x_in_a (Ret true);
         SetBlobMetadata x_in_a [("owner", "ayush")] r].
Proof.
  intros acc w0.
  assert (H1 : stdin w0 = "a" :: "x.txt" :: typed_pairs [("owner", "ayush")]
                           ++ "" :: "y" :: ["next"]) by reflexivity.
  assert (H2 : [("owner", "ayush")] <> @nil (string * string)) by discriminate.
  assert (H3 : Forall (fun p => truthy (fst p) = true) [("owner", "ayush")])
    by (repeat constructor).
  assert (H4 : lower "y" = "y") by reflexivity.
  assert (H5 : new_blob_client "a" "x.txt" = None) by reflexivity.
  assert (H6 : service_exists x_in_a (service w0) = (Ret true, acc)) by reflexivity.
  split; [exact H1|]. split; [exact H2|]. split; [exact H3|]. split; [exact H4|].
  split; [exact H5|]. split; [exact H6|].
  destruct (set_blob_metadata_sends_the_pairs w0 "a" "x.txt" "y" _ _ acc H1 H2 H3 H4 H5 H6)
    as (_ & Hin & r & Hiss & _).
  split; [exact Hin|]. exists r. exact Hiss.
Defined.

Lemma assigned_is_a_dict_witness :
  let pairs := [("owner", "ayush"); ("tier", "hot"); ("owner", "team")] in
  pairs = [("owner", "ayush"); ("tier", "hot")] ++ ("owner", "team") :: [] /\
  ~ In "owner" (map fst (@nil (string * string))) /\
  In ("owner", "team") (assigned [] pairs) /\
  NoDup (map fst (assigned [] pairs)).
Proof.
  intros pairs.
  assert (H1 : pairs = [("owner", "ayush"); ("tier", "hot")] ++ ("owner", "team") :: [])
    by reflexivity.
  assert (H2 : ~ In "owner" (map fst (@nil (string * string)))) by (intros []).
  split; [exact H1|]. split; [exact H2|].
  destruct (assigned_is_a_dict pairs) as (Hnd & _ & Hlast).
  split; [exact (Hlast _ _ _ _ H1 H2) | exact Hnd].
Defined.

Lemma main_menu_dispatch_writes_by_entry_witness :
  let w0 := session ["a"; "x.txt"] (two_blobs 0 "success") in
  "7" <> "3" /\ "7" <> "4" /\
  count is_delete (issued w0 (snd (main_menu_dispatch "7" w0))) = 0.
Proof.
  intros w0.
  assert (H1 : "7" <> "3") by discriminate.
  assert (H2 : "7" <> "4") by discriminate.
  split; [exact H1|]. split; [exact H2|].
  exact (proj1 (main_menu_dispatch_writes_by_entry "7" w0) H1 H2).
Defined.

Lemma main_menu_ends_by_quit_or_end_of_input_witness :
  let w0 := session ["3"; "a"; "x.txt"; "b"; ""; "5"; "b"; "x.txt"; ""; "Q"]
                    (two_blobs 0 "success") in
  List.length (stdin w0) < 11 /\
  fst (main_menu 11 w0) = Ret (Some tt) /\
  main_menu 40 w0 = main_menu 11 w0.
Proof.
  intros w0.
  assert (H1 : List.length (stdin w0) < 11) by (vm_compute; lia).
  split; [exact H1|].
  destruct (main_menu_ends_by_quit_or_end_of_input 11 w0 H1) as [Hend Hfuel].
  split.
  - destruct Hend as [H | H]; [exact H|].
    assert (Hrun : fst (main_menu 11 w0) = Ret (Some tt)) by (vm_compute; reflexivity).
    rewrite Hrun in H. discriminate H.
  - apply Hfuel. vm_compute. lia.
Defined.

Lemma main_menu_quit_and_invalid_choice_witness :
  let w0 := session ["Q"; "3"; "a"] (two_blobs 0 "success") in
  stdin w0 = "Q" :: ["3"; "a"] /\
  ("Q" = "q" \/ "Q" = "Q") /\
  fst (main_menu 1 w0) = Ret (Some tt) /\
  issued w0 (snd (main_menu 1 w0)) = [] /\
  stdin (snd (main_menu 1 w0)) = ["3"; "a"].
Proof.
  intros w0.
  assert (H1 : stdin w0 = "Q" :: ["3"; "a"]) by reflexivity.
  assert (H2 : "Q" = "q" \/ "Q" = "Q") by (right; reflexivity).
  split; [exact H1|]. split; [exact H2|].
  destruct (proj1 (main_menu_quit_and_invalid_choice 0 w0 "Q" _ H1) H2)
    as (Hr & Hiss & Hin & _).
  repeat split; assumption.
Defined.

(** The menu end to end: entry 3 moves [x.txt] from [a] to [b], entry 5
    looks at it there, and Q leaves. *)
Example main_menu_move_then_look :
  let w0 := session ["3"; "a"; "x.txt"; "b"; ""; "5"; "b"; "x.txt"; ""; "Q"]
                    (two_blobs 0 "success") in
  fst (main_menu 11 w0) = Ret (Some tt) /\
  deleted (issued w0 (snd (main_menu 11 w0))) = [x_in_a] /\
  has_blob (service (snd (main_menu 11 w0))) x_in_b = true /\
  has_blob (service (snd (main_menu 11 w0))) x_in_a = false.
Proof. vm_compute. repeat split. Qed.

End MoreRuns.

Section MoreCosmosRuns.
Import Cosmos CosmosEmulator.

Lemma delete_item_deletes_what_was_typed_witness :
  let its := [("shop", "books", "item3", "books")] in
  let w0 := session ["shop"; "books"; "item3"; "books"; "y"] its in
  stdin w0 = "shop" :: "books" :: "item3" :: "books" :: "y" :: [] /\
  lower "y" = "y" /\
  new_database_client "shop" = None /\
  new_container_client (mkDatabaseProxy "shop") "books" = None /\
  exists r,
    issued w0 (snd (delete_item w0))
      = [GetDatabaseClient "shop" (Ret (mkDatabaseProxy "shop"));
         GetContainerClient (mkDatabaseProxy "shop") "books"
           (Ret (mkContainerProxy "shop" "books"));
         DeleteItem (mkContainerProxy "shop" "books") "item3" "books" r].
Proof.
  intros its w0.
  assert (H1 : stdin w0 = "shop" :: "books" :: "item3" :: "books" :: "y" :: [])
    by reflexivity.
  assert (H2 : lower "y" = "y") by reflexivity.
  assert (H3 : new_database_client "shop" = None) by reflexivity.
  assert (H4 : new_container_client (mkDatabaseProxy "shop") "books" = None) by reflexivity.
  split; [exact H1|]. split; [exact H2|]. split; [exact H3|]. split; [exact H4|].
  destruct (delete_item_deletes_what_was_typed w0 _ _ _ _ _ _ H1 H2 H3 H4)
    as (_ & _ & r & Hiss & _).
  exists r. exact Hiss.
Defined.

Lemma delete_item_contains_exceptions_witness :
  let w0 := session ["shop"; "books"] [("shop", "books", "item3", "books")] in
  fst (delete_item w0) = Raise EOFError /\
  List.length (stdin w0) < 5.
Proof.
  intros w0.
  assert (H : fst (delete_item w0) = Raise EOFError) by reflexivity.
  split; [exact H|].
  exact (proj2 (delete_item_contains_exceptions w0 EOFError H)).
Defined.

End MoreCosmosRuns.
